(** * nsp2grading command-line tool: model and verified properties

    Shallow embedding of [src/nsp2grading/cli.py].  The grading home (the
    directory that holds [grading.toml]) is a tree of named nodes; paths are
    lists of segments relative to it, as on a POSIX system without symbolic
    links.  The commands are computations in a small state-and-exception
    monad over a world made of the file tree, the working directory, the
    state of the external environment manager, the console and a log of the
    subprocess calls.

    The model starts where a subcommand starts: the group callback [cli] has
    printed its empty line and has put the configuration and the grading
    home into the context.  The progress bar of [track] is left out.  The
    captured output of a subprocess is a byte string; the batches decode
    the error output and print through the markup parser of [rich], and
    either step can raise. *)

From Stdlib Require Import ZArith Lia Ascii String List.
From stdpp Require Import base option list strings sorting.

Local Open Scope string_scope.
Local Open Scope list_scope.

(** ** Strings *)

(** [s.endswith(suffix)], the test behind the pattern [*.zip]: some tail of
    [s] is [suffix]. *)
Fixpoint ends_with (suffix s : string) : bool :=
  String.eqb suffix s ||
  match s with
  | String _ s' => ends_with suffix s'
  | "" => false
  end.

Definition is_lower (c : ascii) : bool :=
  (97 <=? nat_of_ascii c)%nat && (nat_of_ascii c <=? 122)%nat.

(** The longest run of characters of [[a-z]] at the start of a string, and
    what follows it. *)
Fixpoint span_lower (s : string) : string * string :=
  match s with
  | String c s' =>
      if is_lower c
      then let '(run, rest) := span_lower s' in (String c run, rest)
      else ("", s)
  | "" => ("", "")
  end.

Fixpoint all_lower (s : string) : bool :=
  match s with
  | String c s' => is_lower c && all_lower s'
  | "" => true
  end.

(** [RE_STUDENT_NAME = "(?P<name>[a-z]+)_"], used through
    [re.match(RE_STUDENT_NAME, name)]: the result is the group [name] of the
    match, or [None] when the name does not start with one or more lower-case
    letters followed by an underscore.  The class is greedy and excludes the
    underscore, so only the longest run can be followed by it. *)
Definition re_match_student (name : string) : option string :=
  match span_lower name with
  | (String c run, String "_" _) => Some (String c run)
  | _ => None
  end.

(** ** Paths *)

Abbreviation Path := (list string).

(** [Path.name]: the final segment, empty for the root. *)
Definition path_name (p : Path) : string := List.last p "".

(** [Path.parent]. *)
Definition path_parent (p : Path) : Path := removelast p.

(** Segments of a POSIX path string, as [pathlib.PurePosixPath(s).parts]
    without the anchor: split on [/], empty and [.] segments dropped. *)
Fixpoint split_slash (cur : string) (s : string) : list string :=
  match s with
  | "" => [String.rev cur]
  | String c s' =>
      if Ascii.eqb c "/" then String.rev cur :: split_slash "" s'
      else split_slash (String c cur) s'
  end.

Definition path_of_string (s : string) : Path :=
  List.filter (fun seg => negb (String.eqb seg "" || String.eqb seg ".")) (split_slash "" s).

(** [str(path)] for a path below the grading home. *)
Definition path_to_string (home : string) (p : Path) : string :=
  fold_left (fun acc seg => acc +:+ "/" +:+ seg) p home.

(** [cwd.relative_to(base)]: the remainder of [p] after the prefix [base]. *)
Fixpoint relative_to (p base : Path) {struct base} : option Path :=
  match base, p with
  | [], _ => Some p
  | b :: base', x :: p' => if String.eqb b x then relative_to p' base' else None
  | _ :: _, [] => None
  end.

(** ** The file tree *)

#[local] Set Warnings "-register-all".

(** A regular file is either a zip archive, given by the tree it unpacks to,
    or any other file; a directory lists its entries in the order in which
    the operating system enumerates them. *)
Inductive node :=
  | File (zip : option (list (string * node)))
  | Dir (entries : list (string * node)).

Abbreviation Entries := (list (string * node)).

Fixpoint get (es : Entries) (n : string) : option node :=
  match es with
  | [] => None
  | (m, c) :: es' => if String.eqb m n then Some c else get es' n
  end.

(** Replace the entry called [n], or append it. *)
Fixpoint put (es : Entries) (n : string) (x : node) : Entries :=
  match es with
  | [] => [(n, x)]
  | (m, c) :: es' => if String.eqb m n then (m, x) :: es' else (m, c) :: put es' n x
  end.

(** Path resolution from the grading home. *)
Fixpoint lookup_path (t : node) (p : Path) : option node :=
  match p with
  | [] => Some t
  | n :: p' =>
      match t with
      | Dir es => match get es n with Some c => lookup_path c p' | None => None end
      | File _ => None
      end
  end.

(** Store [x] at [p]; the parent of [p] has to be a directory. *)
Fixpoint write_path (t : node) (p : Path) (x : node) : option node :=
  match p with
  | [] => Some x
  | n :: p' =>
      match t with
      | Dir es =>
          match get es n with
          | Some c =>
              match write_path c p' x with
              | Some c' => Some (Dir (put es n c'))
              | None => None
              end
          | None => match p' with [] => Some (Dir (put es n x)) | _ => None end
          end
      | File _ => None
      end
  end.

Definition is_dir (t : node) (p : Path) : bool :=
  match lookup_path t p with Some (Dir _) => true | _ => false end.

Definition node_is_dir (x : node) : bool :=
  match x with Dir _ => true | File _ => false end.

(** Nothing, or an empty directory: what [unpack] finds where it stores a
    student's directory. *)
Definition vacant (o : option node) : Prop := o = None \/ o = Some (Dir []).

(** One step of [unpack] on the tree, seen from the code directory [cd]:
    nothing, or a directory stored for a student in a vacant place. *)
Definition stores (cd : Path) (t t' : node) : Prop :=
  t' = t \/
  exists s e,
    ends_with ".zip" s = false /\
    vacant (lookup_path t (cd ++ [s])) /\
    write_path t (cd ++ [s]) (Dir e) = Some t'.

(** ** Exceptions

    The classes of the exceptions that the modelled code can raise. *)
Inductive exn :=
  | ValueError
  | IndexError
  | AttributeError
  | FileNotFoundError
  | FileExistsError
  | NotADirectoryError
  | IsADirectoryError
  | BadZipFile
  | JSONDecodeError
  | UnicodeDecodeError
  | MarkupError
  | CalledProcessError (returncode : Z) (stderr : string).

(** [type(exc).__name__]. *)
Definition exn_name (e : exn) : string :=
  match e with
  | ValueError => "ValueError"
  | IndexError => "IndexError"
  | AttributeError => "AttributeError"
  | FileNotFoundError => "FileNotFoundError"
  | FileExistsError => "FileExistsError"
  | NotADirectoryError => "NotADirectoryError"
  | IsADirectoryError => "IsADirectoryError"
  | BadZipFile => "BadZipFile"
  | JSONDecodeError => "JSONDecodeError"
  | UnicodeDecodeError => "UnicodeDecodeError"
  | MarkupError => "MarkupError"
  | CalledProcessError _ _ => "CalledProcessError"
  end.

(** Which [OSError] a failed resolution of [p] raises: a regular file on the
    way gives [NotADirectoryError], a missing entry [FileNotFoundError]. *)
Fixpoint oserror (t : node) (p : Path) : exn :=
  match p with
  | [] => FileNotFoundError
  | n :: p' =>
      match t with
      | Dir es => match get es n with Some c => oserror c p' | None => FileNotFoundError end
      | File _ => NotADirectoryError
      end
  end.

Inductive result (A : Type) :=
  | Ok (a : A)
  | Raise (e : exn).
Arguments Ok {A} a.
Arguments Raise {A} e.

(** [[p.name for p in d.iterdir() if p.is_dir()]]. *)
Definition subdir_names (es : Entries) : list string :=
  List.map fst (List.filter (fun e => node_is_dir (snd e)) es).

(** [d.iterdir()]. *)
Definition iterdir (t : node) (d : Path) : result Entries :=
  match lookup_path t d with
  | Some (Dir es) => Ok es
  | Some (File _) => Raise NotADirectoryError
  | None => Raise (oserror t d)
  end.

(** [d.glob("*.zip")]: the names of the entries of [d] that end in [.zip],
    in enumeration order; nothing when [d] is not a directory. *)
Definition glob_zip (t : node) (d : Path) : list string :=
  match lookup_path t d with
  | Some (Dir es) => List.filter (ends_with ".zip") (List.map fst es)
  | _ => []
  end.

Definition has_entry (es : Entries) (n : string) : bool :=
  match get es n with Some _ => true | None => false end.

(** [d.glob("**/pyproject.toml")]: every directory below [d], [d] first and
    then its subdirectories in depth, is asked for an entry of that name. *)
Fixpoint rglob (name : string) (t : node) (here : Path) : list Path :=
  match t with
  | Dir es =>
      (if has_entry es name then [here ++ [name]] else []) ++
      (fix below (es : Entries) : list Path :=
         match es with
         | [] => []
         | (n, c) :: es' => rglob name c (here ++ [n]) ++ below es'
         end) es
  | File _ => []
  end.

(** ** Configuration and context *)

(** [ctx.obj]: the grading home as a path string and the two directory names
    of the [general] group of [grading.toml], as segments below the home. *)
Record Ctx := mkCtx {
  grading_home : string;
  code_dir : Path;
  submissions_dir : Path
}.

(** [make_env_name]. *)
Definition make_env_name (student : string) : string := "env_" +:+ student.

(** [get_students]. *)
Definition get_students (ctx : Ctx) (t : node) : result (list string) :=
  match iterdir t (code_dir ctx) with
  | Ok es => Ok (merge_sort String.le (subdir_names es))
  | Raise e => Raise e
  end.

(** [find_pyproject_toml]: the first match of the recursive glob below the
    student's directory, [None] when there is none. *)
Definition find_pyproject_toml (ctx : Ctx) (t : node) (student : string) : option Path :=
  let d := code_dir ctx ++ [student] in
  match lookup_path t d with
  | Some c => head (rglob "pyproject.toml" c d)
  | None => None
  end.

(** ** Subprocesses *)

(** [subprocess.CompletedProcess]; the captured streams are byte strings. *)
Record CompletedProcess := mkProc {
  proc_returncode : Z;
  proc_stdout : string;
  proc_stderr : string
}.

Definition dquote : string := String "034"%char EmptyString.

Definition mem (x : string) (l : list string) : bool := existsb (String.eqb x) l.

(** [l.index(x)]. *)
Fixpoint index_of (l : list string) (x : string) : option nat :=
  match l with
  | [] => None
  | y :: l' => if String.eqb y x then Some 0 else option_map S (index_of l' x)
  end.

(** What the body of a [for] loop asks for when it ends: the next element
    (also after [continue]) or [break]. *)
Inductive ctl := Continue | Break.

Section Commands.

(** The external environment manager: a state of its own and the effect of
    one shell command line, run in an optional working directory.  Its
    commands are taken to leave the tree below the grading home as it is.
    [json_envs] is [json.loads(stdout)["envs"]], with [None] for a document
    that does not parse.  [decode] is [bytes.decode()], with [None] for
    bytes that are no UTF-8 text, and [markup_error] tells whether the
    console markup of a text is one that [rich] raises [MarkupError] for. *)
Context {X : Type}.
Variable shell : string -> option Path -> X -> CompletedProcess * X.
Variable json_envs : string -> option (list string).
Variable decode : string -> option string.
Variable markup_error : string -> bool.

Record World := mkWorld {
  fs : node;                              (* the tree below the grading home *)
  cwd : Path;                             (* [Path.cwd()], below the home *)
  conda : X;                              (* the environment manager *)
  console : list string;                  (* the strings given to [print] *)
  calls : list (string * option Path)     (* the command lines run so far *)
}.

Definition set_fs (t : node) (w : World) : World :=
  mkWorld t (cwd w) (conda w) (console w) (calls w).

Definition M (A : Type) : Type := World -> result A * World.

Definition ret {A} (a : A) : M A := fun w => (Ok a, w).

Definition raise {A} (e : exn) : M A := fun w => (Raise e, w).

Definition bind {A B} (m : M A) (k : A -> M B) : M B := fun w =>
  match m w with
  | (Ok a, w') => k a w'
  | (Raise e, w') => (Raise e, w')
  end.

(** [try: m except ...: h], where [h] says which exceptions it catches. *)
Definition try_except {A} (m : M A) (h : exn -> option (M A)) : M A := fun w =>
  match m w with
  | (Ok a, w') => (Ok a, w')
  | (Raise e, w') => match h e with Some k => k w' | None => (Raise e, w') end
  end.

#[export] Instance M_ret : MRet M := @ret.
#[export] Instance M_bind : MBind M := fun A B k m => bind m k.

Fixpoint for_ {A} (l : list A) (body : A -> M ctl) : M unit :=
  match l with
  | [] => ret tt
  | x :: l' =>
      c ← body x;
      match c with Continue => for_ l' body | Break => ret tt end
  end.

Definition print (line : string) : M unit := fun w =>
  (Ok tt, mkWorld (fs w) (cwd w) (conda w) (console w ++ [line]) (calls w)).

(** [print] with the markup parser of [rich] in front of it: a text whose
    markup is rejected raises [MarkupError] and nothing is printed.  The
    three batches that call the manager for each student print through
    it. *)
Definition rich_print (text : string) : M unit :=
  if markup_error text then raise MarkupError else print text.

(** [exc.stderr.decode()]. *)
Definition decode_stderr (stderr : string) : M string :=
  match decode stderr with
  | Some text => ret text
  | None => raise UnicodeDecodeError
  end.

(** [print(f"{prefix}{exc.stderr.decode()}")] in an [except] block: the
    bytes are decoded, then the line goes through the markup parser. *)
Definition report (prefix stderr : string) : M unit :=
  bind (decode_stderr stderr) (fun text => rich_print (prefix +:+ text)).

(** [subprocess.run(cmd, shell=True, cwd=dir, capture_output=True,
    check=check)]. *)
Definition subprocess_run (cmd : string) (dir : option Path) (check : bool)
  : M CompletedProcess := fun w =>
  let '(p, x') := shell cmd dir (conda w) in
  let w' := mkWorld (fs w) (cwd w) x' (console w) (calls w ++ [(cmd, dir)]) in
  if check && negb (proc_returncode p =? 0)%Z
  then (Raise (CalledProcessError (proc_returncode p) (proc_stderr p)), w')
  else (Ok p, w').

(** *** File operations *)

(** [p.mkdir(exist_ok=exist_ok)]. *)
Definition mkdir (exist_ok : bool) (p : Path) : M unit := fun w =>
  match lookup_path (fs w) p with
  | Some x =>
      if exist_ok && node_is_dir x then (Ok tt, w) else (Raise FileExistsError, w)
  | None =>
      match write_path (fs w) p (Dir []) with
      | Some t' => (Ok tt, set_fs t' w)
      | None => (Raise (oserror (fs w) p), w)
      end
  end.

(** [zipfile.ZipFile(p)]: the tree that the archive unpacks to. *)
Definition ZipFile (p : Path) : M Entries := fun w =>
  match lookup_path (fs w) p with
  | Some (File (Some payload)) => (Ok payload, w)
  | Some (File None) => (Raise BadZipFile, w)
  | Some (Dir _) => (Raise IsADirectoryError, w)
  | None => (Raise (oserror (fs w) p), w)
  end.

(** [zip_file.extractall(path=target)]: the members are stored in the
    target directory, a member replacing an entry of the same name. *)
Definition extractall (payload : Entries) (target : Path) : M unit := fun w =>
  match lookup_path (fs w) target with
  | Some (Dir es) =>
      let es' := fold_left (fun acc e => put acc (fst e) (snd e)) payload es in
      match write_path (fs w) target (Dir es') with
      | Some t' => (Ok tt, set_fs t' w)
      | None => (Raise (oserror (fs w) target), w)
      end
  | Some (File _) => (Raise NotADirectoryError, w)
  | None => (Raise (oserror (fs w) target), w)
  end.

Definition glob_zip_m (d : Path) : M (list string) := fun w =>
  (Ok (glob_zip (fs w) d), w).

(** *** unpack *)

(** The body of the loop of [uncompress_submissions], for the submission
    called [name] in the submissions directory. *)
Definition unpack_submission (ctx : Ctx) (name : string) : M unit :=
  match re_match_student name with
  | None => raise AttributeError
  | Some student =>
      let student_dir := code_dir ctx ++ [student] in
      fun w =>
        if is_dir (fs w) student_dir then (Ok tt, w)
        else (mkdir false student_dir;;
              zip_file ← ZipFile (submissions_dir ctx ++ [name]);
              extractall zip_file student_dir;;
              print ("[blue]Processed " +:+ student +:+ ".")) w
  end.

(** [uncompress_submissions], the command [unpack]. *)
Definition uncompress_submissions (ctx : Ctx) : M unit :=
  mkdir true (code_dir ctx);;
  submissions ← glob_zip_m (submissions_dir ctx);
  for_ submissions (fun submission =>
    unpack_submission ctx submission;; ret Continue).

(** *** Environments *)

(** [get_all_environments]. *)
Definition get_all_environments : M (list string) :=
  process ← subprocess_run "conda env list --json" None false;
  match json_envs (proc_stdout process) with
  | None => raise JSONDecodeError
  | Some envs =>
      let environment_paths := List.map path_of_string envs in
      ret (List.map path_name
             (List.filter
                (fun p => String.eqb (path_name (path_parent p)) "envs")
                environment_paths))
  end.

Definition get_students_m (ctx : Ctx) : M (list string) := fun w =>
  (get_students ctx (fs w), w).

Definition find_pyproject_toml_m (ctx : Ctx) (student : string) : M (option Path) :=
  fun w => (Ok (find_pyproject_toml ctx (fs w) student), w).

(** [list_environments], the command [env list]. *)
Definition list_environments (ctx : Ctx) : M unit :=
  environments ← get_all_environments;
  students ← get_students_m ctx;
  for_ students (fun student =>
    let student_env := make_env_name student in
    if mem student_env environments
    then print student_env;; ret Continue
    else ret Continue).

Definition create_command (env_name : string) : string :=
  "conda create -n " +:+ env_name +:+ " python=3.9 --yes".

Definition remove_command (env_name : string) : string :=
  "conda env remove -n " +:+ env_name.

Definition install_command (env_name : string) : string :=
  "conda run -n " +:+ env_name +:+ " poetry install".

Definition import_command (env_name : string) : string :=
  "conda run -n " +:+ env_name +:+ " python -c " +:+ dquote
    +:+ "help('modules')" +:+ dquote +:+ " ".

(** The body of the loop of [create_environments]. *)
Definition create_environment (environments : list string) (force : bool)
    (student : string) : M ctl :=
  let env_name := make_env_name student in
  if negb (mem env_name environments) || force then
    rich_print ("[blue]Creating " +:+ env_name +:+ "...");;
    try_except
      (subprocess_run (create_command env_name) None true;; ret Continue)
      (fun exc =>
         match exc with
         | CalledProcessError _ stderr =>
             Some (report "[bold red]Error creating environment: " stderr;;
                   ret Break)
         | _ => None
         end)
  else ret Continue.

(** [create_environments], the command [env create]. *)
Definition create_environments (ctx : Ctx) (force : bool) : M unit :=
  environments ← get_all_environments;
  students ← get_students_m ctx;
  for_ students (create_environment environments force).

(** The body of the loop of [remove_environments]. *)
Definition remove_environment (environments : list string) (student : string)
    : M ctl :=
  let env_name := make_env_name student in
  if mem env_name environments then
    rich_print ("[blue]Removing " +:+ env_name +:+ "...");;
    try_except
      (subprocess_run (remove_command env_name) None true;; ret Continue)
      (fun exc =>
         match exc with
         | CalledProcessError _ stderr =>
             Some (report "[bold red]Error removing environment: " stderr;;
                   ret Continue)
         | _ => None
         end)
  else ret Continue.

(** [remove_environments], the command [env remove]. *)
Definition remove_environments (ctx : Ctx) : M unit :=
  environments ← get_all_environments;
  students ← get_students_m ctx;
  for_ students (remove_environment environments).

(** The body of the loop of [install_environments]. *)
Definition install_environment (ctx : Ctx) (environments : list string)
    (student : string) : M ctl :=
  let env_name := make_env_name student in
  if mem env_name environments then
    project_path ← find_pyproject_toml_m ctx student;
    match project_path with
    | None =>
        rich_print ("[bold red]Error: pyproject.toml not found for " +:+ student);;
        ret Continue
    | Some project_path =>
        let directory := path_parent project_path in
        rich_print ("[blue]Installing " +:+ env_name +:+ "...");;
        installed ← try_except
          (subprocess_run (install_command env_name) (Some directory) true;;
           ret true)
          (fun exc =>
             match exc with
             | CalledProcessError _ stderr =>
                 Some (report "[bold red]Error installing environment: " stderr;;
                       ret false)
             | _ => None
             end);
        if installed : bool then
          rich_print ("[blue]Importing " +:+ env_name +:+ "...");;
          try_except
            (subprocess_run (import_command env_name) None true;; ret Continue)
            (fun exc =>
               match exc with
               | CalledProcessError _ stderr =>
                   Some (report "[bold red]Error importing environment: " stderr;;
                         ret Continue)
               | _ => None
               end)
        else ret Continue
    end
  else ret Continue.

(** [install_environments], the command [env install]. *)
Definition install_environments (ctx : Ctx) : M unit :=
  environments ← get_all_environments;
  students ← get_students_m ctx;
  for_ students (install_environment ctx environments).

(** *** Shell integration *)

(** The two directives for the calling shell. *)
Definition print_directives (ctx : Ctx) (project_path : Path) (env : string)
    : M unit :=
  print ("cd " +:+ dquote +:+ path_to_string (grading_home ctx) project_path
           +:+ dquote +:+ ";");;
  print ("conda activate " +:+ env +:+ ";").

(** [find_pyproject_toml(ctx, student).parent]: the attribute access fails
    on [None]. *)
Definition project_directory (ctx : Ctx) (student : string) : M Path :=
  project_path ← find_pyproject_toml_m ctx student;
  match project_path with
  | None => raise AttributeError
  | Some p => ret (path_parent p)
  end.

(** The target of [start_grading]: project directory and environment name
    of the first student. *)
Definition start_target (ctx : Ctx) : M (Path * string) :=
  students ← get_students_m ctx;
  first_student ← match students with
                  | [] => raise IndexError
                  | s :: _ => ret s
                  end;
  project_path ← project_directory ctx first_student;
  ret (project_path, make_env_name first_student).

(** [start_grading], the command [shell start]. *)
Definition start_grading (ctx : Ctx) : M unit :=
  target ← start_target ctx;
  print_directives ctx (fst target) (snd target).

(** The target of [grade_next_student]. *)
Definition next_target (ctx : Ctx) : M (Path * string) :=
  cwd ← (fun w => (Ok (cwd w), w)) : M Path;
  current_dir ← match relative_to cwd (code_dir ctx) with
                | None => raise ValueError
                | Some d => ret d
                end;
  current_student ← match current_dir with
                    | [] => raise IndexError
                    | s :: _ => ret s
                    end;
  students ← get_students_m ctx;
  idx ← match index_of students current_student with
        | None => raise ValueError
        | Some i => ret i
        end;
  next_student ← match nth_error students ((idx + 1) mod length students) with
                 | None => raise IndexError
                 | Some s => ret s
                 end;
  project_path ← project_directory ctx next_student;
  ret (project_path, make_env_name next_student).

(** [grade_next_student], the command [shell next]. *)
Definition grade_next_student (ctx : Ctx) : M unit :=
  target ← next_target ctx;
  print_directives ctx (fst target) (snd target).

End Commands.

Arguments mkWorld {X} _ _ _ _ _.

(** The loop of [uncompress_submissions]. *)
Abbreviation unpack_loop ctx l :=
  (for_ l (fun submission => unpack_submission ctx submission;; ret Continue)).

(** ** The calling shell *)

(** The student in whose directory the grader stands, as
    [grade_next_student] recovers it. *)
Definition current_student {X : Type} (ctx : Ctx) (w : @World X) : option string :=
  match relative_to (cwd w) (code_dir ctx) with
  | Some (s :: _) => Some s
  | _ => None
  end.




(** ** The environment manager as the batches see it *)

(** The manager refuses, or carries out, a command line whatever its state
    and the working directory. *)
Definition fails {X : Type} (shell : string -> option Path -> X -> CompletedProcess * X)
    (cmd : string) : Prop :=
  forall dir x, proc_returncode (fst (shell cmd dir x)) <> 0%Z.

Definition succeeds {X : Type} (shell : string -> option Path -> X -> CompletedProcess * X)
    (cmd : string) : Prop :=
  forall dir x, proc_returncode (fst (shell cmd dir x)) = 0%Z.

(** The entries of the call log that the batches leave for a student. *)
Definition create_call (student : string) : string * option Path :=
  (create_command (make_env_name student), None).

Definition remove_call (student : string) : string * option Path :=
  (remove_command (make_env_name student), None).

Definition install_call (student : string) (manifest : Path) : string * option Path :=
  (install_command (make_env_name student), Some (path_parent manifest)).

Definition import_call (student : string) : string * option Path :=
  (import_command (make_env_name student), None).

(** The test that guards the call of [conda create]. *)
Definition needs_create (environments : list string) (force : bool)
    (student : string) : bool :=
  negb (mem (make_env_name student) environments) || force.

Definition has_environment (environments : list string) (student : string) : bool :=
  mem (make_env_name student) environments.

(** The installation calls that the roster is due: one for each student
    with an environment and a manifest. *)
Definition installs_due (ctx : Ctx) (t : node) (environments : list string)
    (roster : list string) : list (string * option Path) :=
  flat_map (fun student =>
              if has_environment environments student then
                match find_pyproject_toml ctx t student with
                | Some manifest => [install_call student manifest]
                | None => []
                end
              else []) roster.

Definition call_eq_dec (c1 c2 : string * option Path) : {c1 = c2} + {c1 <> c2} :=
  decide (c1 = c2).

(** A call that was given a working directory; of the calls of this tool
    only [poetry install] is. *)
Definition in_directory (c : string * option Path) : bool :=
  match snd c with Some _ => true | None => false end.

(** The lines through which the batches tell their progress with a
    student. *)
Definition creating_line (student : string) : string :=
  "[blue]Creating " +:+ make_env_name student +:+ "...".

Definition removing_line (student : string) : string :=
  "[blue]Removing " +:+ make_env_name student +:+ "...".

Definition installing_line (student : string) : string :=
  "[blue]Installing " +:+ make_env_name student +:+ "...".

Definition importing_line (student : string) : string :=
  "[blue]Importing " +:+ make_env_name student +:+ "...".

Definition not_found_line (student : string) : string :=
  "[bold red]Error: pyproject.toml not found for " +:+ student.

Definition progress_lines (student : string) : list string :=
  [creating_line student; removing_line student; installing_line student;
   importing_line student; not_found_line student].

(** The prefixes of the lines that report a refusal of the manager. *)
Definition creating_error : string := "[bold red]Error creating environment: ".

Definition removing_error : string := "[bold red]Error removing environment: ".

Definition installing_error : string := "[bold red]Error installing environment: ".

Definition importing_error : string := "[bold red]Error importing environment: ".

Definition error_prefixes : list string :=
  [creating_error; removing_error; installing_error; importing_error].

(** The report of an error output fails: the bytes do not decode, or the
    markup of the line is rejected. *)
Definition unreportable (decode : string -> option string)
    (markup_error : string -> bool) (prefix stderr : string) : bool :=
  match decode stderr with
  | Some text => markup_error (prefix +:+ text)
  | None => true
  end.

(** The progress lines of the students of a roster are printed. *)
Definition prints (markup_error : string -> bool) (roster : list string) : Prop :=
  forall s line, s ∈ roster -> line ∈ progress_lines s -> markup_error line = false.

(** Whatever the manager writes to its error stream when it refuses a
    command line can be reported by the batches. *)
Definition reports {X : Type} (shell : string -> option Path -> X -> CompletedProcess * X)
    (decode : string -> option string) (markup_error : string -> bool) : Prop :=
  forall prefix cmd dir x,
    prefix ∈ error_prefixes ->
    proc_returncode (fst (shell cmd dir x)) <> 0%Z ->
    unreportable decode markup_error prefix (proc_stderr (fst (shell cmd dir x))) = false.

(** The manager refuses a command line with an error output whose report
    fails, whatever its state and the working directory. *)
Definition refuses_unreportably {X : Type}
    (shell : string -> option Path -> X -> CompletedProcess * X)
    (decode : string -> option string) (markup_error : string -> bool)
    (prefix cmd : string) : Prop :=
  forall dir x,
    proc_returncode (fst (shell cmd dir x)) <> 0%Z /\
    unreportable decode markup_error prefix (proc_stderr (fst (shell cmd dir x))) = true.

(** ** Sample data

    A grading home with two submissions, the trees that arise from it, and
    a small environment manager that keeps the list of the environments it
    has created and refuses every command line of a given list. *)
Module Sample.

Definition ctx0 : Ctx := mkCtx "/home/grader/nsp2" ["code"] ["submissions"].

Definition manifest : string * node := ("pyproject.toml", File None).

Definition tree0 : node :=
  Dir [("grading.toml", File None);
       ("submissions",
        Dir [("bob_sub1.zip", File (Some [manifest]));
             ("alice_sub1.zip", File (Some [("project", Dir [manifest])]))])].

Definition w0 : @World unit := mkWorld tree0 [] tt [] [].

(** After [unpack]. *)
Definition w1 : @World unit := snd (uncompress_submissions ctx0 w0).


Definition outside : @World unit :=
  mkWorld (fs w1) ["submissions"] tt [] [].

Definition at_code_dir : @World unit := mkWorld (fs w1) ["code"] tt [] [].

Definition stranger : @World unit := mkWorld (fs w1) ["code"; "zed"] tt [] [].

(** An empty code directory. *)
Definition empty_roster : @World unit :=
  mkWorld (Dir [("grading.toml", File None); ("code", Dir [])]) [] tt [] [].


(** A submission whose name does not start with a student token, followed
    by a regular one. *)
Definition unrecognized : @World unit :=
  mkWorld (Dir [("submissions",
                 Dir [("README.zip", File (Some []));
                      ("bob_sub1.zip", File (Some [manifest]))])])
          [] tt [] [].

(** The code directory is configured two levels below the home, and the
    level between is missing. *)
Definition nested_ctx : Ctx :=
  mkCtx "/home/grader/nsp2" ["work"; "code"] ["submissions"].

(** A regular file sits where the code directory should be. *)
Definition occupied : @World unit :=
  mkWorld (Dir [("code", File None); ("submissions", Dir [])]) [] tt [] [].

(** Three students with a manifest each. *)
Definition students3 : list string := ["alice"; "bob"; "carol"].

Definition tree3 : node :=
  Dir [("code", Dir [("carol", Dir [manifest]);
                     ("alice", Dir [manifest]);
                     ("bob", Dir [("src", Dir [manifest])])])].

Definition envs_root : string := "/opt/conda/envs/".

Definition render_envs (x : list string) : string :=
  fold_right (fun n acc => envs_root +:+ n +:+ " " +:+ acc) "" x.

(** The document that the sample manager prints lists one path per word,
    the base installation first. *)
Definition json_envs (stdout : string) : option (list string) :=
  Some (String.words stdout).

(** The command lines that name the environment of a student. *)
Definition commands_of (student : string) : list string :=
  let env_name := make_env_name student in
  [create_command env_name; remove_command env_name;
   install_command env_name; import_command env_name].

Definition shell (failing : list string) (cmd : string) (dir : option Path)
    (x : list string) : CompletedProcess * list string :=
  if String.eqb cmd "conda env list --json"
  then (mkProc 0 ("/opt/conda " +:+ render_envs x) "", x)
  else if mem cmd (flat_map commands_of failing)
  then (mkProc 1 "" "CondaError: refused", x)
  else
    match List.find (fun s => String.eqb cmd (create_command (make_env_name s)))
                    students3 with
    | Some s => (mkProc 0 "" "", x ++ [make_env_name s])
    | None =>
        match List.find (fun s => String.eqb cmd (remove_command (make_env_name s)))
                        students3 with
        | Some s =>
            (mkProc 0 "" "",
             List.filter (fun n => negb (String.eqb n (make_env_name s))) x)
        | None => (mkProc 0 "" "", x)
        end
    end.

(** No environment yet. *)
Definition fresh : @World (list string) := mkWorld tree3 [] [] [] [].

(** All three environments exist, next to one that is not of this tool. *)
Definition populated : @World (list string) :=
  mkWorld tree3 [] ["env_alice"; "notebook"; "env_bob"; "env_carol"] [] [].

End Sample.

(** ** Start-up: the configuration file

    [find_config_file], [init] and the group callback [cli] look at the
    directories above the working directory, so for them the tree of a
    world is that of the whole file system and the working directory is
    absolute. *)

Definition CONFIG_FILE : string := "grading.toml".

(** [[cwd] + list(cwd.parents)]: the directory itself, then the directories
    above it up to the root. *)
Fixpoint self_and_parents (p : Path) : list Path :=
  match p with
  | [] => [[]]
  | n :: p' => List.map (cons n) (self_and_parents p') ++ [[]]
  end.

(** The loop of [find_config_file] over the candidate directories. *)
Fixpoint first_config (t : node) (dirs : list Path) : option Path :=
  match dirs with
  | [] => None
  | directory :: dirs' =>
      let config_path := directory ++ [CONFIG_FILE] in
      match lookup_path t config_path with
      | Some _ => Some config_path
      | None => first_config t dirs'
      end
  end.

(** [find_config_file]. *)
Definition find_config_file (t : node) (cwd : Path) : option Path :=
  first_config t (self_and_parents cwd).

Definition find_config_file_m {X : Type} : @M X (option Path) := fun w =>
  (Ok (find_config_file (fs w) (cwd w)), w).

(** [Path(p).write_text(...)] for a path relative to the working directory:
    the file is created or replaced; the text itself is not kept, the file
    is a regular file that is no archive. *)
Definition write_text {X : Type} (p : Path) : @M X unit := fun w =>
  let target := cwd w ++ p in
  match lookup_path (fs w) target with
  | Some (Dir _) => (Raise IsADirectoryError, w)
  | _ =>
      match write_path (fs w) target (File None) with
      | Some t' => (Ok tt, set_fs t' w)
      | None => (Raise (oserror (fs w) target), w)
      end
  end.

(** [init], the command [init]; the default configuration is package data
    and reading it does not fail. *)
Definition init {X : Type} : @M X unit :=
  config_path ← find_config_file_m;
  match config_path with
  | Some _ => print "Configuration file found. Doing nothing."
  | None =>
      print "Creating default config file...";;
      write_text [CONFIG_FILE]
  end.

(** How the group callback ends: with [click.Abort], or with the object
    that it has put into the context for the subcommand. *)
Inductive invocation (Config : Type) :=
  | Aborted
  | Invoked (obj : option (Config * Path)).
Arguments Aborted {Config}.
Arguments Invoked {Config} obj.

(** [cli], the group callback; [read_config] parses the file at the path
    that was found. *)
Definition cli {X Config : Type} (read_config : Path -> @M X Config)
    (invoked_subcommand : string) : @M X (invocation Config) :=
  print "";;
  config_path ← find_config_file_m;
  if negb (String.eqb invoked_subcommand "init") then
    match config_path with
    | None =>
        print "[bold red]Configuration file not found. First invoke the 'init' command.";;
        mret Aborted
    | Some config_path =>
        config ← read_config config_path;
        mret (Invoked (Some (config, path_parent config_path)))
    end
  else mret (Invoked None).

(** ** Further notions for the properties *)

Fixpoint no_slash (s : string) : bool :=
  match s with
  | String c s' => negb (Ascii.eqb c "/") && no_slash s'
  | "" => true
  end.

(** The names of the environments that [get_all_environments] keeps of the
    paths that the manager lists. *)
Definition environment_names (paths : list string) : list string :=
  List.map path_name
    (List.filter (fun p => String.eqb (path_name (path_parent p)) "envs")
       (List.map path_of_string paths)).

(** What one student adds to the call log of [install_environments]:
    nothing, the installation, or the installation and then the import. *)
Definition install_block (ctx : Ctx) (t : node) (environments : list string)
    (student : string) (block : list (string * option Path)) : Prop :=
  block = [] \/
  exists manifest,
    has_environment environments student = true /\
    find_pyproject_toml ctx t student = Some manifest /\
    (block = [install_call student manifest] \/
     block = [install_call student manifest; import_call student]).

(** The tree that [extractall] leaves in an empty directory. *)
Definition extracted (payload : Entries) : Entries :=
  fold_left (fun acc e => put acc (fst e) (snd e)) payload [].

(** ** Sample data for the further properties *)
Module Sample2.

(** A file system with a grading home at [/home/grader/nsp2] and another
    configuration file further up. *)
Definition root : node :=
  Dir [("home",
        Dir [("grading.toml", File None);
             ("grader",
              Dir [("nsp2",
                    Dir [("grading.toml", File None);
                         ("code", Dir [("alice", Dir [Sample.manifest])])]);
                   ("scratch", Dir [])])])].

Definition in_project : @World unit :=
  mkWorld root ["home"; "grader"; "nsp2"; "code"; "alice"] tt [] [].

(** No configuration file on the way up. *)
Definition bare : @World unit :=
  mkWorld (Dir [("tmp", Dir [("work", Dir [])])]) ["tmp"; "work"] tt [] [].

Definition read_config : Path -> @M unit (Path * Path) := fun _ =>
  mret (["code"], ["submissions"]).

(** Two archives of Alice and a file that is no archive under Bob's name. *)
Definition resubmitted : @World unit :=
  mkWorld (Dir [("code", Dir []);
                ("submissions",
                 Dir [("alice_a1.zip", File (Some [Sample.manifest]));
                      ("alice_a2.zip", File (Some [("late.txt", File None)]));
                      ("bob_a1.zip", File None)])])
          [] tt [] [].

(** A student directory with a manifest only further down, next to one
    with manifests at two depths. *)
Definition deep : node :=
  Dir [("code",
        Dir [("alice", Dir [("docs", Dir []);
                            ("src", Dir [("pkg", Dir [Sample.manifest])])]);
             ("bob", Dir [("old", Dir [Sample.manifest]); Sample.manifest]);
             ("notes.txt", File None)])].

End Sample2.

(** ** Sample data for the reports of the batches

    The texts of the sample managers are ASCII.  A byte of value 255 occurs
    in no UTF-8 text; the closing tag [[/tmp/log]] matches no tag that the
    lines of the batches open, which is what [rich] raises [MarkupError]
    for. *)
Module Sample3.

Definition byte255 : string := String "255"%char EmptyString.

Definition decode (bytes : string) : option string :=
  match String.index 0 byte255 bytes with
  | Some _ => None
  | None => Some bytes
  end.

Definition markup_error (text : string) : bool :=
  match String.index 0 "[/tmp/log]" text with
  | Some _ => true
  | None => false
  end.

Definition log_hint : string := "CondaError: see [/tmp/log] for details".

Definition not_utf8 : string := "CondaError: refused " +:+ byte255.

(** The sample manager, with a given error output for the command lines
    that it refuses. *)
Definition shell (stderr : string) (failing : list string) (cmd : string)
    (dir : option Path) (x : list string) : CompletedProcess * list string :=
  let '(p, x') := Sample.shell failing cmd dir x in
  (mkProc (proc_returncode p) (proc_stdout p)
          (if (proc_returncode p =? 0)%Z then proc_stderr p else stderr),
   x').

Definition venvs_root : string := "/data/venvs/".

(** A manager that is configured to keep its environments in
    [/data/venvs]: it carries out every command line, and lists the
    environments that it has created below that directory. *)
Definition elsewhere (cmd : string) (dir : option Path) (x : list string)
    : CompletedProcess * list string :=
  if String.eqb cmd "conda env list --json"
  then (mkProc 0
          ("/opt/conda " +:+
           fold_right (fun n acc => venvs_root +:+ n +:+ " " +:+ acc) "" x)
          "",
        x)
  else Sample.shell [] cmd dir x.

End Sample3.

(** * Properties *)

(** ** The roster *)

Section Roster.

Lemma merge_sort_le_sorted (l : list string) :
  Sorted String.le (merge_sort String.le l).
Proof. apply (Sorted_merge_sort String.le). Qed.

(** Two sorted lists with the same elements are the same list. *)
Lemma merge_sort_le_perm (l1 l2 : list string) :
  l1 ≡ₚ l2 -> merge_sort String.le l1 = merge_sort String.le l2.
Proof.
  intros Hp.
  apply (Sorted_unique String.le); try apply merge_sort_le_sorted.
  by rewrite !merge_sort_Permutation.
Qed.

Lemma get_students_dir (ctx : Ctx) (t : node) (es : Entries) :
  lookup_path t (code_dir ctx) = Some (Dir es) ->
  get_students ctx t = Ok (merge_sort String.le (subdir_names es)).
Proof. intros H. unfold get_students, iterdir. by rewrite H. Qed.

End Roster.

(** C7. Roster resolution: when the code directory is a directory,
    [get_students] returns the names of its immediate subdirectories, each as
    often as it is listed, in lexicographic order; the result does not depend
    on the order in which the directory is enumerated, so two runs over an
    unchanged tree agree. *)
Theorem get_students_sorted_deterministic (ctx : Ctx) (t : node) (es : Entries) :
  lookup_path t (code_dir ctx) = Some (Dir es) ->
  exists roster,
    get_students ctx t = Ok roster /\
    Sorted String.le roster /\
    roster ≡ₚ subdir_names es /\
    (forall n, n ∈ roster <->
       exists c, (n, c) ∈ es /\ node_is_dir c = true) /\
    (forall t' es',
       lookup_path t' (code_dir ctx) = Some (Dir es') ->
       subdir_names es' ≡ₚ subdir_names es ->
       get_students ctx t' = Ok roster).
Proof.
  intros H. exists (merge_sort String.le (subdir_names es)).
  split; [by apply get_students_dir|].
  split; [apply merge_sort_le_sorted|].
  split; [apply merge_sort_Permutation|].
  split.
  - intros n. rewrite merge_sort_Permutation. unfold subdir_names.
    rewrite list_elem_of_In, in_map_iff. split.
    + intros [[m c] [Hm Hin]]. simpl in Hm. subst m.
      apply filter_In in Hin as [Hin Hd]. exists c.
      by rewrite list_elem_of_In.
    + intros [c [Hin Hd]]. exists (n, c). split; [done|].
      apply filter_In. by rewrite <- list_elem_of_In.
  - intros t' es' H' Hp. rewrite (get_students_dir _ _ _ H').
    f_equal. by apply merge_sort_le_perm.
Qed.

(** ** Reasoning in the monad *)

Ltac munfold :=
  unfold mbind, mret, M_bind, M_ret, bind, ret, raise, try_except in *.

Section Monad.
Context {X : Type}.
Implicit Types w : @World X.

Lemma bind_ok {A B} (m : M A) (k : A -> M B) w a w' :
  m w = (Ok a, w') -> (m ≫= k) w = k a w'.
Proof. intros H. munfold. by rewrite H. Qed.

Lemma bind_raise {A B} (m : M A) (k : A -> M B) w e w' :
  m w = (Raise e, w') -> (m ≫= k) w = (Raise e, w').
Proof. intros H. munfold. by rewrite H. Qed.

Lemma for_cons {A} (x : A) (l : list A) (body : A -> M ctl) w :
  for_ (x :: l) body w =
  match body x w with
  | (Ok Continue, w') => for_ l body w'
  | (Ok Break, w') => (Ok tt, w')
  | (Raise e, w') => (Raise e, w')
  end.
Proof.
  simpl. munfold. destruct (body x w) as [[[]|e] w']; reflexivity.
Qed.

(** A loop whose body neither breaks nor raises runs through any
    concatenation of rosters. *)
Lemma for_app_continue {A} (l1 l2 : list A) (body : A -> M ctl) w :
  (forall x w0, exists w1, body x w0 = (Ok Continue, w1)) ->
  for_ (l1 ++ l2) body w = (for_ l1 body;; for_ l2 body) w.
Proof.
  intros Hbody. revert w. induction l1 as [|x l1 IH]; intros w.
  - reflexivity.
  - rewrite <- app_comm_cons.
    change ((for_ (x :: l1) body;; for_ l2 body) w)
      with (bind (for_ (x :: l1) body) (fun _ => for_ l2 body) w).
    unfold bind. rewrite !for_cons.
    destruct (Hbody x w) as [w1 ->]. rewrite IH. reflexivity.
Qed.

End Monad.

(** ** Navigation *)

Section Navigation.
Context {X : Type}.
Implicit Types w : @World X.

Lemma start_target_empty (ctx : Ctx) w :
  get_students ctx (fs w) = Ok [] ->
  start_target ctx w = (Raise IndexError, w).
Proof.
  intros H. unfold start_target, get_students_m. munfold. by rewrite H.
Qed.

Lemma start_target_ok_roster (ctx : Ctx) w r w' :
  start_target ctx w = (Ok r, w') ->
  exists s l, get_students ctx (fs w) = Ok (s :: l).
Proof.
  unfold start_target, get_students_m. munfold.
  destruct (get_students ctx (fs w)) as [[|s l]|e]; try discriminate.
  intros _. by exists s, l.
Qed.

End Navigation.

(** C9. [start_grading] on an empty roster: taking the first element of the
    roster raises [IndexError], nothing is printed and no target is computed;
    and whenever [start_grading] completes, the roster had a first
    student. *)
Theorem start_grading_empty_roster {X : Type} (ctx : Ctx) (w : @World X) :
  (get_students ctx (fs w) = Ok [] ->
   start_target ctx w = (Raise IndexError, w) /\
   start_grading ctx w = (Raise IndexError, w)) /\
  (forall w', start_grading ctx w = (Ok tt, w') ->
   exists s l, get_students ctx (fs w) = Ok (s :: l)).
Proof.
  split.
  - intros H. split; [by apply start_target_empty|].
    unfold start_grading. by apply bind_raise, start_target_empty.
  - intros w'. unfold start_grading. munfold.
    destruct (start_target ctx w) as [[r|e] w1] eqn:E; [|discriminate].
    intros _. by eapply start_target_ok_roster.
Qed.

Section Paths.

Lemma relative_to_app (base r : Path) : relative_to (base ++ r) base = Some r.
Proof.
  induction base as [|b base IH]; simpl; [done|].
  by rewrite String.eqb_refl.
Qed.

Lemma relative_to_Some (p base r : Path) :
  relative_to p base = Some r -> p = base ++ r.
Proof.
  revert p. induction base as [|b base IH]; intros p; simpl.
  - by intros [= ->].
  - destruct p as [|x p]; [done|].
    destruct (String.eqb b x) eqn:E; [|done].
    apply String.eqb_eq in E as ->. by intros ->%IH.
Qed.

Lemma path_parent_snoc (p : Path) (n : string) : path_parent (p ++ [n]) = p.
Proof. apply removelast_last. Qed.

Lemma index_of_None (l : list string) (x : string) :
  index_of l x = None <-> x ∉ l.
Proof.
  induction l as [|y l IH]; simpl.
  - split; [intros _; apply not_elem_of_nil | done].
  - destruct (String.eqb y x) eqn:E.
    + apply String.eqb_eq in E as ->. split; [done|].
      intros H. destruct H. apply list_elem_of_here.
    + apply String.eqb_neq in E. rewrite not_elem_of_cons.
      destruct (index_of l x); simpl; split; try done.
      * intros [_ H]. by apply IH in H.
      * intros _. split; [congruence | by apply IH].
Qed.


(** Every match of the recursive glob lies below the directory it starts
    from and ends in the name that was asked for. *)
Lemma rglob_shape (name : string) :
  forall (t : node) (here p : Path),
    In p (rglob name t here) -> exists r, p = here ++ r ++ [name].
Proof.
  fix IH 1. intros [z|es] here p; simpl; [done|].
  rewrite in_app_iff. intros [H|H].
  - destruct (has_entry es name); [|done].
    destruct H as [<-|[]]. by exists [].
  - induction es as [|[n c] es IHes]; simpl in H; [done|].
    apply in_app_iff in H as [H|H]; [|by apply IHes].
    apply IH in H as [r ->]. exists (n :: r). by rewrite <- app_assoc.
Qed.

Lemma find_pyproject_toml_shape (ctx : Ctx) (t : node) (s : string) (m : Path) :
  find_pyproject_toml ctx t s = Some m ->
  exists r, m = code_dir ctx ++ s :: r ++ ["pyproject.toml"].
Proof.
  unfold find_pyproject_toml.
  destruct (lookup_path t (code_dir ctx ++ [s])) as [c|]; [|done].
  intros H. apply head_Some in H as [l' H].
  destruct (rglob_shape "pyproject.toml" c (code_dir ctx ++ [s]) m) as [r ->].
  { rewrite H. by left. }
  exists r. by rewrite <- app_assoc.
Qed.

End Paths.

Section NextStudent.
Context {X : Type}.
Implicit Types w : @World X.


Lemma next_target_not_below (ctx : Ctx) w :
  relative_to (cwd w) (code_dir ctx) = None ->
  next_target ctx w = (Raise ValueError, w).
Proof. intros H. unfold next_target. munfold. by rewrite H. Qed.

Lemma next_target_at_code_dir (ctx : Ctx) w :
  relative_to (cwd w) (code_dir ctx) = Some [] ->
  next_target ctx w = (Raise IndexError, w).
Proof. intros H. unfold next_target. munfold. by rewrite H. Qed.

Lemma next_target_stranger (ctx : Ctx) w s rest roster :
  relative_to (cwd w) (code_dir ctx) = Some (s :: rest) ->
  get_students ctx (fs w) = Ok roster ->
  s ∉ roster ->
  next_target ctx w = (Raise ValueError, w).
Proof.
  intros H Hr Hs. apply index_of_None in Hs.
  unfold next_target, get_students_m. munfold. by rewrite H, Hr, Hs.
Qed.


Lemma grade_next_student_raise (ctx : Ctx) w e :
  next_target ctx w = (Raise e, w) -> grade_next_student ctx w = (Raise e, w).
Proof. intros H. unfold grade_next_student. by apply bind_raise. Qed.



End NextStudent.




(** C6 (amended). [grade_next_student] raises [ValueError] when the working
    directory is not at or below the code directory, and also when the first
    segment below the code directory is not in the roster; at the code
    directory itself it raises [IndexError].  In each case the world is left
    as it was: no target is computed and no directive is printed. *)
Theorem next_outside_session {X : Type} (ctx : Ctx) (w : @World X) :
  (relative_to (cwd w) (code_dir ctx) = None ->
   next_target ctx w = (Raise ValueError, w) /\
   grade_next_student ctx w = (Raise ValueError, w)) /\
  (forall s rest roster,
     relative_to (cwd w) (code_dir ctx) = Some (s :: rest) ->
     get_students ctx (fs w) = Ok roster ->
     s ∉ roster ->
     next_target ctx w = (Raise ValueError, w) /\
     grade_next_student ctx w = (Raise ValueError, w)) /\
  (relative_to (cwd w) (code_dir ctx) = Some [] ->
   next_target ctx w = (Raise IndexError, w) /\
   grade_next_student ctx w = (Raise IndexError, w)).
Proof.
  split; [|split].
  - intros H. split; [|apply grade_next_student_raise];
      by apply next_target_not_below.
  - intros s rest roster H Hr Hs. split; [|apply grade_next_student_raise];
      by eapply next_target_stranger.
  - intros H. split; [|apply grade_next_student_raise];
      by apply next_target_at_code_dir.
Qed.

Lemma next_outside_session_witness :
  grade_next_student Sample.ctx0 Sample.outside = (Raise ValueError, Sample.outside) /\
  grade_next_student Sample.ctx0 Sample.stranger = (Raise ValueError, Sample.stranger) /\
  grade_next_student Sample.ctx0 Sample.at_code_dir
    = (Raise IndexError, Sample.at_code_dir).
Proof.
  split; [|split].
  - apply (next_outside_session Sample.ctx0 Sample.outside). reflexivity.
  - destruct (next_outside_session Sample.ctx0 Sample.stranger) as (_ & H & _).
    apply (H "zed" [] ["alice"; "bob"]).
    + reflexivity.
    + vm_compute. reflexivity.
    + intros Hin. apply list_elem_of_In in Hin.
      destruct Hin as [Hin|[Hin|[]]]; discriminate Hin.
  - apply (next_outside_session Sample.ctx0 Sample.at_code_dir). reflexivity.
Defined.

(** C6 as stated fails: away from the code directory the exception that
    [grade_next_student] raises is Python's [ValueError]; the code has no
    class [NotInSessionError]. *)
Lemma next_outside_session_not_dedicated :
  relative_to (cwd Sample.outside) (code_dir Sample.ctx0) = None /\
  ~ exists e w',
      grade_next_student Sample.ctx0 Sample.outside = (Raise e, w') /\
      exn_name e = "NotInSessionError".
Proof.
  split; [reflexivity|].
  intros (e & w' & H & Hname). vm_compute in H.
  injection H as <- _. discriminate Hname.
Qed.

Lemma start_grading_empty_roster_witness :
  start_grading Sample.ctx0 Sample.empty_roster = (Raise IndexError, Sample.empty_roster) /\
  exists s l, get_students Sample.ctx0 (fs Sample.w1) = Ok (s :: l).
Proof.
  split.
  - apply (start_grading_empty_roster Sample.ctx0 Sample.empty_roster).
    vm_compute. reflexivity.
  - destruct (start_grading_empty_roster Sample.ctx0 Sample.w1) as [_ H].
    apply (H (snd (start_grading Sample.ctx0 Sample.w1))).
    vm_compute. reflexivity.
Defined.

Lemma get_students_sorted_deterministic_witness :
  exists roster,
    get_students Sample.ctx0 Sample.tree3 = Ok roster /\
    Sorted String.le roster /\
    roster ≡ₚ ["carol"; "alice"; "bob"].
Proof.
  destruct (get_students_sorted_deterministic Sample.ctx0 Sample.tree3
              [("carol", Dir [Sample.manifest]);
               ("alice", Dir [Sample.manifest]);
               ("bob", Dir [("src", Dir [Sample.manifest])])])
    as (roster & H1 & H2 & H3 & _).
  - reflexivity.
  - exists roster. split; [exact H1|]. split; [exact H2|]. exact H3.
Defined.

(** ** Environments *)

Section Environments.
Context {X : Type}.
Variable shell : string -> option Path -> X -> CompletedProcess * X.
Variable json_envs : string -> option (list string).
Implicit Types w : @World X.

(** Listing the environments runs one command and touches nothing else. *)
Lemma get_all_environments_ok w envs w1 :
  get_all_environments shell json_envs w = (Ok envs, w1) ->
  fs w1 = fs w /\ cwd w1 = cwd w /\ console w1 = console w /\
  calls w1 = calls w ++ [("conda env list --json", None)].
Proof.
  unfold get_all_environments, subprocess_run. munfold. simpl.
  destruct (shell "conda env list --json" None (conda w)) as [p x'].
  destruct (json_envs (proc_stdout p)); [|discriminate].
  intros [= _ <-]. done.
Qed.

Lemma list_loop (envs : list string) (l : list string) w :
  for_ l (fun student =>
            let student_env := make_env_name student in
            if mem student_env envs
            then print student_env;; ret Continue
            else ret Continue) w =
  (Ok tt, mkWorld (fs w) (cwd w) (conda w)
            (console w ++
             List.filter (fun n => mem n envs) (List.map make_env_name l))
            (calls w)).
Proof.
  revert w. induction l as [|s l IH]; intros w.
  - simpl. rewrite app_nil_r. by destruct w.
  - rewrite for_cons. simpl.
    destruct (mem (make_env_name s) envs); munfold; unfold print; simpl.
    + rewrite IH. simpl. by rewrite <- app_assoc.
    + by rewrite IH.
Qed.

Lemma make_env_name_prefix (s : string) : String.prefix "env_" (make_env_name s) = true.
Proof.
  unfold make_env_name. cbv [String.app String.append]. simpl. by destruct s.
Qed.

Lemma mem_elem_of (x : string) (l : list string) : mem x l = true <-> x ∈ l.
Proof.
  unfold mem. rewrite existsb_exists, list_elem_of_In. split.
  - intros (y & Hy & ->%String.eqb_eq). done.
  - intros H. exists x. by rewrite String.eqb_refl.
Qed.

End Environments.

(** C8. [list_environments] prints, of the names that the environment
    manager reports, exactly those that the naming scheme gives to a student
    of the roster: every printed name starts with [env_], is reported by the
    manager and belongs to a student, and a reported name that belongs to no
    student is not printed. *)
Theorem list_environments_filters {X : Type}
    (shell : string -> option Path -> X -> CompletedProcess * X)
    (json_envs : string -> option (list string))
    (ctx : Ctx) (w w1 : @World X) (envs roster : list string) :
  get_all_environments shell json_envs w = (Ok envs, w1) ->
  get_students ctx (fs w) = Ok roster ->
  let listed := List.filter (fun n => mem n envs) (List.map make_env_name roster) in
  list_environments shell json_envs ctx w =
    (Ok tt, mkWorld (fs w1) (cwd w1) (conda w1) (console w ++ listed) (calls w1)) /\
  (forall n, n ∈ listed ->
     String.prefix "env_" n = true /\ n ∈ envs /\
     exists s, s ∈ roster /\ n = make_env_name s) /\
  (forall n, n ∈ envs ->
     (~ exists s, s ∈ roster /\ n = make_env_name s) -> n ∉ listed).
Proof.
  intros Henvs Hr listed.
  destruct (get_all_environments_ok _ _ _ _ _ Henvs) as (Hfs & _ & Hcon & _).
  assert (forall n, n ∈ listed ->
            n ∈ envs /\ exists s, s ∈ roster /\ n = make_env_name s) as Hlisted.
  { intros n Hn. apply list_elem_of_In, filter_In in Hn as [Hn Hmem].
    split; [by apply mem_elem_of|].
    apply in_map_iff in Hn as (s & <- & Hs). exists s.
    by rewrite list_elem_of_In. }
  split; [|split].
  - unfold list_environments. rewrite (bind_ok _ _ _ _ _ Henvs).
    assert (get_students_m ctx w1 = (Ok roster, w1)) as Hr1.
    { unfold get_students_m. by rewrite Hfs, Hr. }
    rewrite (bind_ok _ _ _ _ _ Hr1), list_loop. by rewrite Hcon.
  - intros n Hn. destruct (Hlisted n Hn) as [He (s & Hs & ->)].
    split; [apply make_env_name_prefix|]. split; [done|]. by exists s.
  - intros n _ Hnot Hn. apply Hnot. by apply Hlisted.
Qed.

Lemma list_environments_filters_witness :
  console (snd (list_environments (Sample.shell []) Sample.json_envs
                  Sample.ctx0 Sample.populated))
    = ["env_alice"; "env_bob"; "env_carol"] /\
  "notebook" ∉ ["env_alice"; "env_bob"; "env_carol"].
Proof.
  destruct (list_environments_filters (Sample.shell []) Sample.json_envs
              Sample.ctx0 Sample.populated
              (snd (get_all_environments (Sample.shell []) Sample.json_envs
                      Sample.populated))
              ["env_alice"; "notebook"; "env_bob"; "env_carol"]
              ["alice"; "bob"; "carol"])
    as (Hrun & _ & Hout).
  - vm_compute. reflexivity.
  - vm_compute. reflexivity.
  - split.
    + rewrite Hrun. vm_compute. reflexivity.
    + apply (Hout "notebook").
      * apply (bool_decide_unpack _). vm_compute. exact I.
      * intros (s & Hs & Hname). apply list_elem_of_In in Hs.
        destruct Hs as [<-|[<-|[<-|[]]]]; discriminate Hname.
Defined.

(** ** The batches over the roster *)

Section Batches.
Context {X : Type}.
Variable shell : string -> option Path -> X -> CompletedProcess * X.
Variable json_envs : string -> option (list string).
Variable decode : string -> option string.
Variable markup_error : string -> bool.
Implicit Types w : @World X.

Lemma rich_print_accepted (text : string) w :
  markup_error text = false ->
  rich_print markup_error text w =
  (Ok tt, mkWorld (fs w) (cwd w) (conda w) (console w ++ [text]) (calls w)).
Proof. unfold rich_print. by intros ->. Qed.

Lemma rich_print_rejected (text : string) w :
  markup_error text = true ->
  rich_print markup_error text w = (Raise MarkupError, w).
Proof. unfold rich_print. by intros ->. Qed.

(** A report that can be made prints the decoded error output after the
    prefix. *)
Lemma report_accepted (prefix stderr : string) w :
  unreportable decode markup_error prefix stderr = false ->
  exists text,
    decode stderr = Some text /\
    report decode markup_error prefix stderr w =
    (Ok tt, mkWorld (fs w) (cwd w) (conda w)
              (console w ++ [prefix +:+ text]) (calls w)).
Proof.
  unfold unreportable, report, decode_stderr, bind.
  destruct (decode stderr) as [text|]; [|done].
  intros H. exists text. split; [done|]. unfold ret.
  by apply rich_print_accepted.
Qed.

(** A report that cannot be made raises, and the world stays as it is. *)
Lemma report_rejected (prefix stderr : string) w :
  unreportable decode markup_error prefix stderr = true ->
  exists e, report decode markup_error prefix stderr w = (Raise e, w).
Proof.
  unfold unreportable, report, decode_stderr, bind.
  destruct (decode stderr) as [text|].
  - intros H. exists MarkupError. unfold ret. by apply rich_print_rejected.
  - intros _. by exists UnicodeDecodeError.
Qed.

(** A report runs no command and leaves the tree alone. *)
Lemma report_world (prefix stderr : string) w :
  exists r w',
    report decode markup_error prefix stderr w = (r, w') /\
    fs w' = fs w /\ calls w' = calls w.
Proof.
  destruct (unreportable decode markup_error prefix stderr) eqn:H.
  - destruct (report_rejected prefix stderr w H) as (e & ->). by eexists _, _.
  - destruct (report_accepted prefix stderr w H) as (text & _ & ->).
    by eexists _, _.
Qed.

(** One iteration of [create_environments], spelled out. *)
Lemma create_environment_skip (envs : list string) (force : bool) (s : string) w :
  needs_create envs force s = false ->
  create_environment shell decode markup_error envs force s w = (Ok Continue, w).
Proof.
  unfold needs_create, create_environment. intros H. by rewrite H.
Qed.

Lemma create_environment_unprinted (envs : list string) (force : bool)
    (s : string) w :
  needs_create envs force s = true ->
  markup_error (creating_line s) = true ->
  create_environment shell decode markup_error envs force s w =
  (Raise MarkupError, w).
Proof.
  unfold needs_create, create_environment. intros H Hline. rewrite H.
  munfold. by rewrite rich_print_rejected by exact Hline.
Qed.

Lemma create_environment_run (envs : list string) (force : bool) (s : string) w :
  needs_create envs force s = true ->
  markup_error (creating_line s) = false ->
  create_environment shell decode markup_error envs force s w =
  let '(p, x') := shell (create_command (make_env_name s)) None (conda w) in
  let w1 := mkWorld (fs w) (cwd w) x' (console w ++ [creating_line s])
              (calls w ++ [create_call s]) in
  if (proc_returncode p =? 0)%Z then (Ok Continue, w1)
  else match report decode markup_error creating_error (proc_stderr p) w1 with
       | (Ok _, w2) => (Ok Break, w2)
       | (Raise e, w2) => (Raise e, w2)
       end.
Proof.
  unfold needs_create, create_environment. intros H Hline. rewrite H.
  munfold. rewrite rich_print_accepted by exact Hline.
  unfold subprocess_run. simpl.
  destruct (shell (create_command (make_env_name s)) None (conda w)) as [p x'].
  simpl. destruct (proc_returncode p =? 0)%Z; simpl; [done|].
  fold creating_error.
  by destruct (report decode markup_error creating_error (proc_stderr p) _)
    as [[[]|e] w2].
Qed.

(** What an iteration of [create_environments] adds to the call log,
    whatever the manager and the console do: nothing for a student that
    needs no creation, otherwise at most the creation call, and without the
    call the iteration has raised. *)
Lemma create_environment_step (envs : list string) (force : bool) (s : string) w :
  exists r w',
    create_environment shell decode markup_error envs force s w = (r, w') /\
    (needs_create envs force s = false /\ r = Ok Continue /\ w' = w \/
     needs_create envs force s = true /\ calls w' = calls w /\
       (exists e, r = Raise e) \/
     needs_create envs force s = true /\ calls w' = calls w ++ [create_call s]).
Proof.
  destruct (needs_create envs force s) eqn:Hneed.
  - destruct (markup_error (creating_line s)) eqn:Hline.
    + rewrite create_environment_unprinted by done.
      eexists _, _. split; [done|]. right. left. by eauto.
    + rewrite create_environment_run by done.
      destruct (shell (create_command (make_env_name s)) None (conda w)) as [p x'].
      cbv zeta. destruct (proc_returncode p =? 0)%Z.
      * eexists _, _. split; [done|]. right. right. done.
      * match goal with |- context [report _ _ _ _ ?w1] =>
          destruct (report_world creating_error (proc_stderr p) w1)
            as (r & w2 & Hrep & _ & Hc) end.
        rewrite Hrep. simpl in Hc.
        destruct r as [[]|e]; eexists _, _; (split; [done|]); right; right; done.
  - rewrite create_environment_skip by done.
    eexists _, _. split; [done|]. left. done.
Qed.

(** A refused creation ends the loop, by [break] or by an exception of the
    report: what follows in the roster has no effect on the outcome. *)
Lemma create_environment_stops (envs : list string) (force : bool) (s : string) w :
  needs_create envs force s = true ->
  fails shell (create_command (make_env_name s)) ->
  exists w',
    create_environment shell decode markup_error envs force s w = (Ok Break, w') \/
    exists e, create_environment shell decode markup_error envs force s w
              = (Raise e, w').
Proof.
  intros Hneed Hfail.
  destruct (markup_error (creating_line s)) eqn:Hline.
  - rewrite create_environment_unprinted by done. exists w. right. by eauto.
  - rewrite create_environment_run by done.
    specialize (Hfail None (conda w)).
    destruct (shell (create_command (make_env_name s)) None (conda w)) as [p x'].
    simpl in Hfail. apply Z.eqb_neq in Hfail. rewrite Hfail. cbv zeta.
    match goal with |- context [report _ _ _ _ ?w1] =>
      destruct (report decode markup_error creating_error (proc_stderr p) w1)
        as [[[]|e] w2] end.
    + exists w2. by left.
    + exists w2. right. by eauto.
Qed.

Lemma create_fail_fast (envs : list string) (force : bool) (s : string) :
  needs_create envs force s = true ->
  fails shell (create_command (make_env_name s)) ->
  forall pre post w,
    for_ (pre ++ s :: post) (create_environment shell decode markup_error envs force) w =
    for_ (pre ++ [s]) (create_environment shell decode markup_error envs force) w.
Proof.
  intros Hneed Hfail pre post. induction pre as [|a pre IH]; intros w.
  - simpl app. rewrite !for_cons.
    by destruct (create_environment_stops envs force s w Hneed Hfail)
      as (w' & [-> | (e & ->)]).
  - rewrite <- !app_comm_cons, !for_cons.
    destruct (create_environment shell decode markup_error envs force a w)
      as [[[]|e] w']; auto.
Qed.

(** The creation calls of the loop of [create_environments] are those of
    the first students that need a creation, in the order of the roster,
    however the loop ends. *)
Lemma create_calls_prefix (envs : list string) (force : bool) (l : list string) :
  forall w, exists r w' touched,
    for_ l (create_environment shell decode markup_error envs force) w = (r, w') /\
    touched `prefix_of` List.filter (needs_create envs force) l /\
    calls w' = calls w ++ List.map create_call touched.
Proof.
  induction l as [|s l IH]; intros w.
  - exists (Ok tt), w, []. split; [done|]. split; [apply prefix_nil|].
    by rewrite app_nil_r.
  - rewrite for_cons. simpl List.filter.
    destruct (create_environment_step envs force s w)
      as (r1 & w1 & -> & [(Hneed & -> & ->) | [(Hneed & Hc1 & e & ->) | (Hneed & Hc1)]]);
      rewrite Hneed.
    + apply IH.
    + exists (Raise e), w1, []. split; [done|]. split; [apply prefix_nil|].
      by rewrite Hc1, app_nil_r.
    + destruct r1 as [[]|e].
      * destruct (IH w1) as (r & w' & touched & -> & Hpre & Hcalls).
        exists r, w', (s :: touched). split; [done|].
        split; [by apply prefix_cons|].
        by rewrite Hcalls, Hc1, <- app_assoc.
      * exists (Ok tt), w1, [s]. split; [done|].
        split; [by apply prefix_cons, prefix_nil|]. by rewrite Hc1.
      * exists (Raise e), w1, [s]. split; [done|].
        split; [by apply prefix_cons, prefix_nil|]. by rewrite Hc1.
Qed.

Lemma create_environment_success (envs : list string) (force : bool) (s : string) w :
  needs_create envs force s = true ->
  markup_error (creating_line s) = false ->
  succeeds shell (create_command (make_env_name s)) ->
  exists w',
    create_environment shell decode markup_error envs force s w = (Ok Continue, w') /\
    fs w' = fs w /\ calls w' = calls w ++ [create_call s].
Proof.
  intros Hneed Hline Hok. rewrite create_environment_run by done.
  specialize (Hok None (conda w)).
  destruct (shell (create_command (make_env_name s)) None (conda w)) as [p x'].
  simpl in Hok. rewrite Hok. simpl. by eexists.
Qed.

Lemma create_environment_failure (envs : list string) (force : bool) (s : string) w :
  needs_create envs force s = true ->
  markup_error (creating_line s) = false ->
  fails shell (create_command (make_env_name s)) ->
  reports shell decode markup_error ->
  exists w',
    create_environment shell decode markup_error envs force s w = (Ok Break, w') /\
    calls w' = calls w ++ [create_call s].
Proof.
  intros Hneed Hline Hfail Hrep. rewrite create_environment_run by done.
  specialize (Hfail None (conda w)).
  specialize (Hrep creating_error (create_command (make_env_name s)) None (conda w)).
  destruct (shell (create_command (make_env_name s)) None (conda w)) as [p x'].
  simpl in Hfail, Hrep. pose proof Hfail as Hne.
  apply Z.eqb_neq in Hfail. rewrite Hfail. cbv zeta.
  match goal with |- context [report _ _ _ _ ?w1] =>
    destruct (report_accepted creating_error (proc_stderr p) w1)
      as (text & _ & ->) end.
  { apply Hrep; [|done]. unfold error_prefixes. apply list_elem_of_here. }
  by eexists.
Qed.

(** One iteration of [remove_environments], spelled out for a student with
    an environment. *)
Lemma remove_environment_skip (envs : list string) (s : string) w :
  has_environment envs s = false ->
  remove_environment shell decode markup_error envs s w = (Ok Continue, w).
Proof.
  unfold has_environment, remove_environment. intros H. by rewrite H.
Qed.

Lemma remove_environment_unprinted (envs : list string) (s : string) w :
  has_environment envs s = true ->
  markup_error (removing_line s) = true ->
  remove_environment shell decode markup_error envs s w = (Raise MarkupError, w).
Proof.
  unfold has_environment, remove_environment. intros H Hline. rewrite H.
  munfold. by rewrite rich_print_rejected by exact Hline.
Qed.

Lemma remove_environment_run (envs : list string) (s : string) w :
  has_environment envs s = true ->
  markup_error (removing_line s) = false ->
  remove_environment shell decode markup_error envs s w =
  let '(p, x') := shell (remove_command (make_env_name s)) None (conda w) in
  let w1 := mkWorld (fs w) (cwd w) x' (console w ++ [removing_line s])
              (calls w ++ [remove_call s]) in
  if (proc_returncode p =? 0)%Z then (Ok Continue, w1)
  else match report decode markup_error removing_error (proc_stderr p) w1 with
       | (Ok _, w2) => (Ok Continue, w2)
       | (Raise e, w2) => (Raise e, w2)
       end.
Proof.
  unfold has_environment, remove_environment. intros H Hline. rewrite H.
  munfold. rewrite rich_print_accepted by exact Hline.
  unfold subprocess_run. simpl.
  destruct (shell (remove_command (make_env_name s)) None (conda w)) as [p x'].
  simpl. destruct (proc_returncode p =? 0)%Z; simpl; [done|].
  fold removing_error.
  by destruct (report decode markup_error removing_error (proc_stderr p) _)
    as [[[]|e] w2].
Qed.

(** An iteration of [remove_environments] never breaks. *)
Lemma remove_environment_no_break (envs : list string) (s : string) w w' :
  remove_environment shell decode markup_error envs s w <> (Ok Break, w').
Proof.
  destruct (has_environment envs s) eqn:Henv.
  - destruct (markup_error (removing_line s)) eqn:Hline.
    + by rewrite remove_environment_unprinted.
    + rewrite remove_environment_run by done.
      destruct (shell (remove_command (make_env_name s)) None (conda w)) as [p x'].
      cbv zeta. destruct (proc_returncode p =? 0)%Z; [done|].
      by destruct (report decode markup_error removing_error (proc_stderr p) _)
        as [[[]|e] w2].
  - by rewrite remove_environment_skip.
Qed.

(** With a console that prints the progress line and a manager whose error
    output can be reported, an iteration of [remove_environments] goes on to
    the next student. *)
Lemma remove_environment_continue (envs : list string) (s : string) w :
  markup_error (removing_line s) = false ->
  reports shell decode markup_error ->
  exists w',
    remove_environment shell decode markup_error envs s w = (Ok Continue, w') /\
    calls w' = calls w ++ (if has_environment envs s then [remove_call s] else []).
Proof.
  intros Hline Hrep.
  destruct (has_environment envs s) eqn:Henv.
  - rewrite remove_environment_run by done.
    specialize (Hrep removing_error (remove_command (make_env_name s)) None (conda w)).
    destruct (shell (remove_command (make_env_name s)) None (conda w)) as [p x'].
    simpl in Hrep. cbv zeta.
    destruct (proc_returncode p =? 0)%Z eqn:Hrc; [by eexists|].
    apply Z.eqb_neq in Hrc.
    match goal with |- context [report _ _ _ _ ?w1] =>
      destruct (report_accepted removing_error (proc_stderr p) w1)
        as (text & _ & ->) end.
    { apply Hrep; [|done]. unfold error_prefixes.
      apply list_elem_of_further, list_elem_of_here. }
    by eexists.
  - rewrite remove_environment_skip by done. exists w. by rewrite app_nil_r.
Qed.

Lemma remove_loop (envs : list string) (l : list string) :
  prints markup_error l ->
  reports shell decode markup_error ->
  forall w, exists w',
    for_ l (remove_environment shell decode markup_error envs) w = (Ok tt, w') /\
    calls w' = calls w ++ List.map remove_call (List.filter (has_environment envs) l).
Proof.
  intros Hprints Hrep. induction l as [|s l IH]; intros w.
  - exists w. by rewrite app_nil_r.
  - rewrite for_cons.
    destruct (remove_environment_continue envs s w) as (w1 & -> & Hc1); [|done|].
    { apply (Hprints s); [apply list_elem_of_here|].
      unfold progress_lines. apply list_elem_of_further, list_elem_of_here. }
    destruct IH with (w := w1) as (w' & -> & Hc).
    { intros s' line Hs'. apply Hprints. by apply list_elem_of_further. }
    exists w'. split; [done|].
    rewrite Hc, Hc1. simpl. destruct (has_environment envs s); simpl.
    + by rewrite <- app_assoc.
    + by rewrite app_nil_r.
Qed.

(** A refusal whose report fails ends the loop of [remove_environments]
    with the exception of the report: what follows in the roster has no
    effect on the outcome. *)
Lemma remove_environment_raises (envs : list string) (s : string) w :
  has_environment envs s = true ->
  refuses_unreportably shell decode markup_error removing_error
    (remove_command (make_env_name s)) ->
  exists e w',
    remove_environment shell decode markup_error envs s w = (Raise e, w') /\
    (calls w' = calls w \/ calls w' = calls w ++ [remove_call s]).
Proof.
  intros Henv Hbad.
  destruct (markup_error (removing_line s)) eqn:Hline.
  - rewrite remove_environment_unprinted by done. eexists _, _. split; [done|].
    by left.
  - rewrite remove_environment_run by done.
    destruct (Hbad None (conda w)) as [Hrc Hun].
    destruct (shell (remove_command (make_env_name s)) None (conda w)) as [p x'].
    simpl in Hrc, Hun. apply Z.eqb_neq in Hrc. rewrite Hrc. cbv zeta.
    match goal with |- context [report _ _ _ _ ?w1] =>
      destruct (report_rejected removing_error (proc_stderr p) w1 Hun) as (e & ->) end.
    eexists _, _. split; [done|]. by right.
Qed.

Lemma remove_abort (envs : list string) (s : string) :
  has_environment envs s = true ->
  refuses_unreportably shell decode markup_error removing_error
    (remove_command (make_env_name s)) ->
  forall pre post w,
    for_ (pre ++ s :: post) (remove_environment shell decode markup_error envs) w =
      for_ (pre ++ [s]) (remove_environment shell decode markup_error envs) w /\
    exists e w',
      for_ (pre ++ [s]) (remove_environment shell decode markup_error envs) w
      = (Raise e, w').
Proof.
  intros Henv Hbad pre post. induction pre as [|a pre IH]; intros w.
  - simpl app. rewrite !for_cons.
    destruct (remove_environment_raises envs s w Henv Hbad) as (e & w' & -> & _).
    split; [done|]. by eexists _, _.
  - rewrite <- !app_comm_cons, !for_cons.
    destruct (remove_environment shell decode markup_error envs a w)
      as [[[]|e] w'] eqn:Ha.
    + apply IH.
    + by apply remove_environment_no_break in Ha.
    + split; [done|]. by eexists _, _.
Qed.

(** One iteration of [install_environments], spelled out for a student with
    an environment and a manifest. *)
Lemma install_environment_skip (ctx : Ctx) (envs : list string) (s : string) w :
  has_environment envs s = false ->
  install_environment shell decode markup_error ctx envs s w = (Ok Continue, w).
Proof.
  unfold has_environment, install_environment. intros H. by rewrite H.
Qed.

Lemma install_environment_not_found (ctx : Ctx) (envs : list string) (s : string) w :
  has_environment envs s = true ->
  find_pyproject_toml ctx (fs w) s = None ->
  install_environment shell decode markup_error ctx envs s w =
  if markup_error (not_found_line s) then (Raise MarkupError, w)
  else (Ok Continue,
        mkWorld (fs w) (cwd w) (conda w) (console w ++ [not_found_line s]) (calls w)).
Proof.
  unfold has_environment, install_environment, find_pyproject_toml_m.
  intros Henv Hm. rewrite Henv. munfold. rewrite Hm.
  unfold rich_print. fold (not_found_line s).
  by destruct (markup_error (not_found_line s)).
Qed.

Lemma install_environment_unprinted (ctx : Ctx) (envs : list string) (s : string)
    (m : Path) w :
  has_environment envs s = true ->
  find_pyproject_toml ctx (fs w) s = Some m ->
  markup_error (installing_line s) = true ->
  install_environment shell decode markup_error ctx envs s w = (Raise MarkupError, w).
Proof.
  unfold has_environment, install_environment, find_pyproject_toml_m.
  intros Henv Hm Hline. rewrite Henv. munfold. rewrite Hm.
  by rewrite rich_print_rejected by exact Hline.
Qed.

Lemma install_environment_run (ctx : Ctx) (envs : list string) (s : string)
    (m : Path) w :
  has_environment envs s = true ->
  find_pyproject_toml ctx (fs w) s = Some m ->
  markup_error (installing_line s) = false ->
  install_environment shell decode markup_error ctx envs s w =
  let env_name := make_env_name s in
  let '(p, x1) := shell (install_command env_name) (Some (path_parent m)) (conda w) in
  let w1 := mkWorld (fs w) (cwd w) x1 (console w ++ [installing_line s])
              (calls w ++ [install_call s m]) in
  if (proc_returncode p =? 0)%Z then
    if markup_error (importing_line s) then (Raise MarkupError, w1)
    else
      let '(q, x2) := shell (import_command env_name) None x1 in
      let w2 := mkWorld (fs w) (cwd w) x2
                  ((console w ++ [installing_line s]) ++ [importing_line s])
                  ((calls w ++ [install_call s m]) ++ [import_call s]) in
      if (proc_returncode q =? 0)%Z then (Ok Continue, w2)
      else match report decode markup_error importing_error (proc_stderr q) w2 with
           | (Ok _, w3) => (Ok Continue, w3)
           | (Raise e, w3) => (Raise e, w3)
           end
  else match report decode markup_error installing_error (proc_stderr p) w1 with
       | (Ok _, w2) => (Ok Continue, w2)
       | (Raise e, w2) => (Raise e, w2)
       end.
Proof.
  unfold has_environment, install_environment, find_pyproject_toml_m.
  intros Henv Hm Hline. rewrite Henv. munfold. rewrite Hm.
  rewrite rich_print_accepted by exact Hline.
  unfold subprocess_run. simpl.
  destruct (shell (install_command (make_env_name s)) (Some (path_parent m)) (conda w))
    as [p x1].
  simpl. fold installing_error importing_error (importing_line s).
  destruct (proc_returncode p =? 0)%Z; simpl.
  - unfold rich_print. destruct (markup_error (importing_line s)); [done|].
    unfold print. simpl.
    destruct (shell (import_command (make_env_name s)) None x1) as [q x2].
    simpl. destruct (proc_returncode q =? 0)%Z; simpl; [done|].
    by destruct (report decode markup_error importing_error (proc_stderr q) _)
      as [[[]|e] w3].
  - by destruct (report decode markup_error installing_error (proc_stderr p) _)
      as [[[]|e] w2].
Qed.

(** What an iteration of [install_environments] adds to the call log,
    whatever the manager and the console do.  It never breaks and leaves
    the tree alone. *)
Lemma install_environment_block (ctx : Ctx) (envs : list string) (s : string) w :
  exists r w' block,
    install_environment shell decode markup_error ctx envs s w = (r, w') /\
    r <> Ok Break /\ fs w' = fs w /\ calls w' = calls w ++ block /\
    install_block ctx (fs w) envs s block.
Proof.
  unfold install_block.
  destruct (has_environment envs s) eqn:Henv.
  - destruct (find_pyproject_toml ctx (fs w) s) as [m|] eqn:Hm.
    + destruct (markup_error (installing_line s)) eqn:Hline.
      { rewrite (install_environment_unprinted ctx envs s m) by done.
        eexists _, _, []. split; [done|]. split; [done|]. split; [done|].
        split; [by rewrite app_nil_r|by left]. }
      rewrite (install_environment_run ctx envs s m) by done. cbv zeta.
      destruct (shell (install_command (make_env_name s)) (Some (path_parent m)) (conda w))
        as [p x1].
      destruct (proc_returncode p =? 0)%Z.
      * destruct (markup_error (importing_line s)).
        { eexists _, _, [install_call s m]. split; [done|]. split; [done|].
          split; [done|]. split; [done|]. right. exists m. by eauto. }
        destruct (shell (import_command (make_env_name s)) None x1) as [q x2].
        assert (forall r (w' : @World X),
                  fs w' = fs w ->
                  calls w' = (calls w ++ [install_call s m]) ++ [import_call s] ->
                  r <> Ok Break ->
                  exists r0 w0 block,
                    (r, w') = (r0, w0) /\ r0 <> Ok Break /\ fs w0 = fs w /\
                    calls w0 = calls w ++ block /\
                    (block = [] \/
                     exists manifest,
                       true = true /\ Some m = Some manifest /\
                       (block = [install_call s manifest] \/
                        block = [install_call s manifest; import_call s]))) as Hboth.
        { intros r w' Hfs Hc Hr.
          exists r, w', [install_call s m; import_call s].
          split; [done|]. split; [done|]. split; [done|].
          split; [by rewrite Hc, <- app_assoc|]. right. exists m. by eauto. }
        destruct (proc_returncode q =? 0)%Z; [by apply Hboth|].
        match goal with |- context [report _ _ _ _ ?w2] =>
          destruct (report_world importing_error (proc_stderr q) w2)
            as (r & w3 & Hrep & Hfs3 & Hc3) end.
        rewrite Hrep. simpl in Hfs3, Hc3.
        destruct r as [[]|e]; by apply Hboth.
      * match goal with |- context [report _ _ _ _ ?w1] =>
          destruct (report_world installing_error (proc_stderr p) w1)
            as (r & w2 & Hrep & Hfs2 & Hc2) end.
        rewrite Hrep. simpl in Hfs2, Hc2.
        destruct r as [[]|e]; eexists _, _, [install_call s m];
          (split; [done|]); (split; [done|]); (split; [done|]);
          (split; [done|]); right; exists m; by eauto.
    + rewrite install_environment_not_found by done.
      destruct (markup_error (not_found_line s)); eexists _, _, [];
        (split; [done|]); (split; [done|]); (split; [done|]);
        (split; [by rewrite app_nil_r|by left]).
  - rewrite install_environment_skip by done.
    eexists _, _, []. split; [done|]. split; [done|]. split; [done|].
    split; [by rewrite app_nil_r|by left].
Qed.

(** With a console that prints the progress lines and a manager whose error
    output can be reported, an iteration of [install_environments] goes on
    to the next student whatever the manager answers, and its one call with
    a working directory is the installation that the student is due. *)
Lemma install_environment_continue (ctx : Ctx) (envs : list string) (s : string) w :
  prints markup_error [s] ->
  reports shell decode markup_error ->
  exists w' new,
    install_environment shell decode markup_error ctx envs s w = (Ok Continue, w') /\
    fs w' = fs w /\ calls w' = calls w ++ new /\
    List.filter in_directory new = installs_due ctx (fs w) envs [s].
Proof.
  intros Hprints Hrep.
  assert (forall line, line ∈ progress_lines s -> markup_error line = false) as Hline.
  { intros line. apply Hprints, list_elem_of_here. }
  assert (markup_error (installing_line s) = false) as Hinst.
  { apply Hline. unfold progress_lines. by repeat constructor. }
  assert (markup_error (importing_line s) = false) as Himp.
  { apply Hline. unfold progress_lines. by repeat constructor. }
  assert (markup_error (not_found_line s) = false) as Hnf.
  { apply Hline. unfold progress_lines. by repeat constructor. }
  unfold installs_due. simpl flat_map. rewrite app_nil_r.
  destruct (has_environment envs s) eqn:Henv.
  - destruct (find_pyproject_toml ctx (fs w) s) as [m|] eqn:Hm.
    + rewrite (install_environment_run ctx envs s m) by done. cbv zeta.
      pose proof (Hrep installing_error (install_command (make_env_name s))
                    (Some (path_parent m)) (conda w)) as Hrep1.
      destruct (shell (install_command (make_env_name s)) (Some (path_parent m)) (conda w))
        as [p x1].
      simpl in Hrep1.
      destruct (proc_returncode p =? 0)%Z eqn:Hrc.
      * rewrite Himp.
        pose proof (Hrep importing_error (import_command (make_env_name s))
                      None x1) as Hrep2.
        destruct (shell (import_command (make_env_name s)) None x1) as [q x2].
        simpl in Hrep2.
        destruct (proc_returncode q =? 0)%Z eqn:Hrc2.
        { eexists _, [install_call s m; import_call s].
          split; [done|]. split; [done|]. split; [|done].
          simpl. by rewrite <- app_assoc. }
        apply Z.eqb_neq in Hrc2.
        match goal with |- context [report _ _ _ _ ?w2] =>
          destruct (report_accepted importing_error (proc_stderr q) w2)
            as (text & _ & ->) end.
        { apply Hrep2; [|done]. unfold error_prefixes. by repeat constructor. }
        eexists _, [install_call s m; import_call s].
        split; [done|]. split; [done|]. split; [|done].
        simpl. by rewrite <- app_assoc.
      * apply Z.eqb_neq in Hrc.
        match goal with |- context [report _ _ _ _ ?w1] =>
          destruct (report_accepted installing_error (proc_stderr p) w1)
            as (text & _ & ->) end.
        { apply Hrep1; [|done]. unfold error_prefixes. by repeat constructor. }
        eexists _, [install_call s m]. done.
    + rewrite install_environment_not_found by done. rewrite Hnf.
      eexists _, []. split; [done|]. split; [done|]. split; [|done].
      simpl. by rewrite app_nil_r.
  - rewrite install_environment_skip by done.
    exists w, []. split; [done|]. split; [done|]. split; [|done].
    by rewrite app_nil_r.
Qed.

Lemma installs_due_cons (ctx : Ctx) (t : node) (envs : list string) (s : string)
    (l : list string) :
  installs_due ctx t envs (s :: l) =
  installs_due ctx t envs [s] ++ installs_due ctx t envs l.
Proof. unfold installs_due. simpl. by rewrite app_nil_r. Qed.

Lemma prints_cons (s : string) (l : list string) :
  prints markup_error (s :: l) -> prints markup_error [s] /\ prints markup_error l.
Proof.
  intros H. split; intros s' line Hs'; apply H.
  - apply list_elem_of_singleton in Hs' as ->. apply list_elem_of_here.
  - by apply list_elem_of_further.
Qed.

Lemma install_loop (ctx : Ctx) (envs : list string) (l : list string) :
  prints markup_error l ->
  reports shell decode markup_error ->
  forall w, exists w' new,
    for_ l (install_environment shell decode markup_error ctx envs) w = (Ok tt, w') /\
    fs w' = fs w /\ calls w' = calls w ++ new /\
    List.filter in_directory new = installs_due ctx (fs w) envs l.
Proof.
  intros Hprints Hrep. induction l as [|s l IH]; intros w.
  - exists w, []. split; [done|]. split; [done|]. split; [|done].
    by rewrite app_nil_r.
  - apply prints_cons in Hprints as [Hs Hl]. rewrite for_cons.
    destruct (install_environment_continue ctx envs s w Hs Hrep)
      as (w1 & new1 & -> & Hfs1 & Hc1 & Hd1).
    destruct (IH Hl w1) as (w' & new & -> & Hfs & Hc & Hd).
    exists w', (new1 ++ new). split; [done|]. split; [congruence|].
    split; [by rewrite Hc, Hc1, <- app_assoc|].
    rewrite List.filter_app, Hd1, Hd, Hfs1. symmetry. apply installs_due_cons.
Qed.

Lemma install_environment_success (ctx : Ctx) (envs : list string) (s : string)
    (m : Path) w :
  prints markup_error [s] ->
  reports shell decode markup_error ->
  has_environment envs s = true ->
  find_pyproject_toml ctx (fs w) s = Some m ->
  succeeds shell (install_command (make_env_name s)) ->
  exists w',
    install_environment shell decode markup_error ctx envs s w = (Ok Continue, w') /\
    fs w' = fs w /\ calls w' = calls w ++ [install_call s m; import_call s].
Proof.
  intros Hprints Hrep Henv Hm Hok.
  assert (forall line, line ∈ progress_lines s -> markup_error line = false) as Hline.
  { intros line. apply Hprints, list_elem_of_here. }
  assert (markup_error (installing_line s) = false) as Hinst.
  { apply Hline. unfold progress_lines. by repeat constructor. }
  assert (markup_error (importing_line s) = false) as Himp.
  { apply Hline. unfold progress_lines. by repeat constructor. }
  rewrite (install_environment_run ctx envs s m) by done. cbv zeta.
  specialize (Hok (Some (path_parent m)) (conda w)).
  destruct (shell (install_command (make_env_name s)) (Some (path_parent m)) (conda w))
    as [p x1].
  simpl in Hok. rewrite Hok. simpl. rewrite Himp.
  pose proof (Hrep importing_error (import_command (make_env_name s)) None x1) as Hrep2.
  destruct (shell (import_command (make_env_name s)) None x1) as [q x2].
  simpl in Hrep2.
  destruct (proc_returncode q =? 0)%Z eqn:Hrc2.
  { eexists. split; [done|]. split; [done|]. simpl. by rewrite <- app_assoc. }
  apply Z.eqb_neq in Hrc2.
  match goal with |- context [report _ _ _ _ ?w2] =>
    destruct (report_accepted importing_error (proc_stderr q) w2)
      as (text & _ & ->) end.
  { apply Hrep2; [|done]. unfold error_prefixes. by repeat constructor. }
  eexists. split; [done|]. split; [done|]. simpl. by rewrite <- app_assoc.
Qed.

Lemma install_environment_failure (ctx : Ctx) (envs : list string) (s : string)
    (m : Path) w :
  prints markup_error [s] ->
  reports shell decode markup_error ->
  has_environment envs s = true ->
  find_pyproject_toml ctx (fs w) s = Some m ->
  fails shell (install_command (make_env_name s)) ->
  exists w',
    install_environment shell decode markup_error ctx envs s w = (Ok Continue, w') /\
    fs w' = fs w /\ calls w' = calls w ++ [install_call s m].
Proof.
  intros Hprints Hrep Henv Hm Hfail.
  assert (markup_error (installing_line s) = false) as Hinst.
  { apply (Hprints s); [apply list_elem_of_here|].
    unfold progress_lines. by repeat constructor. }
  rewrite (install_environment_run ctx envs s m) by done. cbv zeta.
  specialize (Hfail (Some (path_parent m)) (conda w)).
  pose proof (Hrep installing_error (install_command (make_env_name s))
                (Some (path_parent m)) (conda w)) as Hrep1.
  destruct (shell (install_command (make_env_name s)) (Some (path_parent m)) (conda w))
    as [p x1].
  simpl in Hfail, Hrep1. pose proof Hfail as Hne.
  apply Z.eqb_neq in Hfail. rewrite Hfail.
  match goal with |- context [report _ _ _ _ ?w1] =>
    destruct (report_accepted installing_error (proc_stderr p) w1)
      as (text & _ & ->) end.
  { apply Hrep1; [|done]. unfold error_prefixes. by repeat constructor. }
  by eexists.
Qed.

(** A refused installation whose report fails ends the loop of
    [install_environments] with the exception of the report. *)
Lemma install_environment_raises (ctx : Ctx) (envs : list string) (s : string)
    (m : Path) w :
  has_environment envs s = true ->
  find_pyproject_toml ctx (fs w) s = Some m ->
  refuses_unreportably shell decode markup_error installing_error
    (install_command (make_env_name s)) ->
  exists e w',
    install_environment shell decode markup_error ctx envs s w = (Raise e, w').
Proof.
  intros Henv Hm Hbad.
  destruct (markup_error (installing_line s)) eqn:Hline.
  - rewrite (install_environment_unprinted ctx envs s m) by done. by eexists _, _.
  - rewrite (install_environment_run ctx envs s m) by done. cbv zeta.
    destruct (Hbad (Some (path_parent m)) (conda w)) as [Hrc Hun].
    destruct (shell (install_command (make_env_name s)) (Some (path_parent m)) (conda w))
      as [p x1].
    simpl in Hrc, Hun. apply Z.eqb_neq in Hrc. rewrite Hrc.
    match goal with |- context [report _ _ _ _ ?w1] =>
      destruct (report_rejected installing_error (proc_stderr p) w1 Hun) as (e & ->) end.
    by eexists _, _.
Qed.

Lemma install_abort (ctx : Ctx) (envs : list string) (s : string) (m : Path) :
  has_environment envs s = true ->
  refuses_unreportably shell decode markup_error installing_error
    (install_command (make_env_name s)) ->
  forall pre post w,
    find_pyproject_toml ctx (fs w) s = Some m ->
    for_ (pre ++ s :: post) (install_environment shell decode markup_error ctx envs) w =
      for_ (pre ++ [s]) (install_environment shell decode markup_error ctx envs) w /\
    exists e w',
      for_ (pre ++ [s]) (install_environment shell decode markup_error ctx envs) w
      = (Raise e, w').
Proof.
  intros Henv Hbad pre post. induction pre as [|a pre IH]; intros w Hm.
  - simpl app. rewrite !for_cons.
    destruct (install_environment_raises ctx envs s m w Henv Hm Hbad) as (e & w' & ->).
    split; [done|]. by eexists _, _.
  - rewrite <- !app_comm_cons, !for_cons.
    destruct (install_environment_block ctx envs a w)
      as (r & w' & block & -> & Hr & Hfs & _).
    destruct r as [[]|e].
    + apply IH. by rewrite Hfs.
    + done.
    + split; [done|]. by eexists _, _.
Qed.

(** The three batches start alike: the environments are listed, then the
    roster is read from the unchanged tree. *)
Lemma batch_start {A} (ctx : Ctx) (k : list string -> list string -> M A)
    w w1 (envs roster : list string) :
  get_all_environments shell json_envs w = (Ok envs, w1) ->
  get_students ctx (fs w) = Ok roster ->
  (environments ← get_all_environments shell json_envs;
   students ← get_students_m ctx;
   k environments students) w = k envs roster w1.
Proof.
  intros Henvs Hr.
  destruct (get_all_environments_ok _ _ _ _ _ Henvs) as (Hfs & _).
  rewrite (bind_ok _ _ _ _ _ Henvs).
  apply bind_ok. unfold get_students_m. by rewrite Hfs, Hr.
Qed.

Lemma create_environments_loop (ctx : Ctx) (force : bool) w w1
    (envs roster : list string) :
  get_all_environments shell json_envs w = (Ok envs, w1) ->
  get_students ctx (fs w) = Ok roster ->
  create_environments shell json_envs decode markup_error ctx force w =
  for_ roster (create_environment shell decode markup_error envs force) w1.
Proof.
  intros Henvs Hr. unfold create_environments.
  by rewrite (batch_start ctx
                (fun e l => for_ l (create_environment shell decode markup_error e force))
                w w1 envs roster).
Qed.

Lemma remove_environments_loop (ctx : Ctx) w w1 (envs roster : list string) :
  get_all_environments shell json_envs w = (Ok envs, w1) ->
  get_students ctx (fs w) = Ok roster ->
  remove_environments shell json_envs decode markup_error ctx w =
  for_ roster (remove_environment shell decode markup_error envs) w1.
Proof.
  intros Henvs Hr. unfold remove_environments.
  by rewrite (batch_start ctx
                (fun e l => for_ l (remove_environment shell decode markup_error e))
                w w1 envs roster).
Qed.

Lemma install_environments_loop (ctx : Ctx) w w1 (envs roster : list string) :
  get_all_environments shell json_envs w = (Ok envs, w1) ->
  get_students ctx (fs w) = Ok roster ->
  install_environments shell json_envs decode markup_error ctx w =
  for_ roster (install_environment shell decode markup_error ctx envs) w1.
Proof.
  intros Henvs Hr. unfold install_environments.
  by rewrite (batch_start ctx
                (fun e l => for_ l (install_environment shell decode markup_error ctx e))
                w w1 envs roster).
Qed.

End Batches.

(** C1. The batches [remove_environments] and [install_environments] do not
    always go on after a refusal of the manager.  The [except] block reports
    the refusal with [print(f"...{exc.stderr.decode()}")] before it
    continues; when the error output of the manager does not decode, or
    holds markup that [rich] rejects, this report raises inside the block
    and the exception ends the batch at that student: the outcome is that of
    the roster cut after the student, an exception, and the students after
    it are not processed. *)
Theorem unreportable_refusal_ends_batch {X : Type}
    (shell : string -> option Path -> X -> CompletedProcess * X)
    (json_envs : string -> option (list string))
    (decode : string -> option string) (markup_error : string -> bool)
    (ctx : Ctx) (w w1 : @World X) (envs pre : list string) (s : string)
    (post : list string) :
  get_all_environments shell json_envs w = (Ok envs, w1) ->
  get_students ctx (fs w) = Ok (pre ++ s :: post) ->
  has_environment envs s = true ->
  (refuses_unreportably shell decode markup_error removing_error
     (remove_command (make_env_name s)) ->
   remove_environments shell json_envs decode markup_error ctx w =
     for_ (pre ++ [s]) (remove_environment shell decode markup_error envs) w1 /\
   exists e w',
     remove_environments shell json_envs decode markup_error ctx w = (Raise e, w')) /\
  (forall m,
     find_pyproject_toml ctx (fs w) s = Some m ->
     refuses_unreportably shell decode markup_error installing_error
       (install_command (make_env_name s)) ->
     install_environments shell json_envs decode markup_error ctx w =
       for_ (pre ++ [s]) (install_environment shell decode markup_error ctx envs) w1 /\
     exists e w',
       install_environments shell json_envs decode markup_error ctx w = (Raise e, w')).
Proof.
  intros Henvs Hr Henv.
  destruct (get_all_environments_ok _ _ _ _ _ Henvs) as (Hfs & _).
  split.
  - intros Hbad.
    rewrite (remove_environments_loop shell json_envs decode markup_error ctx
               w w1 envs _ Henvs Hr).
    destruct (remove_abort shell decode markup_error envs s Henv Hbad pre post w1)
      as (Hcut & e & w' & Hraise).
    split; [done|]. exists e, w'. by rewrite Hcut.
  - intros m Hm Hbad.
    rewrite (install_environments_loop shell json_envs decode markup_error ctx
               w w1 envs _ Henvs Hr).
    rewrite <- Hfs in Hm.
    destruct (install_abort shell decode markup_error ctx envs s m Henv Hbad
                pre post w1 Hm) as (Hcut & e & w' & Hraise).
    split; [done|]. exists e, w'. by rewrite Hcut.
Qed.

Lemma unreportable_refusal_ends_batch_witness :
  let manager := Sample3.shell Sample3.log_hint ["bob"] in
  let removal :=
    remove_environments manager Sample.json_envs Sample3.decode
      Sample3.markup_error Sample.ctx0 Sample.populated in
  let installation :=
    install_environments manager Sample.json_envs Sample3.decode
      Sample3.markup_error Sample.ctx0 Sample.populated in
  (exists e w', removal = (Raise e, w')) /\
  fst removal = Raise MarkupError /\
  calls (snd removal) =
    [("conda env list --json", None); remove_call "alice"; remove_call "bob"] /\
  console (snd removal) = [removing_line "alice"; removing_line "bob"] /\
  (exists e w', installation = (Raise e, w')) /\
  fst installation = Raise MarkupError /\
  calls (snd installation) =
    [("conda env list --json", None);
     install_call "alice" ["code"; "alice"; "pyproject.toml"]; import_call "alice";
     install_call "bob" ["code"; "bob"; "src"; "pyproject.toml"]] /\
  fst (remove_environments (Sample3.shell Sample3.not_utf8 ["bob"]) Sample.json_envs
         Sample3.decode Sample3.markup_error Sample.ctx0 Sample.populated)
    = Raise UnicodeDecodeError.
Proof.
  intros manager removal installation.
  destruct (unreportable_refusal_ends_batch manager Sample.json_envs Sample3.decode
              Sample3.markup_error Sample.ctx0 Sample.populated
              (snd (get_all_environments manager Sample.json_envs Sample.populated))
              ["env_alice"; "notebook"; "env_bob"; "env_carol"]
              ["alice"] "bob" ["carol"]) as (Hremove & Hinstall).
  - vm_compute. reflexivity.
  - vm_compute. reflexivity.
  - reflexivity.
  - destruct Hremove as (_ & Hraise).
    { intros dir x. split; [intros H; vm_compute in H; discriminate H|].
      vm_compute. reflexivity. }
    destruct (Hinstall ["code"; "bob"; "src"; "pyproject.toml"]) as (_ & Hraise').
    { reflexivity. }
    { intros dir x. split; [intros H; vm_compute in H; discriminate H|].
      vm_compute. reflexivity. }
    split; [exact Hraise|]. split; [vm_compute; reflexivity|].
    split; [vm_compute; reflexivity|]. split; [vm_compute; reflexivity|].
    split; [exact Hraise'|]. split; [vm_compute; reflexivity|].
    split; vm_compute; reflexivity.
Defined.

(** ** Paths of environments *)

Section EnvironmentPaths.

Lemma split_slash_app (s t cur : string) :
  split_slash cur (s +:+ String "/" t) = split_slash cur s ++ split_slash "" t.
Proof.
  revert cur. induction s as [|c s IH]; intros cur.
  - reflexivity.
  - change (String c s +:+ String "/" t) with (String c (s +:+ String "/" t)).
    simpl. destruct (Ascii.eqb c "/"); by rewrite IH.
Qed.

Lemma split_slash_segment (n cur : string) :
  no_slash n = true -> split_slash cur n = [String.rev_app cur n].
Proof.
  revert cur. induction n as [|c n IH]; intros cur; simpl; [done|].
  intros [Hc Hn]%andb_prop. apply negb_true_iff in Hc. rewrite Hc.
  by rewrite IH.
Qed.

Lemma path_of_string_app (s t : string) :
  path_of_string (s +:+ String "/" t) = path_of_string s ++ path_of_string t.
Proof. unfold path_of_string. by rewrite split_slash_app, List.filter_app. Qed.

Lemma path_of_string_segment (n : string) :
  no_slash n = true -> n <> "" -> n <> "." -> path_of_string n = [n].
Proof.
  intros Hn He Hd. unfold path_of_string. rewrite split_slash_segment by done.
  simpl. apply String.eqb_neq in He, Hd. by rewrite He, Hd.
Qed.

Lemma path_of_string_envs (prefix n : string) :
  no_slash n = true -> n <> "" -> n <> "." ->
  path_of_string (prefix +:+ "/envs/" +:+ n) = path_of_string prefix ++ ["envs"; n].
Proof.
  intros Hn He Hd.
  change ("/envs/" +:+ n) with (String "/" ("envs" +:+ String "/" n)).
  by rewrite !path_of_string_app, (path_of_string_segment n).
Qed.

Lemma path_name_snoc (p : Path) (n : string) : path_name (p ++ [n]) = n.
Proof. apply last_last. Qed.

(** A student whose environment the manager lists in a directory called
    [envs] has an environment for the batches. *)
Lemma has_environment_listed (paths : list string) (prefix s : string) :
  no_slash s = true ->
  (prefix +:+ "/envs/" +:+ make_env_name s) ∈ paths ->
  has_environment (environment_names paths) s = true.
Proof.
  intros Hs Hin. unfold has_environment. apply mem_elem_of.
  unfold environment_names. apply list_elem_of_In, in_map_iff.
  exists (path_of_string (prefix +:+ "/envs/" +:+ make_env_name s)).
  assert (path_of_string (prefix +:+ "/envs/" +:+ make_env_name s)
          = (path_of_string prefix ++ ["envs"]) ++ [make_env_name s]) as ->.
  { rewrite path_of_string_envs.
    - by rewrite <- app_assoc.
    - unfold make_env_name.
      change ("env_" +:+ s) with (String "e" (String "n" (String "v" (String "_" s)))).
      simpl. exact Hs.
    - unfold make_env_name.
      change ("env_" +:+ s) with (String "e" (String "n" (String "v" (String "_" s)))).
      discriminate.
    - unfold make_env_name.
      change ("env_" +:+ s) with (String "e" (String "n" (String "v" (String "_" s)))).
      discriminate. }
  split; [apply path_name_snoc|].
  apply filter_In. split.
  - rewrite <- app_assoc. simpl app.
    rewrite <- (path_of_string_envs prefix (make_env_name s)).
    + apply in_map. by apply list_elem_of_In.
    + unfold make_env_name.
      change ("env_" +:+ s) with (String "e" (String "n" (String "v" (String "_" s)))).
      simpl. exact Hs.
    + unfold make_env_name.
      change ("env_" +:+ s) with (String "e" (String "n" (String "v" (String "_" s)))).
      discriminate.
    + unfold make_env_name.
      change ("env_" +:+ s) with (String "e" (String "n" (String "v" (String "_" s)))).
      discriminate.
  - apply String.eqb_eq. by rewrite path_parent_snoc, path_name_snoc.
Qed.

End EnvironmentPaths.

(** ** Repeated creation *)

Section CreateTwice.
Context {X : Type}.
Variable shell : string -> option Path -> X -> CompletedProcess * X.
Variable json_envs : string -> option (list string).
Variable decode : string -> option string.
Variable markup_error : string -> bool.
Implicit Types w : @World X.

Lemma string_length_app (s t : string) :
  String.length (s +:+ t) = (String.length s + String.length t)%nat.
Proof.
  induction s as [|c s IH]; [done|].
  change (String c s +:+ t) with (String c (s +:+ t)).
  simpl. by rewrite IH.
Qed.

Lemma string_app_inv_tail (t s1 s2 : string) : s1 +:+ t = s2 +:+ t -> s1 = s2.
Proof.
  revert s2. induction s1 as [|c s1 IH]; intros [|c2 s2] H.
  - done.
  - apply (f_equal String.length) in H.
    change (String c2 s2 +:+ t) with (String c2 (s2 +:+ t)) in H.
    change ("" +:+ t) with t in H.
    simpl in H. rewrite string_length_app in H. lia.
  - apply (f_equal String.length) in H.
    change (String c s1 +:+ t) with (String c (s1 +:+ t)) in H.
    change ("" +:+ t) with t in H.
    simpl in H. rewrite string_length_app in H. lia.
  - change (String c (s1 +:+ t) = String c2 (s2 +:+ t)) in H.
    injection H as -> H. f_equal. by apply IH.
Qed.

Lemma create_call_inj (s1 s2 : string) : create_call s1 = create_call s2 -> s1 = s2.
Proof.
  unfold create_call, create_command, make_env_name. intros [= H].
  apply string_app_inv_tail in H. exact H.
Qed.

Lemma create_call_not_list (s : string) :
  create_call s <> ("conda env list --json", None).
Proof.
  unfold create_call, create_command. cbv [String.app String.append].
  intros [=].
Qed.

(** What [get_all_environments] makes of the paths that the manager
    lists. *)
Lemma get_all_environments_listing (paths : list string) w :
  json_envs (proc_stdout (fst (shell "conda env list --json" None (conda w))))
    = Some paths ->
  get_all_environments shell json_envs w =
    (Ok (environment_names paths),
     mkWorld (fs w) (cwd w)
       (snd (shell "conda env list --json" None (conda w)))
       (console w) (calls w ++ [("conda env list --json", None)])).
Proof.
  intros Hjson. unfold get_all_environments, subprocess_run. munfold. simpl.
  destruct (shell "conda env list --json" None (conda w)) as [p x'].
  simpl in *. by rewrite Hjson.
Qed.

(** With an environment for every student the loop of
    [create_environments] does nothing. *)
Lemma create_loop_noop (envs : list string) (l : list string) w :
  (forall s, s ∈ l -> has_environment envs s = true) ->
  for_ l (create_environment shell decode markup_error envs false) w = (Ok tt, w).
Proof.
  induction l as [|s l IH]; intros Hall; [done|].
  rewrite for_cons, create_environment_skip.
  - apply IH. intros s' Hs'. apply Hall. by apply list_elem_of_further.
  - unfold needs_create. fold (has_environment envs s).
    rewrite Hall; [done | apply list_elem_of_here].
Qed.

(** With a console that prints the progress lines and a manager that
    carries out every creation, the loop makes one creation call for each
    student that needs one. *)
Lemma create_loop_success (envs : list string) (force : bool) (l : list string) :
  (forall s, s ∈ l -> succeeds shell (create_command (make_env_name s))) ->
  (forall s, s ∈ l -> markup_error (creating_line s) = false) ->
  forall w, exists w',
    for_ l (create_environment shell decode markup_error envs force) w = (Ok tt, w') /\
    fs w' = fs w /\
    calls w' = calls w ++ List.map create_call (List.filter (needs_create envs force) l).
Proof.
  induction l as [|s l IH]; intros Hok Hlines w.
  - exists w. by rewrite app_nil_r.
  - rewrite for_cons. simpl List.filter.
    destruct (needs_create envs force s) eqn:Hneed.
    + destruct (create_environment_success shell decode markup_error envs force s w Hneed)
        as (w1 & -> & Hfs1 & Hc1).
      { apply Hlines, list_elem_of_here. }
      { apply Hok, list_elem_of_here. }
      destruct (IH (fun s' Hs' => Hok s' (list_elem_of_further _ _ _ Hs'))
                   (fun s' Hs' => Hlines s' (list_elem_of_further _ _ _ Hs')) w1)
        as (w' & -> & Hfs & Hc).
      exists w'. split; [done|]. split; [congruence|].
      by rewrite Hc, Hc1, <- app_assoc.
    + rewrite create_environment_skip by done.
      apply IH.
      * intros s' Hs'. by apply Hok, list_elem_of_further.
      * intros s' Hs'. by apply Hlines, list_elem_of_further.
Qed.

Lemma count_create_calls (envs : list string) (l : list string) (s : string) :
  NoDup l -> s ∈ l -> needs_create envs false s = true ->
  count_occ call_eq_dec
            (List.map create_call (List.filter (needs_create envs false) l))
            (create_call s) = 1%nat.
Proof.
  intros Hnd Hs Hneed.
  rewrite <- (count_occ_map create_call String.eq_dec call_eq_dec create_call_inj).
  assert (NoDup (List.filter (needs_create envs false) l)) as Hnd'.
  { apply NoDup_ListNoDup, List.NoDup_filter. by apply NoDup_ListNoDup. }
  apply NoDup_ListNoDup in Hnd'.
  pose proof (proj1 (List.NoDup_count_occ String.eq_dec _) Hnd' s) as Hle.
  assert (In s (List.filter (needs_create envs false) l)) as Hin.
  { apply filter_In. by rewrite <- list_elem_of_In. }
  apply (count_occ_In String.eq_dec) in Hin. lia.
Qed.

End CreateTwice.

(** C3. Creation without [force] is idempotent for the environments that
    the tool recognises, which are those that the manager lists in a
    directory called [envs].  For a student whose environment is listed at
    [<prefix>/envs/env_<student>] an iteration of [create_environments] does
    nothing at all.  When the first run carries out the creations (the
    progress lines are printed and the manager carries out each creation),
    it makes one creation call for each student that lacks an environment;
    when the manager then lists the environments of the roster in a
    directory called [envs], a second run only lists them again, so over
    both runs each such student has been given exactly one creation call.
    The names of the students are names of directories and hold no slash. *)
Theorem create_idempotent {X : Type}
    (shell : string -> option Path -> X -> CompletedProcess * X)
    (json_envs : string -> option (list string))
    (decode : string -> option string) (markup_error : string -> bool)
    (ctx : Ctx) (w w1 : @World X) (envs1 roster : list string) :
  get_all_environments shell json_envs w = (Ok envs1, w1) ->
  get_students ctx (fs w) = Ok roster ->
  NoDup roster ->
  (forall s, s ∈ roster -> no_slash s = true) ->
  (forall s, s ∈ roster -> succeeds shell (create_command (make_env_name s))) ->
  (forall s, s ∈ roster -> markup_error (creating_line s) = false) ->
  (forall paths prefix s (w' : @World X),
     no_slash s = true ->
     (prefix +:+ "/envs/" +:+ make_env_name s) ∈ paths ->
     create_environment shell decode markup_error (environment_names paths) false s w'
     = (Ok Continue, w')) /\
  exists w2,
    create_environments shell json_envs decode markup_error ctx false w = (Ok tt, w2) /\
    forall paths2,
      json_envs (proc_stdout (fst (shell "conda env list --json" None (conda w2))))
        = Some paths2 ->
      (forall s, s ∈ roster ->
                 exists prefix, (prefix +:+ "/envs/" +:+ make_env_name s) ∈ paths2) ->
      exists w3,
        create_environments shell json_envs decode markup_error ctx false w2
          = (Ok tt, w3) /\
        console w3 = console w2 /\
        calls w3 = calls w2 ++ [("conda env list --json", None)] /\
        exists new,
          calls w3 = calls w ++ new /\
          forall s, s ∈ roster -> has_environment envs1 s = false ->
                    count_occ call_eq_dec new (create_call s) = 1%nat.
Proof.
  intros Henvs Hr Hnd Hslash Hok Hlines. split.
  { intros paths prefix s w' Hs Hin. apply create_environment_skip.
    unfold needs_create. fold (has_environment (environment_names paths) s).
    by rewrite (has_environment_listed paths prefix s Hs Hin). }
  destruct (get_all_environments_ok _ _ _ _ _ Henvs) as (Hfs1 & _ & _ & Hc1).
  destruct (create_loop_success shell decode markup_error envs1 false roster
              Hok Hlines w1) as (w2 & Hrun & Hfs2 & Hc2).
  exists w2. split.
  { by rewrite (create_environments_loop shell json_envs decode markup_error ctx
                  false w w1 envs1 roster Henvs Hr). }
  intros paths2 Hjson Hlisted.
  pose proof (get_all_environments_listing shell json_envs paths2 w2 Hjson) as Henvs2.
  eexists. split.
  { rewrite (create_environments_loop shell json_envs decode markup_error ctx
               false w2 _ _ roster Henvs2); [|congruence].
    apply create_loop_noop. intros s Hs.
    destruct (Hlisted s Hs) as (prefix & Hin).
    by apply (has_environment_listed paths2 prefix s (Hslash s Hs)). }
  split; [done|]. split; [done|].
  eexists. split.
  { simpl. rewrite Hc2, Hc1, <- !app_assoc. reflexivity. }
  intros s Hs Hlack.
  assert (needs_create envs1 false s = true) as Hneed.
  { unfold needs_create. fold (has_environment envs1 s). by rewrite Hlack. }
  rewrite !count_occ_app, (count_create_calls envs1 roster s Hnd Hs Hneed).
  assert (count_occ call_eq_dec [("conda env list --json", None)] (create_call s)
          = 0%nat) as ->; [|done].
  apply count_occ_not_In. intros [E|[]]. by apply (create_call_not_list s).
Qed.

Lemma create_idempotent_witness :
  let first := create_environments (Sample.shell []) Sample.json_envs
                 Sample3.decode Sample3.markup_error Sample.ctx0 false Sample.fresh in
  let second := create_environments (Sample.shell []) Sample.json_envs
                  Sample3.decode Sample3.markup_error Sample.ctx0 false (snd first) in
  fst second = Ok tt /\
  calls (snd second) =
    [("conda env list --json", None);
     create_call "alice"; create_call "bob"; create_call "carol";
     ("conda env list --json", None)] /\
  count_occ call_eq_dec (calls (snd second)) (create_call "bob") = 1%nat.
Proof.
  intros first second.
  destruct (create_idempotent (Sample.shell []) Sample.json_envs
              Sample3.decode Sample3.markup_error Sample.ctx0 Sample.fresh
              (snd (get_all_environments (Sample.shell []) Sample.json_envs
                      Sample.fresh))
              [] ["alice"; "bob"; "carol"])
    as (_ & w2 & Hfirst & Hsecond).
  - vm_compute. reflexivity.
  - vm_compute. reflexivity.
  - apply (bool_decide_unpack _). vm_compute. exact I.
  - intros s Hs. apply list_elem_of_In in Hs.
    destruct Hs as [<-|[<-|[<-|[]]]]; reflexivity.
  - intros s Hs dir x. apply list_elem_of_In in Hs.
    destruct Hs as [<-|[<-|[<-|[]]]]; reflexivity.
  - intros s Hs. apply list_elem_of_In in Hs.
    destruct Hs as [<-|[<-|[<-|[]]]]; reflexivity.
  - assert (w2 = snd first) as -> by (unfold first; by rewrite Hfirst).
    destruct (Hsecond ["/opt/conda"; "/opt/conda/envs/env_alice";
                       "/opt/conda/envs/env_bob"; "/opt/conda/envs/env_carol"])
      as (w3 & Hrun & _ & Hcalls & _).
    + vm_compute. reflexivity.
    + intros s Hs. exists "/opt/conda". apply list_elem_of_In in Hs.
      destruct Hs as [<-|[<-|[<-|[]]]];
        apply (bool_decide_unpack _); vm_compute; exact I.
    + unfold second. rewrite Hrun. split; [reflexivity|].
      cbn [snd]. rewrite Hcalls. split; vm_compute; reflexivity.
Defined.

(** The claim without its conditions fails twice over.  A manager that is
    configured to keep its environments in [/data/venvs] carries out the
    creations and lists the new environments, [env_alice] among them, yet
    their parent directory is not called [envs]: the second run creates all
    of them again.  And a manager that refuses the creation for Alice is
    asked for it again by the second run. *)
Lemma create_twice_creates_twice :
  let first := create_environments Sample3.elsewhere Sample.json_envs
                 Sample3.decode Sample3.markup_error Sample.ctx0 false Sample.fresh in
  let second := create_environments Sample3.elsewhere Sample.json_envs
                  Sample3.decode Sample3.markup_error Sample.ctx0 false (snd first) in
  let refused := create_environments (Sample.shell ["alice"]) Sample.json_envs
                   Sample3.decode Sample3.markup_error Sample.ctx0 false Sample.fresh in
  let again := create_environments (Sample.shell ["alice"]) Sample.json_envs
                 Sample3.decode Sample3.markup_error Sample.ctx0 false (snd refused) in
  fst first = Ok tt /\
  Sample.json_envs
    (proc_stdout (fst (Sample3.elsewhere "conda env list --json" None
                         (conda (snd first)))))
    = Some ["/opt/conda"; "/data/venvs/env_alice"; "/data/venvs/env_bob";
            "/data/venvs/env_carol"] /\
  fst second = Ok tt /\
  calls (snd second) =
    [("conda env list --json", None);
     create_call "alice"; create_call "bob"; create_call "carol";
     ("conda env list --json", None);
     create_call "alice"; create_call "bob"; create_call "carol"] /\
  count_occ call_eq_dec (calls (snd second)) (create_call "alice") = 2%nat /\
  fst again = Ok tt /\
  calls (snd again) =
    [("conda env list --json", None); create_call "alice";
     ("conda env list --json", None); create_call "alice"] /\
  count_occ call_eq_dec (calls (snd again)) (create_call "alice") = 2%nat.
Proof.
  repeat split; vm_compute; reflexivity.
Qed.

(** ** The file tree under writes *)

Section Tree.

Lemma get_put_eq (es : Entries) (n : string) (x : node) : get (put es n x) n = Some x.
Proof.
  induction es as [|[m c] es IH]; simpl.
  - by rewrite String.eqb_refl.
  - destruct (String.eqb m n) eqn:E; simpl; by rewrite E.
Qed.

Lemma get_put_ne (es : Entries) (n m : string) (x : node) :
  n <> m -> get (put es n x) m = get es m.
Proof.
  intros Hne. induction es as [|[k c] es IH]; simpl.
  - apply String.eqb_neq in Hne. by rewrite Hne.
  - destruct (String.eqb k n) eqn:E; simpl; [|by rewrite IH].
    apply String.eqb_eq in E as ->.
    apply String.eqb_neq in Hne. by rewrite Hne.
Qed.

Lemma names_put_old (es : Entries) (n : string) (c x : node) :
  get es n = Some c -> List.map fst (put es n x) = List.map fst es.
Proof.
  induction es as [|[k d] es IH]; simpl; [done|].
  destruct (String.eqb k n) eqn:E; simpl; [done|].
  intros H. by rewrite IH.
Qed.

Lemma names_put_new (es : Entries) (n : string) (x : node) :
  get es n = None -> List.map fst (put es n x) = List.map fst es ++ [n].
Proof.
  induction es as [|[k d] es IH]; simpl; [done|].
  destruct (String.eqb k n) eqn:E; simpl; [done|].
  intros H. by rewrite IH.
Qed.

Lemma lookup_write_eq (p : Path) :
  forall t x t', write_path t p x = Some t' -> lookup_path t' p = Some x.
Proof.
  induction p as [|n p IH]; intros t x t'; simpl.
  - by intros [= ->].
  - destruct t as [z|es]; [done|].
    destruct (get es n) as [c|] eqn:Hc.
    + destruct (write_path c p x) as [c'|] eqn:Hw; [|done].
      intros [= <-]. rewrite get_put_eq. by eapply IH.
    + destruct p; [|done]. intros [= <-]. by rewrite get_put_eq.
Qed.

(** A child can be stored in every directory. *)
Lemma write_child (p : Path) (n : string) (x : node) :
  forall t es,
    lookup_path t p = Some (Dir es) ->
    exists t', write_path t (p ++ [n]) x = Some t'.
Proof.
  induction p as [|a p IH]; intros t es; simpl.
  - intros [= ->]. destruct (get es n); by eexists.
  - destruct t as [z|es0]; [done|].
    destruct (get es0 a) as [c|]; [|done].
    intros H. destruct (IH c es H) as [c' ->]. by eexists.
Qed.

Lemma oserror_missing_child (p : Path) (n : string) :
  forall t es,
    lookup_path t p = Some (Dir es) ->
    lookup_path t (p ++ [n]) = None ->
    oserror t (p ++ [n]) = FileNotFoundError.
Proof.
  induction p as [|a p IH]; intros t es; simpl.
  - intros [= ->]. by destruct (get es n).
  - destruct t as [z|es0]; [done|].
    destruct (get es0 a) as [c|]; [|done]. apply IH.
Qed.

(** Storing a directory over a vacant place keeps every directory a
    directory. *)
Lemma is_dir_write (p : Path) (n : string) (e : Entries) :
  forall t t' q,
    write_path t (p ++ [n]) (Dir e) = Some t' ->
    vacant (lookup_path t (p ++ [n])) ->
    is_dir t q = true -> is_dir t' q = true.
Proof.
  unfold is_dir.
  induction p as [|a p IH]; intros t t' q; simpl.
  - destruct t as [z|es]; [done|].
    assert (Some (Dir (put es n (Dir e))) = Some t' ->
            vacant (match get es n with Some c => Some c | None => None end) ->
            match lookup_path (Dir es) q with Some (Dir _) => true | _ => false end = true ->
            match lookup_path t' q with Some (Dir _) => true | _ => false end = true)
      as Hmain.
    { intros [= <-] Hvac. destruct q as [|b q]; [done|]. simpl.
      destruct (String.eqb n b) eqn:E.
      - apply String.eqb_eq in E as <-. rewrite get_put_eq.
        destruct Hvac as [Hv|Hv]; destruct (get es n) as [c|]; try done.
        injection Hv as ->. by destruct q.
      - apply String.eqb_neq in E. by rewrite get_put_ne. }
    destruct (get es n) as [c|] eqn:Hc; apply Hmain.
  - destruct t as [z|es]; [done|].
    destruct (get es a) as [c|] eqn:Hc.
    2:{ by destruct (p ++ [n]) eqn:Hp; [destruct p|]. }
    destruct (write_path c (p ++ [n]) (Dir e)) as [c'|] eqn:Hw; [|done].
    intros [= <-] Hvac. destruct q as [|b q]; [done|]. simpl.
    destruct (String.eqb a b) eqn:E.
    + apply String.eqb_eq in E as <-. rewrite get_put_eq, Hc.
      by apply IH.
    + apply String.eqb_neq in E. by rewrite get_put_ne.
Qed.

(** Storing a directory over a vacant place, under a name that does not end
    in [.zip], leaves every non-empty listing of archives as it was. *)
Lemma glob_zip_write (p : Path) (n : string) (e : Entries) :
  ends_with ".zip" n = false ->
  forall t t' d,
    write_path t (p ++ [n]) (Dir e) = Some t' ->
    vacant (lookup_path t (p ++ [n])) ->
    glob_zip t d <> [] -> glob_zip t' d = glob_zip t d.
Proof.
  intros Hn. unfold glob_zip.
  induction p as [|a p IH]; intros t t' d; simpl.
  - destruct t as [z|es]; [done|].
    assert (Some (Dir (put es n (Dir e))) = Some t' ->
            vacant (match get es n with Some c => Some c | None => None end) ->
            match lookup_path (Dir es) d with
            | Some (Dir es0) => List.filter (ends_with ".zip") (List.map fst es0)
            | _ => []
            end <> [] ->
            match lookup_path t' d with
            | Some (Dir es0) => List.filter (ends_with ".zip") (List.map fst es0)
            | _ => []
            end =
            match lookup_path (Dir es) d with
            | Some (Dir es0) => List.filter (ends_with ".zip") (List.map fst es0)
            | _ => []
            end) as Hmain.
    { intros [= <-] Hvac. destruct d as [|b q]; simpl.
      - intros _. destruct (get es n) as [c|] eqn:Hc.
        + by rewrite (names_put_old es n c).
        + rewrite names_put_new, List.filter_app by done. simpl.
          by rewrite Hn, app_nil_r.
      - destruct (String.eqb n b) eqn:E.
        + apply String.eqb_eq in E as <-. rewrite get_put_eq.
          destruct Hvac as [Hv|Hv]; destruct (get es n) as [c|]; try done.
          injection Hv as ->. by destruct q.
        + apply String.eqb_neq in E. by rewrite get_put_ne. }
    destruct (get es n) as [c|] eqn:Hc; apply Hmain.
  - destruct t as [z|es]; [done|].
    destruct (get es a) as [c|] eqn:Hc.
    2:{ by destruct (p ++ [n]) eqn:Hp; [destruct p|]. }
    destruct (write_path c (p ++ [n]) (Dir e)) as [c'|] eqn:Hw; [|done].
    intros [= <-] Hvac. destruct d as [|b q]; simpl.
    + intros _. by rewrite (names_put_old es a c).
    + destruct (String.eqb a b) eqn:E.
      * apply String.eqb_eq in E as <-. rewrite get_put_eq, Hc.
        by apply IH.
      * apply String.eqb_neq in E. by rewrite get_put_ne.
Qed.

Lemma stores_is_dir (cd : Path) (t t' : node) (q : Path) :
  stores cd t t' -> is_dir t q = true -> is_dir t' q = true.
Proof.
  intros [->|(s & e & _ & Hvac & Hw)]; [done|]. by eapply is_dir_write.
Qed.

Lemma stores_glob_zip (cd : Path) (t t' : node) (d : Path) :
  stores cd t t' -> glob_zip t d <> [] -> glob_zip t' d = glob_zip t d.
Proof.
  intros [->|(s & e & Hs & Hvac & Hw)]; [done|]. by eapply glob_zip_write.
Qed.

Lemma span_lower_all_lower (s : string) : all_lower (fst (span_lower s)) = true.
Proof.
  induction s as [|c s IH]; simpl; [done|].
  destruct (is_lower c) eqn:Hc; [|done].
  destruct (span_lower s) as [run rest]. simpl in *. by rewrite Hc.
Qed.

Lemma re_match_student_all_lower (name s : string) :
  re_match_student name = Some s -> all_lower s = true.
Proof.
  unfold re_match_student. pose proof (span_lower_all_lower name) as H.
  destruct (span_lower name) as [[|c run] rest]; [done|].
  destruct rest as [|u rest]; [done|].
  destruct (Ascii.eqb u "_") eqn:E.
  - apply Ascii.eqb_eq in E as ->. by intros [= <-].
  - intros Hm. exfalso. revert Hm.
    destruct u as [[] [] [] [] [] [] [] []]; try done.
Qed.

Lemma all_lower_not_zip (s : string) :
  all_lower s = true -> ends_with ".zip" s = false.
Proof.
  induction s as [|c s IH]; [done|]. simpl all_lower.
  intros [Hc Hs]%andb_prop.
  change (String.eqb ".zip" (String c s) || ends_with ".zip" s = false).
  rewrite (IH Hs), orb_false_r. apply String.eqb_neq. intros [= <- _].
  discriminate Hc.
Qed.

End Tree.

(** ** Unpacking *)

Section Unpack.
Context {X : Type}.
Implicit Types w : @World X.

Lemma unpack_submission_skip (ctx : Ctx) (name s : string) w :
  re_match_student name = Some s ->
  is_dir (fs w) (code_dir ctx ++ [s]) = true ->
  unpack_submission ctx name w = (Ok tt, w).
Proof. intros Hm Hd. unfold unpack_submission. by rewrite Hm, Hd. Qed.

Lemma unpack_submission_unrecognized (ctx : Ctx) (name : string) w :
  re_match_student name = None ->
  unpack_submission ctx name w = (Raise AttributeError, w).
Proof. intros Hm. unfold unpack_submission. by rewrite Hm. Qed.

(** Whatever its outcome, the body of the loop changes the tree by at most
    two stores below the code directory; when it completes, the directory
    of the student exists. *)
Lemma unpack_submission_stores (ctx : Ctx) (name : string) w r w' :
  unpack_submission ctx name w = (r, w') ->
  exists t1,
    stores (code_dir ctx) (fs w) t1 /\ stores (code_dir ctx) t1 (fs w') /\
    (r = Ok tt ->
     exists s, re_match_student name = Some s /\
               is_dir (fs w') (code_dir ctx ++ [s]) = true).
Proof.
  unfold unpack_submission.
  destruct (re_match_student name) as [s|] eqn:Hm.
  2:{ intros [= <- <-]. exists (fs w). by repeat split; try left. }
  destruct (is_dir (fs w) (code_dir ctx ++ [s])) eqn:Hd.
  { intros [= <- <-]. exists (fs w). repeat split; try by left.
    intros _. by exists s. }
  pose proof (all_lower_not_zip s (re_match_student_all_lower _ _ Hm)) as Hzip.
  munfold. unfold mkdir at 1.
  destruct (lookup_path (fs w) (code_dir ctx ++ [s])) as [x|] eqn:Hl.
  { simpl. intros [= <- <-]. exists (fs w). by repeat split; try left. }
  destruct (write_path (fs w) (code_dir ctx ++ [s]) (Dir [])) as [t1|] eqn:Hw1.
  2:{ intros [= <- <-]. exists (fs w). by repeat split; try left. }
  assert (stores (code_dir ctx) (fs w) t1) as Hs1.
  { right. exists s, []. split; [done|]. split; [|done]. left. done. }
  pose proof (lookup_write_eq _ _ _ _ Hw1) as Hl1.
  unfold ZipFile. simpl fs.
  destruct (lookup_path t1 (submissions_dir ctx ++ [name])) as [[[payload|]|es]|];
    try (intros [= <- <-]; exists t1; split; [exact Hs1|]; split; [by left|done]).
  unfold extractall. simpl fs. rewrite Hl1.
  destruct (write_path t1 (code_dir ctx ++ [s]) _) as [t2|] eqn:Hw2.
  2:{ intros [= <- <-]. exists t1. split; [exact Hs1|]. split; [by left|done]. }
  unfold print. simpl. intros [= <- <-]. exists t1. simpl.
  split; [done|]. split.
  - right. eexists s, _. split; [done|]. split; [|exact Hw2]. right. done.
  - intros _. exists s. split; [done|].
    unfold is_dir. by rewrite (lookup_write_eq _ _ _ _ Hw2).
Qed.

Lemma unpack_submission_is_dir (ctx : Ctx) (name : string) w r w' (q : Path) :
  unpack_submission ctx name w = (r, w') ->
  is_dir (fs w) q = true -> is_dir (fs w') q = true.
Proof.
  intros (t1 & H1 & H2 & _)%unpack_submission_stores Hq.
  eapply stores_is_dir; [exact H2|]. by eapply stores_is_dir.
Qed.

Lemma unpack_submission_glob_zip (ctx : Ctx) (name : string) w r w' (d : Path) :
  unpack_submission ctx name w = (r, w') ->
  glob_zip (fs w) d <> [] -> glob_zip (fs w') d = glob_zip (fs w) d.
Proof.
  intros (t1 & H1 & H2 & _)%unpack_submission_stores Hd.
  pose proof (stores_glob_zip _ _ _ d H1 Hd) as E1.
  rewrite <- E1. apply (stores_glob_zip _ _ _ d H2). by rewrite E1.
Qed.

Lemma unpack_loop_cons (ctx : Ctx) (name : string) (l : list string) w :
  unpack_loop ctx (name :: l) w =
  match unpack_submission ctx name w with
  | (Ok _, w') => unpack_loop ctx l w'
  | (Raise e, w') => (Raise e, w')
  end.
Proof.
  rewrite for_cons. munfold.
  by destruct (unpack_submission ctx name w) as [[[]|e] w'].
Qed.

(** The loop ends at the first archive without a student token; what
    follows it is not looked at. *)
Lemma unpack_loop_unrecognized (ctx : Ctx) (name : string) (l : list string) w :
  re_match_student name = None ->
  unpack_loop ctx (name :: l) w = (Raise AttributeError, w).
Proof.
  intros Hm. by rewrite unpack_loop_cons, unpack_submission_unrecognized.
Qed.

(** Directories stay directories through the loop, whatever its outcome. *)
Lemma unpack_loop_is_dir (ctx : Ctx) (l : list string) (q : Path) :
  forall w r w',
    unpack_loop ctx l w = (r, w') ->
    is_dir (fs w) q = true -> is_dir (fs w') q = true.
Proof.
  induction l as [|name l IH]; intros w r w'.
  - by intros [= _ <-].
  - rewrite unpack_loop_cons.
    destruct (unpack_submission ctx name w) as [[[]|e] w1] eqn:Hstep.
    + intros Hrun Hq. eapply IH; [exact Hrun|].
      by eapply unpack_submission_is_dir.
    + intros [= _ <-] Hq. by eapply unpack_submission_is_dir.
Qed.

(** A completed loop over archives of the submissions directory leaves the
    listing of that directory as it was, and every archive of the loop has
    its student's directory. *)
Lemma unpack_loop_ok (ctx : Ctx) (l : list string) :
  forall w w',
    unpack_loop ctx l w = (Ok tt, w') ->
    (forall name, name ∈ l -> name ∈ glob_zip (fs w) (submissions_dir ctx)) ->
    glob_zip (fs w') (submissions_dir ctx) = glob_zip (fs w) (submissions_dir ctx) /\
    forall name, name ∈ l ->
      exists s, re_match_student name = Some s /\
                is_dir (fs w') (code_dir ctx ++ [s]) = true.
Proof.
  induction l as [|name l IH]; intros w w'.
  - intros [= <-] _. split; [done|]. intros name Hn. by apply elem_of_nil in Hn.
  - rewrite unpack_loop_cons.
    destruct (unpack_submission ctx name w) as [[[]|e] w1] eqn:Hstep; [|done].
    intros Hrun Hsub.
    assert (glob_zip (fs w) (submissions_dir ctx) <> []) as Hne.
    { intros E. specialize (Hsub name (list_elem_of_here _ _)).
      rewrite E in Hsub. by apply elem_of_nil in Hsub. }
    pose proof (unpack_submission_glob_zip _ _ _ _ _ _ Hstep Hne) as Hg1.
    destruct (IH w1 w' Hrun) as [Hg Hdirs].
    { intros n Hn. rewrite Hg1. by apply Hsub, list_elem_of_further. }
    split; [congruence|].
    intros n [->|Hn]%elem_of_cons; [|by apply Hdirs].
    destruct (unpack_submission_stores _ _ _ _ _ Hstep) as (_ & _ & _ & Hdone).
    destruct (Hdone eq_refl) as (s & Hm & Hd). exists s. split; [done|].
    by eapply unpack_loop_is_dir.
Qed.

(** When every archive has its student's directory the loop does nothing. *)
Lemma unpack_loop_all_skip (ctx : Ctx) (l : list string) w :
  (forall name, name ∈ l ->
     exists s, re_match_student name = Some s /\
               is_dir (fs w) (code_dir ctx ++ [s]) = true) ->
  unpack_loop ctx l w = (Ok tt, w).
Proof.
  induction l as [|name l IH]; intros Hall; [done|].
  rewrite unpack_loop_cons.
  destruct (Hall name (list_elem_of_here _ _)) as (s & Hm & Hd).
  rewrite (unpack_submission_skip ctx name s w Hm Hd).
  apply IH. intros n Hn. by apply Hall, list_elem_of_further.
Qed.

Lemma mkdir_exist_ok_dir (p : Path) w :
  is_dir (fs w) p = true -> mkdir true p w = (Ok tt, w).
Proof.
  unfold is_dir, mkdir. by destruct (lookup_path (fs w) p) as [[]|].
Qed.

Lemma mkdir_ok_is_dir (p : Path) w w' :
  mkdir true p w = (Ok tt, w') -> is_dir (fs w') p = true.
Proof.
  unfold is_dir, mkdir.
  destruct (lookup_path (fs w) p) as [[z|es]|] eqn:Hl; simpl; try done.
  - intros [= <-]. by rewrite Hl.
  - destruct (write_path (fs w) p (Dir [])) as [t'|] eqn:Hw; [|done].
    intros [= <-]. simpl. by rewrite (lookup_write_eq _ _ _ _ Hw).
Qed.

Lemma uncompress_submissions_unfold (ctx : Ctx) w :
  uncompress_submissions ctx w =
  match mkdir true (code_dir ctx) w with
  | (Ok _, w1) => unpack_loop ctx (glob_zip (fs w1) (submissions_dir ctx)) w1
  | (Raise e, w1) => (Raise e, w1)
  end.
Proof.
  unfold uncompress_submissions, glob_zip_m. munfold.
  by destruct (mkdir true (code_dir ctx) w) as [[[]|e] w1].
Qed.

(** A second run of [unpack] after a completed one changes nothing. *)
Lemma uncompress_submissions_twice (ctx : Ctx) w w' :
  uncompress_submissions ctx w = (Ok tt, w') ->
  uncompress_submissions ctx w' = (Ok tt, w').
Proof.
  rewrite uncompress_submissions_unfold.
  destruct (mkdir true (code_dir ctx) w) as [[[]|e] w1] eqn:Hmk; [|done].
  intros Hrun.
  pose proof (mkdir_ok_is_dir _ _ _ Hmk) as Hcd.
  pose proof (unpack_loop_is_dir _ _ _ _ _ _ Hrun Hcd) as Hcd'.
  destruct (unpack_loop_ok _ _ _ _ Hrun) as [Hg Hdirs]; [done|].
  rewrite uncompress_submissions_unfold, (mkdir_exist_ok_dir _ _ Hcd'), Hg.
  by apply unpack_loop_all_skip.
Qed.

End Unpack.

(** C4. Unpacking is idempotent.  An archive whose student directory exists
    is passed over: the body of the loop completes and leaves the world as it
    is.  After the body has completed for an archive, it passes over the same
    archive; and after [uncompress_submissions] has completed, a second run
    completes and changes neither the tree nor the console. *)
Theorem unpack_idempotent {X : Type} (ctx : Ctx) (w : @World X) :
  (forall name s,
     re_match_student name = Some s ->
     is_dir (fs w) (code_dir ctx ++ [s]) = true ->
     unpack_submission ctx name w = (Ok tt, w)) /\
  (forall name w1,
     unpack_submission ctx name w = (Ok tt, w1) ->
     unpack_submission ctx name w1 = (Ok tt, w1)) /\
  (forall w',
     uncompress_submissions ctx w = (Ok tt, w') ->
     uncompress_submissions ctx w' = (Ok tt, w')).
Proof.
  split; [|split].
  - intros name s. apply unpack_submission_skip.
  - intros name w1 Hstep.
    destruct (unpack_submission_stores _ _ _ _ _ Hstep) as (_ & _ & _ & Hdone).
    destruct (Hdone eq_refl) as (s & Hm & Hd).
    by apply (unpack_submission_skip ctx name s).
  - apply uncompress_submissions_twice.
Qed.

Lemma unpack_idempotent_witness :
  unpack_submission Sample.ctx0 "alice_sub1.zip" Sample.w1 = (Ok tt, Sample.w1) /\
  uncompress_submissions Sample.ctx0 Sample.w1 = (Ok tt, Sample.w1).
Proof.
  split.
  - apply (unpack_idempotent Sample.ctx0 Sample.w1 ) with (s := "alice");
      vm_compute; reflexivity.
  - apply (unpack_idempotent Sample.ctx0 Sample.w0). vm_compute. reflexivity.
Defined.

(** C5 fails on the code: an archive whose name does not start with a
    student token makes [re.match] return [None], and the attribute access on
    it raises [AttributeError], which nothing catches.  With [README.zip]
    listed before [bob_sub1.zip], [uncompress_submissions] ends in that
    exception: no diagnostic is printed and Bob's archive is not unpacked. *)
Theorem unpack_unrecognized_aborts :
  glob_zip (fs Sample.unrecognized) (submissions_dir Sample.ctx0)
    = ["README.zip"; "bob_sub1.zip"] /\
  re_match_student "README.zip" = None /\
  re_match_student "bob_sub1.zip" = Some "bob" /\
  fst (uncompress_submissions Sample.ctx0 Sample.unrecognized)
    = Raise AttributeError /\
  console (snd (uncompress_submissions Sample.ctx0 Sample.unrecognized)) = [] /\
  is_dir (fs (snd (uncompress_submissions Sample.ctx0 Sample.unrecognized)))
         ["code"; "bob"] = false.
Proof. vm_compute. repeat split. Qed.

(** C10 (amended). When nothing is at the path of the code directory and
    the directory above it exists, [get_students] raises
    [FileNotFoundError], while [uncompress_submissions] first creates the
    empty code directory and runs its loop from there; when the code
    directory exists it is left in place.  In both cases the code directory
    is a directory when the run ends, whatever its outcome.  When [mkdir]
    raises, as it does for a regular file at that path, the run ends in that
    exception with the world unchanged. *)
Theorem unpack_establishes_code_dir {X : Type} (ctx : Ctx) (w : @World X) :
  (forall parent n es,
     code_dir ctx = parent ++ [n] ->
     lookup_path (fs w) parent = Some (Dir es) ->
     lookup_path (fs w) (code_dir ctx) = None ->
     get_students ctx (fs w) = Raise FileNotFoundError /\
     exists w1,
       mkdir true (code_dir ctx) w = (Ok tt, w1) /\
       lookup_path (fs w1) (code_dir ctx) = Some (Dir []) /\
       uncompress_submissions ctx w =
         unpack_loop ctx (glob_zip (fs w1) (submissions_dir ctx)) w1 /\
       forall r w', uncompress_submissions ctx w = (r, w') ->
                    is_dir (fs w') (code_dir ctx) = true) /\
  (is_dir (fs w) (code_dir ctx) = true ->
   uncompress_submissions ctx w =
     unpack_loop ctx (glob_zip (fs w) (submissions_dir ctx)) w /\
   forall r w', uncompress_submissions ctx w = (r, w') ->
                is_dir (fs w') (code_dir ctx) = true) /\
  (forall e w', mkdir true (code_dir ctx) w = (Raise e, w') ->
                uncompress_submissions ctx w = (Raise e, w)) /\
  (forall z, lookup_path (fs w) (code_dir ctx) = Some (File z) ->
             uncompress_submissions ctx w = (Raise FileExistsError, w)).
Proof.
  split; [|split; [|split]].
  - intros parent n es Hcd Hparent Hnone. split.
    + unfold get_students, iterdir. rewrite Hnone. f_equal.
      rewrite Hcd in *. by eapply oserror_missing_child.
    + destruct (write_child parent n (Dir []) (fs w) es Hparent) as [t1 Hw].
      rewrite <- Hcd in Hw.
      assert (mkdir true (code_dir ctx) w = (Ok tt, set_fs t1 w)) as Hmk.
      { unfold mkdir. by rewrite Hnone, Hw. }
      exists (set_fs t1 w). split; [done|].
      split; [by apply (lookup_write_eq _ _ _ _ Hw)|].
      rewrite uncompress_submissions_unfold, Hmk. split; [done|].
      intros r w' Hrun. eapply unpack_loop_is_dir; [exact Hrun|].
      by eapply mkdir_ok_is_dir.
  - intros Hd. rewrite uncompress_submissions_unfold, (mkdir_exist_ok_dir _ _ Hd).
    split; [done|]. intros r w' Hrun. by eapply unpack_loop_is_dir.
  - intros e w' Hmk. rewrite uncompress_submissions_unfold, Hmk. f_equal.
    unfold mkdir in Hmk.
    destruct (lookup_path (fs w) (code_dir ctx)) as [x|].
    + destruct (true && node_is_dir x); by injection Hmk.
    + destruct (write_path (fs w) (code_dir ctx) (Dir [])); [done|by injection Hmk].
  - intros z Hfile. rewrite uncompress_submissions_unfold.
    unfold mkdir. by rewrite Hfile.
Qed.

Lemma unpack_establishes_code_dir_witness :
  get_students Sample.ctx0 (fs Sample.w0) = Raise FileNotFoundError /\
  is_dir (fs (snd (uncompress_submissions Sample.ctx0 Sample.w0))) ["code"] = true /\
  is_dir (fs (snd (uncompress_submissions Sample.ctx0 Sample.w1))) ["code"] = true /\
  uncompress_submissions Sample.ctx0 Sample.occupied
    = (Raise FileExistsError, Sample.occupied).
Proof.
  destruct (unpack_establishes_code_dir Sample.ctx0 Sample.w0) as (Hnew & _).
  destruct (unpack_establishes_code_dir Sample.ctx0 Sample.w1) as (_ & Hold & _).
  destruct (unpack_establishes_code_dir Sample.ctx0 Sample.occupied)
    as (_ & _ & Hraise & Hfile).
  destruct (Hnew [] "code" (match Sample.tree0 with Dir es => es | File _ => [] end))
    as (Hroster & w1 & _ & _ & _ & Hend); try reflexivity.
  destruct Hold as (_ & Hend'); [vm_compute; reflexivity|].
  split; [exact Hroster|].
  split; [by eapply Hend, surjective_pairing|].
  split; [by eapply Hend', surjective_pairing|].
  rewrite (Hraise FileExistsError Sample.occupied) by reflexivity.
  exact (Hfile None eq_refl).
Defined.

(** C10 as stated fails: with the code directory configured as [work/code]
    and no directory [work], the code directory does not exist and
    [uncompress_submissions] does not create it; [mkdir] raises
    [FileNotFoundError] and the tree stays as it was. *)
Lemma unpack_missing_parent :
  lookup_path (fs Sample.w0) (code_dir Sample.nested_ctx) = None /\
  uncompress_submissions Sample.nested_ctx Sample.w0
    = (Raise FileNotFoundError, Sample.w0) /\
  is_dir (fs (snd (uncompress_submissions Sample.nested_ctx Sample.w0)))
         (code_dir Sample.nested_ctx) = false.
Proof. vm_compute. repeat split. Qed.

(** * Further properties of the code *)

(** ** Names *)

Section Names.

Lemma make_env_name_inj (s1 s2 : string) :
  make_env_name s1 = make_env_name s2 -> s1 = s2.
Proof. unfold make_env_name. apply (inj (String.app "env_")). Qed.

Lemma span_lower_app (s : string) :
  fst (span_lower s) +:+ snd (span_lower s) = s.
Proof.
  induction s as [|c s IH]; simpl; [done|].
  destruct (is_lower c); [|done].
  destruct (span_lower s) as [run rest]. simpl in *.
  change (String c run +:+ rest) with (String c (run +:+ rest)). by rewrite IH.
Qed.

Lemma span_lower_token (s rest : string) :
  all_lower s = true ->
  span_lower (s +:+ String "_" rest) = (s, String "_" rest).
Proof.
  induction s as [|c s IH]; simpl; [done|].
  intros [Hc Hs]%andb_prop.
  change (String c s +:+ String "_" rest) with (String c (s +:+ String "_" rest)).
  simpl. by rewrite Hc, (IH Hs).
Qed.

End Names.

(** X1. Different students have different environment names, and the four
    command lines that the batches build for them are different strings.
    The lines are compared as they are handed to the shell; how the shell
    splits a line into words is not part of the statement. *)
Theorem environment_names_distinct (s1 s2 : string) :
  s1 <> s2 ->
  make_env_name s1 <> make_env_name s2 /\
  create_command (make_env_name s1) <> create_command (make_env_name s2) /\
  remove_command (make_env_name s1) <> remove_command (make_env_name s2) /\
  install_command (make_env_name s1) <> install_command (make_env_name s2) /\
  import_command (make_env_name s1) <> import_command (make_env_name s2).
Proof.
  intros Hne. repeat split; intros H; apply Hne, make_env_name_inj.
  - done.
  - unfold create_command in H.
    apply (inj (String.app "conda create -n ")) in H.
    by apply string_app_inv_tail in H.
  - unfold remove_command in H.
    by apply (inj (String.app "conda env remove -n ")) in H.
  - unfold install_command in H.
    apply (inj (String.app "conda run -n ")) in H.
    by apply string_app_inv_tail in H.
  - unfold import_command in H.
    apply (inj (String.app "conda run -n ")) in H.
    by apply string_app_inv_tail in H.
Qed.

Lemma environment_names_distinct_witness :
  make_env_name "alice" <> make_env_name "bob" /\
  remove_command (make_env_name "alice") <> remove_command (make_env_name "bob").
Proof.
  destruct (environment_names_distinct "alice" "bob") as (H1 & _ & H3 & _).
  - discriminate.
  - by split.
Defined.

(** X2. The student token of a submission name.  A name made of a
    non-empty run of lower-case letters, an underscore and anything after it
    yields that run; and whenever the pattern matches, the name has this
    form, the student being the whole run of lower-case letters at its
    start. *)
Theorem re_match_student_token (name : string) :
  (forall s rest,
     s <> "" -> all_lower s = true -> name = s +:+ "_" +:+ rest ->
     re_match_student name = Some s) /\
  (forall s,
     re_match_student name = Some s ->
     s <> "" /\ all_lower s = true /\ exists rest, name = s +:+ "_" +:+ rest).
Proof.
  split.
  - intros s rest Hs Hlow ->. unfold re_match_student.
    change ("_" +:+ rest) with (String "_" rest).
    rewrite (span_lower_token s rest Hlow). by destruct s.
  - intros s Hm. split; [|split].
    + unfold re_match_student in Hm.
      destruct (span_lower name) as [[|c run] rest]; [done|].
      destruct rest as [|u rest]; [done|].
      destruct u as [[] [] [] [] [] [] [] []]; try done.
      by injection Hm as <-.
    + by eapply re_match_student_all_lower.
    + pose proof (span_lower_app name) as Happ.
      unfold re_match_student in Hm.
      destruct (span_lower name) as [[|c run] rest]; [done|].
      destruct rest as [|u rest]; [done|].
      destruct (Ascii.eqb u "_") eqn:E.
      * apply Ascii.eqb_eq in E as ->. injection Hm as <-.
        exists rest. by rewrite <- Happ.
      * exfalso. revert Hm. destruct u as [[] [] [] [] [] [] [] []]; try done.
Qed.

Lemma re_match_student_token_witness :
  re_match_student "alice_sub1.zip" = Some "alice" /\
  exists rest, "bob_a1.zip" = "bob" +:+ "_" +:+ rest.
Proof.
  destruct (re_match_student_token "alice_sub1.zip") as [Hto _].
  destruct (re_match_student_token "bob_a1.zip") as [_ Hfrom].
  split.
  - by apply (Hto "alice" "sub1.zip").
  - by apply (Hfrom "bob").
Defined.

(** ** The configuration file *)

Section Config.

Lemma first_config_app (t : node) (l1 l2 : list Path) :
  first_config t (l1 ++ l2) =
  match first_config t l1 with
  | Some r => Some r
  | None => first_config t l2
  end.
Proof.
  induction l1 as [|d l1 IH]; simpl; [done|].
  by destruct (lookup_path t (d ++ [CONFIG_FILE])).
Qed.

(** The child of a node that path resolution enters. *)
Lemma lookup_path_cons (t : node) (n : string) (p : Path) :
  lookup_path t (n :: p) =
  match t with
  | Dir es => match get es n with Some c => lookup_path c p | None => None end
  | File _ => None
  end.
Proof. reflexivity. Qed.

Lemma first_config_below (es : Entries) (n : string) (c : node) (l : list Path) :
  get es n = Some c ->
  first_config (Dir es) (List.map (cons n) l) = option_map (cons n) (first_config c l).
Proof.
  intros Hc. induction l as [|d l IH]; simpl; [done|].
  rewrite Hc. by destruct (lookup_path c (d ++ [CONFIG_FILE])).
Qed.

Lemma first_config_nowhere (t : node) (n : string) (l : list Path) :
  lookup_path t [n] = None ->
  first_config t (List.map (cons n) l) = None.
Proof.
  intros Hn. induction l as [|d l IH]; simpl; [done|].
  rewrite IH. destruct t as [z|es]; [done|]. simpl in Hn.
  by destruct (get es n).
Qed.

Lemma find_config_file_cons (t : node) (n : string) (p : Path) :
  find_config_file t (n :: p) =
  match lookup_path t [n] with
  | Some c =>
      match find_config_file c p with
      | Some r => Some (n :: r)
      | None => first_config t [[]]
      end
  | None => first_config t [[]]
  end.
Proof.
  unfold find_config_file. simpl self_and_parents. rewrite first_config_app.
  destruct (lookup_path t [n]) as [c|] eqn:Hn.
  - destruct t as [z|es]; [done|]. simpl in Hn.
    destruct (get es n) as [c'|] eqn:Hc; [|done]. injection Hn as ->.
    rewrite (first_config_below es n c _ Hc).
    by destruct (first_config c (self_and_parents p)).
  - by rewrite first_config_nowhere.
Qed.

Lemma first_config_root (t : node) :
  first_config t [[]] =
  match lookup_path t [CONFIG_FILE] with
  | Some _ => Some [CONFIG_FILE]
  | None => None
  end.
Proof. reflexivity. Qed.

(** Without a result no directory on the way up holds the file. *)
Lemma find_config_file_None (cwd : Path) :
  forall t, find_config_file t cwd = None ->
            forall d, d `prefix_of` cwd -> lookup_path t (d ++ [CONFIG_FILE]) = None.
Proof.
  induction cwd as [|n p IH]; intros t Hf d Hd.
  - apply prefix_nil_inv in Hd as ->.
    change (first_config t [[]] = None) in Hf. rewrite first_config_root in Hf.
    change ([] ++ [CONFIG_FILE]) with [CONFIG_FILE].
    by destruct (lookup_path t [CONFIG_FILE]).
  - rewrite find_config_file_cons in Hf.
    assert (first_config t [[]] = None) as Hroot.
    { destruct (lookup_path t [n]) as [c|]; [destruct (find_config_file c p)|]; done. }
    destruct d as [|n' d].
    + rewrite first_config_root in Hroot.
      change ([] ++ [CONFIG_FILE]) with [CONFIG_FILE].
      by destruct (lookup_path t [CONFIG_FILE]).
    + apply prefix_cons_inv_1 in Hd as Hn. subst n'.
      apply prefix_cons_inv_2 in Hd.
      change ((n :: d) ++ [CONFIG_FILE]) with (n :: (d ++ [CONFIG_FILE])).
      rewrite lookup_path_cons.
      destruct t as [z|es]; [done|]. simpl in Hf.
      destruct (get es n) as [c|]; [|done].
      apply IH; [|done]. by destruct (find_config_file c p).
Qed.

Lemma find_config_file_Some (cwd : Path) :
  forall t config_path,
    find_config_file t cwd = Some config_path ->
    exists d,
      config_path = d ++ [CONFIG_FILE] /\ d `prefix_of` cwd /\
      is_Some (lookup_path t config_path) /\
      forall d', d' `prefix_of` cwd -> (length d < length d')%nat ->
                 lookup_path t (d' ++ [CONFIG_FILE]) = None.
Proof.
  induction cwd as [|n p IH]; intros t config_path Hf.
  - change (first_config t [[]] = Some config_path) in Hf.
    rewrite first_config_root in Hf.
    destruct (lookup_path t [CONFIG_FILE]) as [x|] eqn:Hl; [|done].
    injection Hf as <-. exists []. split; [done|]. split; [done|].
    split; [by rewrite Hl|].
    intros d' ->%prefix_nil_inv. simpl. lia.
  - rewrite find_config_file_cons in Hf.
    assert (first_config t [[]] = Some config_path ->
            (forall d', d' `prefix_of` p ->
                        lookup_path t (n :: d' ++ [CONFIG_FILE]) = None) ->
            exists d,
              config_path = d ++ [CONFIG_FILE] /\ d `prefix_of` n :: p /\
              is_Some (lookup_path t config_path) /\
              forall d', d' `prefix_of` n :: p -> (length d < length d')%nat ->
                         lookup_path t (d' ++ [CONFIG_FILE]) = None) as Hroot.
    { intros Hr Hbelow. rewrite first_config_root in Hr.
      destruct (lookup_path t [CONFIG_FILE]) as [x|] eqn:Hl; [|done].
      injection Hr as <-. exists []. split; [done|].
      split; [apply prefix_nil|].
      split; [by rewrite Hl|].
      intros [|n' d'] Hd' Hlen; [simpl in Hlen; lia|].
      apply prefix_cons_inv_1 in Hd' as Hn. subst n'.
      apply prefix_cons_inv_2 in Hd'. by apply Hbelow. }
    destruct (lookup_path t [n]) as [c|] eqn:Hn.
    + destruct t as [z|es]; [done|]. simpl in Hn.
      destruct (get es n) as [c'|] eqn:Hc; [|done]. injection Hn as ->.
      destruct (find_config_file c p) as [r|] eqn:Hfc.
      * injection Hf as <-.
        destruct (IH c r Hfc) as (d & -> & Hd & Hex & Hnear).
        exists (n :: d). split; [done|]. split; [by apply prefix_cons|].
        split; [by simpl; rewrite Hc|].
        intros [|n' d'] Hd' Hlen; [simpl in Hlen; lia|].
        apply prefix_cons_inv_1 in Hd' as Hn. subst n'.
        apply prefix_cons_inv_2 in Hd'. simpl. rewrite Hc.
        apply Hnear; [done|]. simpl in Hlen. lia.
      * apply Hroot; [done|]. intros d' Hd'. simpl. rewrite Hc.
        by eapply find_config_file_None.
    + apply Hroot; [done|]. intros d' Hd'.
      destruct t as [z|es]; [done|]. simpl in *.
      by destruct (get es n).
Qed.

Lemma self_and_parents_head (p : Path) :
  exists rest, self_and_parents p = p :: rest.
Proof.
  induction p as [|n p [rest IH]]; simpl; [by exists []|].
  rewrite IH. simpl. by eexists.
Qed.

Lemma find_config_file_here (t : node) (cwd : Path) :
  is_Some (lookup_path t (cwd ++ [CONFIG_FILE])) ->
  find_config_file t cwd = Some (cwd ++ [CONFIG_FILE]).
Proof.
  intros [x Hx]. unfold find_config_file.
  destruct (self_and_parents_head cwd) as [rest ->]. simpl. by rewrite Hx.
Qed.

End Config.

(** X3. [find_config_file] returns the configuration file of the nearest
    directory: the result is [grading.toml] in the working directory or in
    a directory above it, it exists, and no directory between that one and
    the working directory holds such a file; there is no result exactly when
    no directory on the way up holds one. *)
Theorem find_config_file_nearest (t : node) (cwd : Path) :
  (forall config_path,
     find_config_file t cwd = Some config_path ->
     exists d,
       config_path = d ++ [CONFIG_FILE] /\ d `prefix_of` cwd /\
       is_Some (lookup_path t config_path) /\
       forall d', d' `prefix_of` cwd -> (length d < length d')%nat ->
                  lookup_path t (d' ++ [CONFIG_FILE]) = None) /\
  (find_config_file t cwd = None <->
   forall d, d `prefix_of` cwd -> lookup_path t (d ++ [CONFIG_FILE]) = None).
Proof.
  split; [apply find_config_file_Some|]. split.
  - apply find_config_file_None.
  - intros Hnone. destruct (find_config_file t cwd) as [cp|] eqn:Hf; [|done].
    destruct (find_config_file_Some _ _ _ Hf) as (d & -> & Hd & [x Hx] & _).
    by rewrite (Hnone d Hd) in Hx.
Qed.

Lemma find_config_file_nearest_witness :
  exists d,
    ["home"; "grader"; "nsp2"; "grading.toml"] = d ++ [CONFIG_FILE] /\
    d `prefix_of` cwd Sample2.in_project.
Proof.
  destruct (find_config_file_nearest Sample2.root (cwd Sample2.in_project)) as [H _].
  destruct (H ["home"; "grader"; "nsp2"; "grading.toml"]) as (d & Hd & Hpre & _).
  - vm_compute. reflexivity.
  - by exists d.
Defined.

Section Init.
Context {X : Type}.
Implicit Types w : @World X.

Lemma init_found w config_path :
  find_config_file (fs w) (cwd w) = Some config_path ->
  init w = (Ok tt, mkWorld (fs w) (cwd w) (conda w)
                     (console w ++ ["Configuration file found. Doing nothing."])
                     (calls w)).
Proof.
  intros Hf. unfold init, find_config_file_m. munfold. by rewrite Hf.
Qed.

End Init.

(** X4. [init] never adds a second configuration: when the working
    directory or any directory above it holds a [grading.toml], [init] says
    so and leaves the file system as it is. *)
Theorem init_keeps_configuration {X : Type} (w : @World X) (d : Path) :
  d `prefix_of` cwd w ->
  is_Some (lookup_path (fs w) (d ++ [CONFIG_FILE])) ->
  init w = (Ok tt, mkWorld (fs w) (cwd w) (conda w)
                     (console w ++ ["Configuration file found. Doing nothing."])
                     (calls w)).
Proof.
  intros Hd [x Hx].
  destruct (find_config_file (fs w) (cwd w)) as [cp|] eqn:Hf.
  - by eapply init_found.
  - by rewrite (find_config_file_None _ _ Hf d Hd) in Hx.
Qed.

Lemma init_keeps_configuration_witness :
  fs (snd (init Sample2.in_project)) = Sample2.root /\
  fs (snd (init (mkWorld Sample2.root ["home"; "grader"; "scratch"] tt [] [])))
    = Sample2.root.
Proof.
  split.
  - rewrite (init_keeps_configuration Sample2.in_project ["home"; "grader"; "nsp2"]).
    + reflexivity.
    + by exists ["code"; "alice"].
    + by eexists.
  - rewrite (init_keeps_configuration
               (mkWorld Sample2.root ["home"; "grader"; "scratch"] tt [] [])
               ["home"]).
    + reflexivity.
    + by exists ["grader"; "scratch"].
    + by eexists.
Defined.

(** X5. In a directory without a configuration on the way up, [init]
    creates [grading.toml] in the working directory; from then on
    [find_config_file] finds that file, and a second [init] leaves the file
    system as the first one left it. *)
Theorem init_creates_configuration {X : Type} (w : @World X) (es : Entries) :
  lookup_path (fs w) (cwd w) = Some (Dir es) ->
  (forall d, d `prefix_of` cwd w -> lookup_path (fs w) (d ++ [CONFIG_FILE]) = None) ->
  exists w',
    init w = (Ok tt, w') /\
    cwd w' = cwd w /\
    console w' = console w ++ ["Creating default config file..."] /\
    lookup_path (fs w') (cwd w ++ [CONFIG_FILE]) = Some (File None) /\
    find_config_file (fs w') (cwd w') = Some (cwd w ++ [CONFIG_FILE]) /\
    fs (snd (init w')) = fs w' /\ fst (init w') = Ok tt.
Proof.
  intros Hcwd Hnone.
  assert (find_config_file (fs w) (cwd w) = None) as Hf.
  { by apply find_config_file_nearest. }
  pose proof (Hnone (cwd w) (reflexivity _)) as Hfree.
  destruct (write_child (cwd w) CONFIG_FILE (File None) (fs w) es Hcwd) as [t' Hw].
  pose proof (lookup_write_eq _ _ _ _ Hw) as Hnew.
  assert (init w = (Ok tt, mkWorld t' (cwd w) (conda w)
                             (console w ++ ["Creating default config file..."])
                             (calls w))) as Hinit.
  { unfold init, find_config_file_m. munfold. rewrite Hf.
    unfold print, write_text. simpl. by rewrite Hfree, Hw. }
  eexists. split; [exact Hinit|]. simpl.
  split; [done|]. split; [done|]. split; [done|].
  assert (find_config_file t' (cwd w) = Some (cwd w ++ [CONFIG_FILE])) as Hf'.
  { apply find_config_file_here. by rewrite Hnew. }
  split; [done|].
  by rewrite (init_found
                (mkWorld t' (cwd w) (conda w)
                   (console w ++ ["Creating default config file..."]) (calls w))
                _ Hf').
Qed.

Lemma init_creates_configuration_witness :
  find_config_file (fs (snd (init Sample2.bare))) ["tmp"; "work"]
    = Some ["tmp"; "work"; "grading.toml"].
Proof.
  destruct (init_creates_configuration Sample2.bare []) as (w' & Hinit & Hcwd & _ & _ & Hf & _).
  - reflexivity.
  - intros d [k Hk].
    destruct d as [|a [|b [|c d]]]; simpl in Hk; simplify_eq; reflexivity.
  - rewrite Hinit. rewrite Hcwd in Hf. exact Hf.
Defined.

(** X6. The group callback [cli].  For every subcommand but [init] it
    aborts, with the advice to run [init], when [find_config_file] finds
    nothing; [init] itself is always let through, without reading a
    configuration.  When another subcommand is let through, the grading home
    that it is given is the directory of the configuration file that was
    found, and the working directory is that directory or lies below it. *)
Theorem cli_gate {X Config : Type} (read_config : Path -> @M X Config)
    (invoked_subcommand : string) (w : @World X) :
  (invoked_subcommand <> "init" ->
   find_config_file (fs w) (cwd w) = None ->
   cli read_config invoked_subcommand w =
     (Ok Aborted,
      mkWorld (fs w) (cwd w) (conda w)
        ((console w ++ [""]) ++
         ["[bold red]Configuration file not found. First invoke the 'init' command."])
        (calls w))) /\
  cli read_config "init" w =
    (Ok (Invoked None),
     mkWorld (fs w) (cwd w) (conda w) (console w ++ [""]) (calls w)) /\
  (forall obj w',
     invoked_subcommand <> "init" ->
     cli read_config invoked_subcommand w = (Ok (Invoked obj), w') ->
     exists config home rel,
       obj = Some (config, home) /\
       find_config_file (fs w) (cwd w) = Some (home ++ [CONFIG_FILE]) /\
       cwd w = home ++ rel /\
       relative_to (cwd w) home = Some rel).
Proof.
  split; [|split].
  - intros Hsub%String.eqb_neq Hf. unfold cli, find_config_file_m. munfold.
    unfold print. simpl. by rewrite Hsub, Hf.
  - reflexivity.
  - intros obj w' Hsub%String.eqb_neq. unfold cli, find_config_file_m. munfold.
    unfold print. simpl. rewrite Hsub. simpl.
    destruct (find_config_file (fs w) (cwd w)) as [cp|] eqn:Hf; [|done].
    destruct (read_config cp _) as [[config|e] w2]; [|done].
    intros [= <- <-].
    destruct (find_config_file_Some _ _ _ Hf) as (d & -> & [rel Hrel] & _).
    exists config, d, rel. rewrite path_parent_snoc.
    split; [done|]. split; [done|]. split; [done|].
    rewrite Hrel. apply relative_to_app.
Qed.

Lemma cli_gate_witness :
  fst (cli Sample2.read_config "unpack" Sample2.bare) = Ok Aborted /\
  exists config rel,
    fst (cli Sample2.read_config "unpack" Sample2.in_project)
      = Ok (Invoked (Some (config, ["home"; "grader"; "nsp2"]))) /\
    cwd Sample2.in_project = ["home"; "grader"; "nsp2"] ++ rel.
Proof.
  destruct (cli_gate Sample2.read_config "unpack" Sample2.bare) as (Habort & _).
  destruct (cli_gate Sample2.read_config "unpack" Sample2.in_project) as (_ & _ & Hrun).
  split.
  - rewrite Habort; [reflexivity|discriminate|reflexivity].
  - destruct (Hrun (Some ((["code"], ["submissions"]), ["home"; "grader"; "nsp2"]))
                (snd (cli Sample2.read_config "unpack" Sample2.in_project)))
      as (config & home & rel & Hobj & _ & Hcwd & _).
    + discriminate.
    + reflexivity.
    + injection Hobj as <- <-. by exists (["code"], ["submissions"]), rel.
Defined.

(** ** The environments that the manager lists *)

(** X7. [get_all_environments] runs the listing without checking its
    return code and keeps, of the listed paths, the final segments of those
    whose parent directory is called [envs].  So an environment at
    [<prefix>/envs/<name>] is reported under [<name>], whatever the prefix,
    and a path whose parent has another name, such as the base installation,
    adds nothing. *)
Theorem get_all_environments_envs_directory {X : Type}
    (shell : string -> option Path -> X -> CompletedProcess * X)
    (json_envs : string -> option (list string))
    (w : @World X) (paths : list string) :
  json_envs (proc_stdout (fst (shell "conda env list --json" None (conda w))))
    = Some paths ->
  get_all_environments shell json_envs w =
    (Ok (environment_names paths),
     mkWorld (fs w) (cwd w)
       (snd (shell "conda env list --json" None (conda w)))
       (console w) (calls w ++ [("conda env list --json", None)])) /\
  (forall n,
     n ∈ environment_names paths <->
     exists p, p ∈ paths /\
               path_name (path_of_string p) = n /\
               path_name (path_parent (path_of_string p)) = "envs") /\
  (forall prefix n,
     no_slash n = true -> n <> "" -> n <> "." ->
     (prefix +:+ "/envs/" +:+ n) ∈ paths -> n ∈ environment_names paths).
Proof.
  intros Hjson.
  assert (forall n,
            n ∈ environment_names paths <->
            exists p, p ∈ paths /\
                      path_name (path_of_string p) = n /\
                      path_name (path_parent (path_of_string p)) = "envs") as Hiff.
  { intros n. unfold environment_names.
    rewrite list_elem_of_In, in_map_iff. split.
    - intros (q & Hq & Hin). apply filter_In in Hin as [Hin Henvs].
      apply in_map_iff in Hin as (p & <- & Hp).
      exists p. rewrite list_elem_of_In. by apply String.eqb_eq in Henvs.
    - intros (p & Hp & Hn & Henvs). exists (path_of_string p). split; [done|].
      apply filter_In. split.
      + apply in_map. by apply list_elem_of_In.
      + by apply String.eqb_eq. }
  split; [|split; [done|]].
  - unfold get_all_environments, subprocess_run. munfold. simpl.
    destruct (shell "conda env list --json" None (conda w)) as [p x'].
    simpl in *. by rewrite Hjson.
  - intros prefix n Hn He Hd Hin. apply Hiff.
    exists (prefix +:+ "/envs/" +:+ n). split; [done|].
    rewrite path_of_string_envs by done.
    change (path_of_string prefix ++ ["envs"; n])
      with (path_of_string prefix ++ ["envs"] ++ [n]).
    rewrite app_assoc. unfold path_parent.
    by rewrite removelast_last, !path_name_snoc.
Qed.

Lemma get_all_environments_envs_directory_witness :
  fst (get_all_environments (Sample.shell ["alice"]) Sample.json_envs Sample.populated)
    = Ok ["env_alice"; "notebook"; "env_bob"; "env_carol"] /\
  "env_bob" ∈ environment_names
                ["/opt/conda"; "/opt/conda/envs/env_alice"; "/opt/conda/envs/notebook";
                 "/opt/conda/envs/env_bob"; "/opt/conda/envs/env_carol"].
Proof.
  destruct (get_all_environments_envs_directory (Sample.shell ["alice"])
              Sample.json_envs Sample.populated
              ["/opt/conda"; "/opt/conda/envs/env_alice"; "/opt/conda/envs/notebook";
               "/opt/conda/envs/env_bob"; "/opt/conda/envs/env_carol"])
    as (Hrun & _ & Hin).
  - vm_compute. reflexivity.
  - split.
    + rewrite Hrun. vm_compute. reflexivity.
    + apply (Hin "/opt/conda" "env_bob"); try done.
      apply (bool_decide_unpack _). vm_compute. exact I.
Defined.

(** ** The roster, continued *)

Section RosterNoDup.

Lemma subdir_names_NoDup (es : Entries) :
  NoDup (List.map fst es) -> NoDup (subdir_names es).
Proof.
  unfold subdir_names. induction es as [|[n c] es IH]; simpl; [done|].
  intros [Hn Hnd]%NoDup_cons. destruct (node_is_dir c); simpl; [|by apply IH].
  apply NoDup_cons. split; [|by apply IH].
  intros Hin. apply Hn.
  apply list_elem_of_In, in_map_iff in Hin as ([m d] & Hm & Hin).
  apply filter_In in Hin as [Hin _]. simpl in Hm. subst m.
  apply list_elem_of_In, in_map_iff. by exists (n, d).
Qed.

End RosterNoDup.

(** X8. In a code directory whose entries have different names, as the
    entries of a directory have, no student is in the roster twice: the
    roster is sorted and free of duplicates, so each student has one index
    and the roster is in strictly ascending order. *)
Theorem get_students_no_duplicates (ctx : Ctx) (t : node) (es : Entries) :
  lookup_path t (code_dir ctx) = Some (Dir es) ->
  NoDup (List.map fst es) ->
  exists roster,
    get_students ctx t = Ok roster /\
    NoDup roster /\
    StronglySorted String.le roster /\
    forall i j a b,
      (i < j)%nat -> nth_error roster i = Some a -> nth_error roster j = Some b ->
      String.le a b /\ a <> b.
Proof.
  intros Hcd Hnd. exists (merge_sort String.le (subdir_names es)).
  split; [by apply get_students_dir|].
  assert (NoDup (merge_sort String.le (subdir_names es))) as Hnd'.
  { rewrite merge_sort_Permutation. by apply subdir_names_NoDup. }
  assert (StronglySorted String.le (merge_sort String.le (subdir_names es))) as Hs.
  { apply (StronglySorted_merge_sort String.le). }
  split; [done|]. split; [done|].
  revert Hnd' Hs. generalize (merge_sort String.le (subdir_names es)).
  intros l Hnd' Hs. induction Hs as [|x l Hs IH Hall]; intros i j a b Hij Hi Hj.
  - by destruct i.
  - apply NoDup_cons in Hnd' as [Hx Hnd'].
    destruct j as [|j]; [lia|]. simpl in Hj.
    destruct i as [|i]; simpl in Hi.
    + injection Hi as ->.
      assert (b ∈ l) as Hb by (apply list_elem_of_In; eapply nth_error_In, Hj).
      split; [|by intros ->].
      rewrite List.Forall_forall in Hall. apply Hall. by apply list_elem_of_In.
    + apply (IH Hnd' i j); [lia|done|done].
Qed.

Lemma get_students_no_duplicates_witness :
  exists roster,
    get_students Sample.ctx0 Sample2.deep = Ok roster /\ NoDup roster.
Proof.
  destruct (get_students_no_duplicates Sample.ctx0 Sample2.deep
              [("alice", Dir [("docs", Dir []);
                              ("src", Dir [("pkg", Dir [Sample.manifest])])]);
               ("bob", Dir [("old", Dir [Sample.manifest]); Sample.manifest]);
               ("notes.txt", File None)])
    as (roster & Hr & Hnd & _).
  - reflexivity.
  - apply (bool_decide_unpack _). vm_compute. exact I.
  - by exists roster.
Defined.

(** ** Finding the manifest *)

Section Manifest.

Lemma lookup_path_app (p q : Path) :
  forall t,
    lookup_path t (p ++ q) =
    match lookup_path t p with Some c => lookup_path c q | None => None end.
Proof.
  induction p as [|n p IH]; intros t; simpl; [done|].
  destruct t as [z|es]; [done|]. by destruct (get es n).
Qed.

Lemma get_In (es : Entries) (n : string) (c : node) :
  get es n = Some c -> In (n, c) es.
Proof.
  induction es as [|[m d] es IH]; simpl; [done|].
  destruct (String.eqb m n) eqn:E.
  - apply String.eqb_eq in E as ->. intros [= ->]. by left.
  - intros H. right. by apply IH.
Qed.

(** The recursive glob reaches every directory below its start. *)
Lemma rglob_complete (name : string) (r : Path) :
  forall t here es,
    lookup_path t r = Some (Dir es) ->
    has_entry es name = true ->
    In (here ++ r ++ [name]) (rglob name t here).
Proof.
  induction r as [|n r IH]; intros t here es; simpl.
  - intros [= ->] Hhas. simpl. rewrite Hhas. by left.
  - destruct t as [z|es0]; [done|].
    destruct (get es0 n) as [c|] eqn:Hc; [|done].
    intros Hl Hhas. simpl. apply in_or_app. right.
    apply get_In in Hc. pose proof (IH c (here ++ [n]) es Hl Hhas) as Hin.
    rewrite <- app_assoc in Hin. simpl in Hin.
    clear Hl. induction es0 as [|[m d] es0 IHes]; [done|].
    apply in_or_app. destruct Hc as [[= -> ->]|Hc]; [by left|right; by apply IHes].
Qed.

End Manifest.

(** X9. [find_pyproject_toml] finds a manifest whenever there is one: if
    some directory at or below the student's directory has an entry
    [pyproject.toml], the result is a path below the student's directory
    that ends in [pyproject.toml]; and a manifest directly in the student's
    directory is the one that is returned, whatever lies deeper. *)
Theorem find_pyproject_toml_complete (ctx : Ctx) (t : node) (student : string) :
  (forall r es,
     lookup_path t (code_dir ctx ++ student :: r) = Some (Dir es) ->
     has_entry es "pyproject.toml" = true ->
     exists r',
       find_pyproject_toml ctx t student
         = Some (code_dir ctx ++ student :: r' ++ ["pyproject.toml"])) /\
  (forall es,
     lookup_path t (code_dir ctx ++ [student]) = Some (Dir es) ->
     has_entry es "pyproject.toml" = true ->
     find_pyproject_toml ctx t student
       = Some (code_dir ctx ++ [student; "pyproject.toml"])).
Proof.
  split.
  - intros r es Hl Hhas.
    change (student :: r) with ([student] ++ r) in Hl.
    rewrite app_assoc, lookup_path_app in Hl.
    destruct (lookup_path t (code_dir ctx ++ [student])) as [c|] eqn:Hc; [|done].
    pose proof (rglob_complete "pyproject.toml" r c (code_dir ctx ++ [student])
                  es Hl Hhas) as Hin.
    destruct (find_pyproject_toml ctx t student) as [m|] eqn:Hf.
    + destruct (find_pyproject_toml_shape _ _ _ _ Hf) as [r' ->]. by exists r'.
    + unfold find_pyproject_toml in Hf. rewrite Hc in Hf.
      by destruct (rglob "pyproject.toml" c (code_dir ctx ++ [student])).
  - intros es Hl Hhas. unfold find_pyproject_toml. rewrite Hl. simpl.
    rewrite Hhas. simpl. by rewrite <- app_assoc.
Qed.

Lemma find_pyproject_toml_complete_witness :
  (exists r', find_pyproject_toml Sample.ctx0 Sample2.deep "alice"
              = Some (["code"] ++ "alice" :: r' ++ ["pyproject.toml"])) /\
  find_pyproject_toml Sample.ctx0 Sample2.deep "bob"
    = Some ["code"; "bob"; "pyproject.toml"].
Proof.
  destruct (find_pyproject_toml_complete Sample.ctx0 Sample2.deep "alice") as [Hdeep _].
  destruct (find_pyproject_toml_complete Sample.ctx0 Sample2.deep "bob") as [_ Htop].
  split.
  - apply (Hdeep ["src"; "pkg"] [Sample.manifest]); reflexivity.
  - apply (Htop [("old", Dir [Sample.manifest]); Sample.manifest]); reflexivity.
Defined.

(** ** Unpacking, continued *)

Section TreeWrites.

Lemma write_existing (p : Path) (x : node) :
  forall t y, lookup_path t p = Some y -> exists t', write_path t p x = Some t'.
Proof.
  induction p as [|n p IH]; intros t y; simpl; [by eexists|].
  destruct t as [z|es]; [done|].
  destruct (get es n) as [c|]; [|done].
  intros H. destruct (IH c y H) as [c' ->]. by eexists.
Qed.

(** The directory in which a child is stored has the child put among its
    entries. *)
Lemma lookup_write_parent (p : Path) (n : string) (x : node) :
  forall t t' es,
    lookup_path t p = Some (Dir es) ->
    write_path t (p ++ [n]) x = Some t' ->
    lookup_path t' p = Some (Dir (put es n x)).
Proof.
  induction p as [|a p IH]; intros t t' es; simpl.
  - intros [= ->]. by destruct (get es n); intros [= <-].
  - destruct t as [z|es0]; [done|].
    destruct (get es0 a) as [c|] eqn:Hc; [|done].
    intros Hl. destruct (write_path c (p ++ [n]) x) as [c'|] eqn:Hw.
    + intros [= <-]. simpl. rewrite get_put_eq. by eapply IH.
    + by destruct (p ++ [n]) eqn:Hp; [destruct p|].
Qed.

(** Storing a child leaves what lies below its siblings alone. *)
Lemma lookup_write_sibling (p : Path) (n n' : string) (r : Path) (x : node) :
  n <> n' ->
  forall t t',
    write_path t (p ++ [n]) x = Some t' ->
    lookup_path t' (p ++ n' :: r) = lookup_path t (p ++ n' :: r).
Proof.
  intros Hne. induction p as [|a p IH]; intros t t'; simpl.
  - destruct t as [z|es]; [done|].
    destruct (get es n) as [c|]; intros [= <-]; simpl; by rewrite get_put_ne.
  - destruct t as [z|es]; [done|].
    destruct (get es a) as [c|] eqn:Hc.
    + destruct (write_path c (p ++ [n]) x) as [c'|] eqn:Hw; [|done].
      intros [= <-]. simpl. rewrite get_put_eq. by apply IH.
    + by destruct (p ++ [n]) eqn:Hp; [destruct p|].
Qed.

(** Storing a node over a vacant place leaves every regular file as it
    is. *)
Lemma lookup_write_file (p : Path) (n : string) (x : node) :
  forall t t' q z,
    write_path t (p ++ [n]) x = Some t' ->
    vacant (lookup_path t (p ++ [n])) ->
    lookup_path t q = Some (File z) -> lookup_path t' q = Some (File z).
Proof.
  induction p as [|a p IH]; intros t t' q z; simpl.
  - destruct t as [u|es]; [done|].
    assert (Some (Dir (put es n x)) = Some t' ->
            vacant (match get es n with Some c => Some c | None => None end) ->
            lookup_path (Dir es) q = Some (File z) ->
            lookup_path t' q = Some (File z)) as Hmain.
    { intros [= <-] Hvac. destruct q as [|b q]; [done|]. simpl.
      destruct (String.eqb n b) eqn:E.
      - apply String.eqb_eq in E as <-. rewrite get_put_eq.
        destruct Hvac as [Hv|Hv]; destruct (get es n) as [c|]; try done.
        injection Hv as ->. by destruct q.
      - apply String.eqb_neq in E. by rewrite get_put_ne. }
    destruct (get es n) as [c|] eqn:Hc; apply Hmain.
  - destruct t as [u|es]; [done|].
    destruct (get es a) as [c|] eqn:Hc.
    2:{ by destruct (p ++ [n]) eqn:Hp; [destruct p|]. }
    destruct (write_path c (p ++ [n]) x) as [c'|] eqn:Hw; [|done].
    intros [= <-] Hvac. destruct q as [|b q]; [done|]. simpl.
    destruct (String.eqb a b) eqn:E.
    + apply String.eqb_eq in E as <-. rewrite get_put_eq, Hc.
      by apply IH.
    + apply String.eqb_neq in E. by rewrite get_put_ne.
Qed.

Lemma get_None_names (es : Entries) (n : string) :
  n ∉ List.map fst es -> get es n = None.
Proof.
  induction es as [|[m c] es IH]; simpl; [done|].
  intros [Hm Hn]%not_elem_of_cons.
  apply not_eq_sym, String.eqb_neq in Hm. rewrite Hm. by apply IH.
Qed.

Lemma put_new (es : Entries) (n : string) (x : node) :
  get es n = None -> put es n x = es ++ [(n, x)].
Proof.
  induction es as [|[m c] es IH]; simpl; [done|].
  destruct (String.eqb m n); [done|]. intros H. by rewrite IH.
Qed.

Lemma extracted_app (payload acc : Entries) :
  NoDup (List.map fst acc ++ List.map fst payload) ->
  fold_left (fun a e => put a (fst e) (snd e)) payload acc = acc ++ payload.
Proof.
  revert acc. induction payload as [|[n x] payload IH]; intros acc Hnd; simpl.
  - by rewrite app_nil_r.
  - rewrite put_new.
    + rewrite IH, <- app_assoc; [done|].
      rewrite List.map_app. simpl. by rewrite <- app_assoc.
    + apply get_None_names. simpl in Hnd.
      apply NoDup_app in Hnd as (_ & Hdis & _). intros Hin.
      apply (Hdis n Hin). apply list_elem_of_here.
Qed.

(** An archive whose members have different names unpacks to its tree. *)
Lemma extracted_NoDup (payload : Entries) :
  NoDup (List.map fst payload) -> extracted payload = payload.
Proof. intros Hnd. unfold extracted. by rewrite extracted_app. Qed.

(** What a store adds to the subdirectories of the code directory. *)
Lemma subdir_names_put (es : Entries) (n : string) (e : Entries) :
  vacant (get es n) ->
  forall m, m ∈ subdir_names es -> m ∈ subdir_names (put es n (Dir e)).
Proof.
  intros Hvac m. unfold subdir_names.
  induction es as [|[k c] es IH]; simpl; [by intros ?%elem_of_nil|].
  simpl in Hvac. destruct (String.eqb k n) eqn:E.
  - destruct Hvac as [Hv|Hv]; [done|]. injection Hv as ->. by simpl.
  - simpl. destruct (node_is_dir c); simpl; [|by apply IH].
    intros [->|Hm]%elem_of_cons; [apply list_elem_of_here|].
    by apply list_elem_of_further, IH.
Qed.

Lemma lookup_child_get (t : node) (p : Path) (n : string) (es : Entries) :
  lookup_path t p = Some (Dir es) -> lookup_path t (p ++ [n]) = get es n.
Proof.
  intros H. rewrite lookup_path_app, H. simpl. by destruct (get es n).
Qed.

Lemma stores_subdir_names (cd : Path) (t t' : node) (es : Entries) :
  stores cd t t' ->
  lookup_path t cd = Some (Dir es) ->
  exists es',
    lookup_path t' cd = Some (Dir es') /\
    forall m, m ∈ subdir_names es -> m ∈ subdir_names es'.
Proof.
  intros [->|(s & e & _ & Hvac & Hw)] Hcd; [by exists es|].
  exists (put es s (Dir e)). split; [by eapply lookup_write_parent|].
  apply subdir_names_put. by rewrite <- (lookup_child_get t cd s es).
Qed.

End TreeWrites.

Section UnpackRoster.
Context {X : Type}.
Implicit Types w : @World X.

Lemma unpack_submission_subdir_names (ctx : Ctx) (name : string) w r w' es :
  unpack_submission ctx name w = (r, w') ->
  lookup_path (fs w) (code_dir ctx) = Some (Dir es) ->
  exists es',
    lookup_path (fs w') (code_dir ctx) = Some (Dir es') /\
    forall m, m ∈ subdir_names es -> m ∈ subdir_names es'.
Proof.
  intros (t1 & H1 & H2 & _)%unpack_submission_stores Hcd.
  destruct (stores_subdir_names _ _ _ _ H1 Hcd) as (es1 & Hcd1 & Hsub1).
  destruct (stores_subdir_names _ _ _ _ H2 Hcd1) as (es2 & Hcd2 & Hsub2).
  exists es2. split; [done|]. auto.
Qed.

Lemma unpack_loop_subdir_names (ctx : Ctx) (l : list string) :
  forall w r w' es,
    unpack_loop ctx l w = (r, w') ->
    lookup_path (fs w) (code_dir ctx) = Some (Dir es) ->
    exists es',
      lookup_path (fs w') (code_dir ctx) = Some (Dir es') /\
      forall m, m ∈ subdir_names es -> m ∈ subdir_names es'.
Proof.
  induction l as [|name l IH]; intros w r w' es.
  - intros [= _ <-] Hcd. by exists es.
  - rewrite unpack_loop_cons.
    destruct (unpack_submission ctx name w) as [[[]|e] w1] eqn:Hstep.
    + intros Hrun Hcd.
      destruct (unpack_submission_subdir_names _ _ _ _ _ _ Hstep Hcd)
        as (es1 & Hcd1 & Hsub1).
      destruct (IH _ _ _ _ Hrun Hcd1) as (es2 & Hcd2 & Hsub2).
      exists es2. split; [done|]. auto.
    + intros [= _ <-] Hcd. by eapply unpack_submission_subdir_names.
Qed.

Lemma get_students_elem (ctx : Ctx) (t : node) (es : Entries) (roster : list string) :
  lookup_path t (code_dir ctx) = Some (Dir es) ->
  get_students ctx t = Ok roster ->
  forall m, m ∈ roster <-> m ∈ subdir_names es.
Proof.
  intros Hcd. rewrite (get_students_dir _ _ _ Hcd). intros [= <-] m.
  by rewrite merge_sort_Permutation.
Qed.

Lemma get_students_Ok_dir (ctx : Ctx) (t : node) (roster : list string) :
  get_students ctx t = Ok roster ->
  exists es, lookup_path t (code_dir ctx) = Some (Dir es).
Proof.
  unfold get_students, iterdir.
  destruct (lookup_path t (code_dir ctx)) as [[z|es]|]; try done. by exists es.
Qed.

(** A student whose directory exists is in the roster. *)
Lemma is_dir_in_roster (ctx : Ctx) (t : node) (s : string) :
  is_dir t (code_dir ctx ++ [s]) = true ->
  exists roster, get_students ctx t = Ok roster /\ s ∈ roster.
Proof.
  unfold is_dir. rewrite lookup_path_app.
  destruct (lookup_path t (code_dir ctx)) as [[z|es]|] eqn:Hcd; try done.
  simpl. destruct (get es s) as [[z|e]|] eqn:Hs; try done. intros _.
  exists (merge_sort String.le (subdir_names es)).
  split; [by apply get_students_dir|].
  rewrite merge_sort_Permutation. unfold subdir_names.
  apply list_elem_of_In, in_map_iff. exists (s, Dir e). split; [done|].
  apply filter_In. split; [by apply get_In|done].
Qed.

End UnpackRoster.

(** X10. [unpack] never takes a student out of the roster: whatever the
    outcome of [uncompress_submissions], completed or ended by an exception,
    the roster can still be read afterwards and holds every student that it
    held before. *)
Theorem unpack_keeps_roster {X : Type} (ctx : Ctx) (w w' : @World X)
    (r : result unit) (roster : list string) :
  get_students ctx (fs w) = Ok roster ->
  uncompress_submissions ctx w = (r, w') ->
  exists roster',
    get_students ctx (fs w') = Ok roster' /\
    forall s, s ∈ roster -> s ∈ roster'.
Proof.
  intros Hr Hrun. destruct (get_students_Ok_dir _ _ _ Hr) as [es Hcd].
  rewrite uncompress_submissions_unfold in Hrun.
  assert (is_dir (fs w) (code_dir ctx) = true) as Hd by (unfold is_dir; by rewrite Hcd).
  rewrite (mkdir_exist_ok_dir _ _ Hd) in Hrun.
  destruct (unpack_loop_subdir_names _ _ _ _ _ _ Hrun Hcd) as (es' & Hcd' & Hsub).
  exists (merge_sort String.le (subdir_names es')).
  split; [by apply get_students_dir|].
  intros s Hs. rewrite merge_sort_Permutation. apply Hsub.
  by apply (get_students_elem ctx (fs w) es roster).
Qed.

Lemma unpack_keeps_roster_witness :
  exists roster',
    get_students Sample.ctx0
      (fs (snd (uncompress_submissions Sample.ctx0 Sample.w1))) = Ok roster' /\
    forall s, s ∈ ["alice"; "bob"] -> s ∈ roster'.
Proof.
  apply (unpack_keeps_roster Sample.ctx0 Sample.w1
           (snd (uncompress_submissions Sample.ctx0 Sample.w1))
           (fst (uncompress_submissions Sample.ctx0 Sample.w1)) ["alice"; "bob"]).
  - vm_compute. reflexivity.
  - apply surjective_pairing.
Defined.

(** X11. After a completed [unpack] every archive of the submissions
    directory has its student in the roster. *)
Theorem unpack_fills_roster {X : Type} (ctx : Ctx) (w w' : @World X) :
  uncompress_submissions ctx w = (Ok tt, w') ->
  exists roster,
    get_students ctx (fs w') = Ok roster /\
    forall name, name ∈ glob_zip (fs w') (submissions_dir ctx) ->
      exists s, re_match_student name = Some s /\ s ∈ roster.
Proof.
  rewrite uncompress_submissions_unfold.
  destruct (mkdir true (code_dir ctx) w) as [[[]|e] w1] eqn:Hmk; [|done].
  intros Hrun.
  pose proof (mkdir_ok_is_dir _ _ _ Hmk) as Hcd.
  pose proof (unpack_loop_is_dir _ _ _ _ _ _ Hrun Hcd) as Hcd'.
  destruct (unpack_loop_ok _ _ _ _ Hrun) as [Hg Hdirs]; [done|].
  unfold is_dir in Hcd'.
  destruct (lookup_path (fs w') (code_dir ctx)) as [[z|es]|] eqn:Hl; try done.
  exists (merge_sort String.le (subdir_names es)).
  split; [by apply get_students_dir|].
  intros name Hname. rewrite Hg in Hname.
  destruct (Hdirs name Hname) as (s & Hm & Hd). exists s. split; [done|].
  destruct (is_dir_in_roster ctx (fs w') s Hd) as (roster & Hr & Hs).
  rewrite (get_students_dir _ _ _ Hl) in Hr. by injection Hr as <-.
Qed.

Lemma unpack_fills_roster_witness :
  exists roster,
    get_students Sample.ctx0 (fs Sample.w1) = Ok roster /\
    forall name, name ∈ ["bob_sub1.zip"; "alice_sub1.zip"] ->
      exists s, re_match_student name = Some s /\ s ∈ roster.
Proof.
  apply (unpack_fills_roster Sample.ctx0 Sample.w0 Sample.w1).
  vm_compute. reflexivity.
Defined.

Section UnpackOne.
Context {X : Type}.
Implicit Types w : @World X.

(** The body of the loop for a student without a directory, up to the
    opening of the archive. *)
Lemma unpack_submission_fresh (ctx : Ctx) (name s : string) w es :
  re_match_student name = Some s ->
  lookup_path (fs w) (code_dir ctx ++ [s]) = None ->
  lookup_path (fs w) (code_dir ctx) = Some (Dir es) ->
  exists t1,
    write_path (fs w) (code_dir ctx ++ [s]) (Dir []) = Some t1 /\
    lookup_path t1 (code_dir ctx ++ [s]) = Some (Dir []) /\
    unpack_submission ctx name w =
      (zip_file ← ZipFile (submissions_dir ctx ++ [name]);
       extractall zip_file (code_dir ctx ++ [s]);;
       print ("[blue]Processed " +:+ s +:+ ".")) (set_fs t1 w).
Proof.
  intros Hm Hnone Hcd.
  destruct (write_child (code_dir ctx) s (Dir []) (fs w) es Hcd) as [t1 Hw].
  exists t1. split; [done|]. split; [by apply (lookup_write_eq _ _ _ _ Hw)|].
  unfold unpack_submission. rewrite Hm. unfold is_dir. rewrite Hnone.
  munfold. unfold mkdir at 1. by rewrite Hnone, Hw.
Qed.

End UnpackOne.

(** X12. What [unpack] extracts.  For an archive whose student has no
    directory yet, in an existing code directory, the body of the loop
    completes: the student's directory holds the tree of the archive (its
    members having different names), the archive stays where it was, the
    student is reported as processed, and what lies below the directories of
    other students is untouched. *)
Theorem unpack_submission_extracts {X : Type} (ctx : Ctx) (name s : string)
    (w : @World X) (es payload : Entries) :
  re_match_student name = Some s ->
  lookup_path (fs w) (code_dir ctx ++ [s]) = None ->
  lookup_path (fs w) (code_dir ctx) = Some (Dir es) ->
  lookup_path (fs w) (submissions_dir ctx ++ [name]) = Some (File (Some payload)) ->
  NoDup (List.map fst payload) ->
  exists w',
    unpack_submission ctx name w = (Ok tt, w') /\
    lookup_path (fs w') (code_dir ctx ++ [s]) = Some (Dir payload) /\
    lookup_path (fs w') (submissions_dir ctx ++ [name]) = Some (File (Some payload)) /\
    console w' = console w ++ ["[blue]Processed " +:+ s +:+ "."] /\
    forall s' r,
      s' <> s ->
      lookup_path (fs w') (code_dir ctx ++ s' :: r)
        = lookup_path (fs w) (code_dir ctx ++ s' :: r).
Proof.
  intros Hm Hnone Hcd Hzip Hnd.
  destruct (unpack_submission_fresh ctx name s w es Hm Hnone Hcd)
    as (t1 & Hw1 & Hl1 & ->).
  assert (lookup_path t1 (submissions_dir ctx ++ [name]) = Some (File (Some payload)))
    as Hzip1.
  { eapply lookup_write_file; [exact Hw1| |exact Hzip]. by left. }
  destruct (write_existing (code_dir ctx ++ [s]) (Dir (extracted payload)) t1 _ Hl1)
    as [t2 Hw2].
  munfold. unfold ZipFile, extractall, print. simpl. rewrite Hzip1. simpl.
  rewrite Hl1. fold (extracted payload). rewrite Hw2. simpl.
  eexists. split; [done|]. simpl.
  split; [by rewrite (lookup_write_eq _ _ _ _ Hw2), extracted_NoDup|].
  split.
  { eapply lookup_write_file; [exact Hw2| |exact Hzip1]. by right. }
  split; [done|].
  intros s' r Hne.
  rewrite (lookup_write_sibling _ s s' r _ (not_eq_sym Hne) _ _ Hw2).
  by rewrite (lookup_write_sibling _ s s' r _ (not_eq_sym Hne) _ _ Hw1).
Qed.

Lemma unpack_submission_extracts_witness :
  exists w',
    unpack_submission Sample.ctx0 "alice_a1.zip" Sample2.resubmitted = (Ok tt, w') /\
    lookup_path (fs w') ["code"; "alice"] = Some (Dir [Sample.manifest]).
Proof.
  destruct (unpack_submission_extracts Sample.ctx0 "alice_a1.zip" "alice"
              Sample2.resubmitted [] [Sample.manifest])
    as (w' & Hrun & Hdir & _); try reflexivity.
  - apply (bool_decide_unpack _). vm_compute. exact I.
  - by exists w'.
Defined.

(** X13. An archive that cannot be opened leaves an empty directory
    behind.  For a student without a directory and a file that is no zip
    archive, the body of the loop raises [BadZipFile] after it has created
    the student's directory; nothing is printed, and from then on the same
    archive is passed over without a message. *)
Theorem unpack_bad_archive {X : Type} (ctx : Ctx) (name s : string)
    (w : @World X) (es : Entries) :
  re_match_student name = Some s ->
  lookup_path (fs w) (code_dir ctx ++ [s]) = None ->
  lookup_path (fs w) (code_dir ctx) = Some (Dir es) ->
  lookup_path (fs w) (submissions_dir ctx ++ [name]) = Some (File None) ->
  exists w1,
    unpack_submission ctx name w = (Raise BadZipFile, w1) /\
    lookup_path (fs w1) (code_dir ctx ++ [s]) = Some (Dir []) /\
    console w1 = console w /\
    unpack_submission ctx name w1 = (Ok tt, w1).
Proof.
  intros Hm Hnone Hcd Hfile.
  destruct (unpack_submission_fresh ctx name s w es Hm Hnone Hcd)
    as (t1 & Hw1 & Hl1 & ->).
  assert (lookup_path t1 (submissions_dir ctx ++ [name]) = Some (File None)) as Hfile1.
  { eapply lookup_write_file; [exact Hw1| |exact Hfile]. by left. }
  munfold. unfold ZipFile. simpl. rewrite Hfile1.
  eexists. split; [done|]. simpl. split; [done|]. split; [done|].
  apply (unpack_submission_skip ctx name s); [done|].
  unfold is_dir. simpl. by rewrite Hl1.
Qed.

Lemma unpack_bad_archive_witness :
  exists w1,
    unpack_submission Sample.ctx0 "bob_a1.zip" Sample2.resubmitted
      = (Raise BadZipFile, w1) /\
    unpack_submission Sample.ctx0 "bob_a1.zip" w1 = (Ok tt, w1).
Proof.
  destruct (unpack_bad_archive Sample.ctx0 "bob_a1.zip" "bob" Sample2.resubmitted [])
    as (w1 & Hrun & _ & _ & Hagain); try reflexivity.
  by exists w1.
Defined.

(** X14. One directory for each student: once the body of the loop has
    completed for an archive, every archive that carries the same student
    token is passed over, so of several archives of a student only the first
    one in the enumeration is unpacked. *)
Theorem unpack_first_archive_wins {X : Type} (ctx : Ctx) (name1 name2 s : string)
    (w w1 : @World X) :
  re_match_student name1 = Some s ->
  re_match_student name2 = Some s ->
  unpack_submission ctx name1 w = (Ok tt, w1) ->
  unpack_submission ctx name2 w1 = (Ok tt, w1) /\
  forall l w2,
    (forall name, name ∈ l -> re_match_student name = Some s) ->
    unpack_loop ctx (name1 :: l) w = (Ok tt, w2) -> w2 = w1.
Proof.
  intros Hm1 Hm2 Hstep.
  destruct (unpack_submission_stores _ _ _ _ _ Hstep) as (_ & _ & _ & Hdone).
  destruct (Hdone eq_refl) as (s' & Hm & Hd).
  assert (s' = s) as -> by congruence.
  split; [by apply (unpack_submission_skip ctx name2 s)|].
  intros l w2 Hall. rewrite unpack_loop_cons, Hstep.
  rewrite unpack_loop_all_skip; [by intros [= <-]|].
  intros name Hname. exists s. split; [by apply Hall|done].
Qed.

Lemma unpack_first_archive_wins_witness :
  let w1 := snd (unpack_submission Sample.ctx0 "alice_a1.zip" Sample2.resubmitted) in
  unpack_submission Sample.ctx0 "alice_a2.zip" w1 = (Ok tt, w1).
Proof.
  intros w1.
  apply (unpack_first_archive_wins Sample.ctx0 "alice_a1.zip" "alice_a2.zip" "alice"
           Sample2.resubmitted w1); reflexivity.
Defined.

(** ** The batches, continued *)

Section BatchesMore.
Context {X : Type}.
Variable shell : string -> option Path -> X -> CompletedProcess * X.
Variable json_envs : string -> option (list string).
Variable decode : string -> option string.
Variable markup_error : string -> bool.
Implicit Types w : @World X.

Lemma filter_needs_create_force (envs l : list string) :
  List.filter (needs_create envs true) l = l.
Proof.
  induction l as [|s l IH]; simpl; [done|].
  unfold needs_create at 1. by rewrite orb_true_r, IH.
Qed.


End BatchesMore.

(** X15. Forced creation.  With [force], [create_environments] makes its
    creation calls for the students in the order of the roster, whether
    their environments exist or not.  However the batch ends, the calls are
    those of a prefix of the roster; they are those of the whole roster, and
    the batch ends regularly, when the progress lines are printed and the
    manager carries out every creation. *)
Theorem create_force_recreates {X : Type}
    (shell : string -> option Path -> X -> CompletedProcess * X)
    (json_envs : string -> option (list string))
    (decode : string -> option string) (markup_error : string -> bool)
    (ctx : Ctx) (w w1 : @World X) (envs roster : list string) :
  get_all_environments shell json_envs w = (Ok envs, w1) ->
  get_students ctx (fs w) = Ok roster ->
  (exists r w' touched,
     create_environments shell json_envs decode markup_error ctx true w = (r, w') /\
     touched `prefix_of` roster /\
     calls w' = calls w1 ++ List.map create_call touched) /\
  ((forall s, s ∈ roster -> succeeds shell (create_command (make_env_name s))) ->
   (forall s, s ∈ roster -> markup_error (creating_line s) = false) ->
   exists w',
     create_environments shell json_envs decode markup_error ctx true w = (Ok tt, w') /\
     calls w' = calls w1 ++ List.map create_call roster).
Proof.
  intros Henvs Hr.
  rewrite (create_environments_loop shell json_envs decode markup_error ctx
             true w w1 envs roster Henvs Hr).
  split.
  - destruct (create_calls_prefix shell decode markup_error envs true roster w1)
      as (r & w' & touched & Hrun & Hpre & Hc).
    rewrite filter_needs_create_force in Hpre. by exists r, w', touched.
  - intros Hok Hlines.
    destruct (create_loop_success shell decode markup_error envs true roster
                Hok Hlines w1) as (w' & Hrun & _ & Hc).
    rewrite filter_needs_create_force in Hc. by exists w'.
Qed.

Lemma create_force_recreates_witness :
  let run := create_environments (Sample.shell []) Sample.json_envs
               Sample3.decode Sample3.markup_error Sample.ctx0 true Sample.populated in
  fst run = Ok tt /\
  calls (snd run)
    = [("conda env list --json", None);
       create_call "alice"; create_call "bob"; create_call "carol"].
Proof.
  intros run.
  destruct (create_force_recreates (Sample.shell []) Sample.json_envs
              Sample3.decode Sample3.markup_error
              Sample.ctx0 Sample.populated
              (snd (get_all_environments (Sample.shell []) Sample.json_envs
                      Sample.populated))
              ["env_alice"; "notebook"; "env_bob"; "env_carol"]
              ["alice"; "bob"; "carol"]) as (_ & Hall).
  - vm_compute. reflexivity.
  - vm_compute. reflexivity.
  - destruct Hall as (w' & Hrun & Hcalls).
    + intros s Hs dir x. apply list_elem_of_In in Hs.
      destruct Hs as [<-|[<-|[<-|[]]]]; reflexivity.
    + intros s Hs. apply list_elem_of_In in Hs.
      destruct Hs as [<-|[<-|[<-|[]]]]; reflexivity.
    + unfold run. rewrite Hrun. split; [reflexivity|].
      cbn [snd]. rewrite Hcalls. reflexivity.
Defined.



(** X18. The error policy of the batches where a refusal can be reported.
    [create_environments] stops at a refused creation, whatever becomes of
    the report: the outcome is that of the roster cut after the refused
    student, and the creation calls are those of a prefix of the students
    that need one.  When the progress lines are printed and the error output
    of the manager can be decoded and printed, [remove_environments] and
    [install_environments] go through the whole roster whatever is refused:
    every student with an environment gets the removal call, and every
    student with an environment and a manifest gets the installation call.
    With three students and a manager that refuses the second, creation
    calls are made for the first and the second only, removal calls for all
    three, and the first and the third are installed and imported.  The
    manifests are those of the tree at the start of the batch, which the
    commands of the manager are taken to leave as it is. *)
Theorem batches_stop_or_continue {X : Type}
    (shell : string -> option Path -> X -> CompletedProcess * X)
    (json_envs : string -> option (list string))
    (decode : string -> option string) (markup_error : string -> bool)
    (ctx : Ctx) (w w1 : @World X) (envs roster : list string) :
  get_all_environments shell json_envs w = (Ok envs, w1) ->
  get_students ctx (fs w) = Ok roster ->
  (forall force pre s post,
     roster = pre ++ s :: post ->
     needs_create envs force s = true ->
     fails shell (create_command (make_env_name s)) ->
     create_environments shell json_envs decode markup_error ctx force w =
       for_ (pre ++ [s]) (create_environment shell decode markup_error envs force) w1 /\
     exists r w' touched,
       create_environments shell json_envs decode markup_error ctx force w = (r, w') /\
       touched `prefix_of` List.filter (needs_create envs force) (pre ++ [s]) /\
       calls w' = calls w1 ++ List.map create_call touched) /\
  (prints markup_error roster ->
   reports shell decode markup_error ->
   (exists w',
      remove_environments shell json_envs decode markup_error ctx w = (Ok tt, w') /\
      calls w' = calls w1 ++
                 List.map remove_call (List.filter (has_environment envs) roster)) /\
   (exists w' new,
      install_environments shell json_envs decode markup_error ctx w = (Ok tt, w') /\
      calls w' = calls w1 ++ new /\
      List.filter in_directory new = installs_due ctx (fs w) envs roster) /\
   (forall s1 s2 s3,
      roster = [s1; s2; s3] ->
      (forall force,
         needs_create envs force s1 = true ->
         needs_create envs force s2 = true ->
         succeeds shell (create_command (make_env_name s1)) ->
         fails shell (create_command (make_env_name s2)) ->
         exists w',
           create_environments shell json_envs decode markup_error ctx force w
             = (Ok tt, w') /\
           calls w' = calls w1 ++ [create_call s1; create_call s2]) /\
      (has_environment envs s1 = true ->
       has_environment envs s2 = true ->
       has_environment envs s3 = true ->
       exists w',
         remove_environments shell json_envs decode markup_error ctx w = (Ok tt, w') /\
         calls w' = calls w1 ++ [remove_call s1; remove_call s2; remove_call s3]) /\
      (forall m1 m2 m3,
         has_environment envs s1 = true ->
         has_environment envs s2 = true ->
         has_environment envs s3 = true ->
         find_pyproject_toml ctx (fs w) s1 = Some m1 ->
         find_pyproject_toml ctx (fs w) s2 = Some m2 ->
         find_pyproject_toml ctx (fs w) s3 = Some m3 ->
         succeeds shell (install_command (make_env_name s1)) ->
         fails shell (install_command (make_env_name s2)) ->
         succeeds shell (install_command (make_env_name s3)) ->
         exists w',
           install_environments shell json_envs decode markup_error ctx w
             = (Ok tt, w') /\
           calls w' = calls w1 ++
                      [install_call s1 m1; import_call s1; install_call s2 m2;
                       install_call s3 m3; import_call s3]))).
Proof.
  intros Henvs Hr.
  destruct (get_all_environments_ok _ _ _ _ _ Henvs) as (Hfs & _).
  pose proof (fun force =>
                create_environments_loop shell json_envs decode markup_error ctx
                  force w w1 envs roster Henvs Hr) as Hcreate.
  pose proof (remove_environments_loop shell json_envs decode markup_error ctx
                w w1 envs roster Henvs Hr) as Hremove.
  pose proof (install_environments_loop shell json_envs decode markup_error ctx
                w w1 envs roster Henvs Hr) as Hinstall.
  split.
  - intros force pre s post -> Hneed Hfail.
    rewrite Hcreate,
      (create_fail_fast shell decode markup_error envs force s Hneed Hfail).
    split; [done|].
    destruct (create_calls_prefix shell decode markup_error envs force (pre ++ [s]) w1)
      as (r & w' & touched & Hrun & Hpre & Hcalls).
    by exists r, w', touched.
  - intros Hprints Hrep. split; [|split].
    + rewrite Hremove. by apply remove_loop.
    + rewrite Hinstall.
      destruct (install_loop shell decode markup_error ctx envs roster Hprints Hrep w1)
        as (w' & new & Hrun & _ & Hc & Hd).
      exists w', new. by rewrite <- Hfs.
    + intros s1 s2 s3 ->.
      assert (forall s, s ∈ [s1; s2; s3] -> prints markup_error [s]) as Hone.
      { intros s Hs s' line ->%list_elem_of_singleton Hline.
        by apply (Hprints s line). }
      assert (forall s, s ∈ [s1; s2; s3] -> markup_error (creating_line s) = false)
        as Hcline.
      { intros s Hs. apply (Hprints s _ Hs). unfold progress_lines.
        apply list_elem_of_here. }
      assert (s1 ∈ [s1; s2; s3]) as Hin1 by (by repeat constructor).
      assert (s2 ∈ [s1; s2; s3]) as Hin2 by (by repeat constructor).
      assert (s3 ∈ [s1; s2; s3]) as Hin3 by (by repeat constructor).
      split; [|split].
      * intros force Hn1 Hn2 Hok1 Hfail2. rewrite Hcreate, for_cons.
        destruct (create_environment_success shell decode markup_error envs force
                    s1 w1 Hn1 (Hcline s1 Hin1) Hok1) as (w2 & -> & _ & Hc2).
        cbv beta iota. rewrite for_cons.
        destruct (create_environment_failure shell decode markup_error envs force
                    s2 w2 Hn2 (Hcline s2 Hin2) Hfail2 Hrep) as (w3 & -> & Hc3).
        exists w3. split; [done|]. by rewrite Hc3, Hc2, <- app_assoc.
      * intros H1 H2 H3. rewrite Hremove.
        destruct (remove_loop shell decode markup_error envs [s1; s2; s3]
                    Hprints Hrep w1) as (w' & Hrun & Hc).
        exists w'. split; [done|]. rewrite Hc. simpl. by rewrite H1, H2, H3.
      * intros m1 m2 m3 H1 H2 H3 Hm1 Hm2 Hm3 Hok1 Hfail2 Hok3.
        rewrite Hinstall, for_cons. rewrite <- Hfs in Hm1, Hm2, Hm3.
        destruct (install_environment_success shell decode markup_error ctx envs
                    s1 m1 w1 (Hone s1 Hin1) Hrep H1 Hm1 Hok1)
          as (w2 & -> & Hfs2 & Hc2).
        rewrite <- Hfs2 in Hm2, Hm3. cbv beta iota. rewrite for_cons.
        destruct (install_environment_failure shell decode markup_error ctx envs
                    s2 m2 w2 (Hone s2 Hin2) Hrep H2 Hm2 Hfail2)
          as (w3 & -> & Hfs3 & Hc3).
        rewrite <- Hfs3 in Hm3. cbv beta iota. rewrite for_cons.
        destruct (install_environment_success shell decode markup_error ctx envs
                    s3 m3 w3 (Hone s3 Hin3) Hrep H3 Hm3 Hok3)
          as (w4 & -> & _ & Hc4).
        exists w4. split; [done|]. rewrite Hc4, Hc3, Hc2, <- !app_assoc. done.
Qed.

Lemma batches_stop_or_continue_witness :
  calls (snd (create_environments (Sample.shell ["bob"]) Sample.json_envs
                Sample3.decode Sample3.markup_error Sample.ctx0 false Sample.fresh))
    = [("conda env list --json", None); create_call "alice"; create_call "bob"] /\
  calls (snd (remove_environments (Sample.shell ["bob"]) Sample.json_envs
                Sample3.decode Sample3.markup_error Sample.ctx0 Sample.populated))
    = [("conda env list --json", None);
       remove_call "alice"; remove_call "bob"; remove_call "carol"] /\
  calls (snd (install_environments (Sample.shell ["bob"]) Sample.json_envs
                Sample3.decode Sample3.markup_error Sample.ctx0 Sample.populated))
    = [("conda env list --json", None);
       install_call "alice" ["code"; "alice"; "pyproject.toml"]; import_call "alice";
       install_call "bob" ["code"; "bob"; "src"; "pyproject.toml"];
       install_call "carol" ["code"; "carol"; "pyproject.toml"]; import_call "carol"].
Proof.
  assert (prints Sample3.markup_error ["alice"; "bob"; "carol"]) as Hprints.
  { intros s line Hs Hline. apply list_elem_of_In in Hs.
    destruct Hs as [<-|[<-|[<-|[]]]]; apply list_elem_of_In in Hline;
      destruct Hline as [<-|[<-|[<-|[<-|[<-|[]]]]]]; reflexivity. }
  assert (reports (Sample.shell ["bob"]) Sample3.decode Sample3.markup_error) as Hrep.
  { intros prefix cmd dir x Hp _. unfold Sample.shell.
    destruct (String.eqb cmd "conda env list --json");
      [|destruct (mem cmd (flat_map Sample.commands_of ["bob"]));
        [|destruct (List.find _ Sample.students3);
          [|destruct (List.find _ Sample.students3)]]];
      apply list_elem_of_In in Hp;
      destruct Hp as [<-|[<-|[<-|[<-|[]]]]]; reflexivity. }
  pose proof (batches_stop_or_continue (Sample.shell ["bob"]) Sample.json_envs
                Sample3.decode Sample3.markup_error
                Sample.ctx0 Sample.fresh
                (snd (get_all_environments (Sample.shell ["bob"]) Sample.json_envs
                        Sample.fresh))
                [] ["alice"; "bob"; "carol"]) as Hfresh.
  pose proof (batches_stop_or_continue (Sample.shell ["bob"]) Sample.json_envs
                Sample3.decode Sample3.markup_error
                Sample.ctx0 Sample.populated
                (snd (get_all_environments (Sample.shell ["bob"]) Sample.json_envs
                        Sample.populated))
                ["env_alice"; "notebook"; "env_bob"; "env_carol"]
                ["alice"; "bob"; "carol"]) as Hpop.
  destruct Hfresh as (_ & Hfresh);
    [vm_compute; reflexivity | vm_compute; reflexivity |].
  destruct Hpop as (_ & Hpop);
    [vm_compute; reflexivity | vm_compute; reflexivity |].
  destruct (Hfresh Hprints Hrep) as (_ & _ & Hthree).
  destruct (Hpop Hprints Hrep) as (_ & _ & Hthree').
  destruct (Hthree "alice" "bob" "carol" eq_refl) as (Hcreate & _).
  destruct (Hthree' "alice" "bob" "carol" eq_refl) as (_ & Hremove & Hinstall).
  split; [|split].
  - destruct (Hcreate false) as (w' & Hrun & Hcalls).
    + reflexivity.
    + reflexivity.
    + intros dir x. reflexivity.
    + intros dir x H. vm_compute in H. discriminate H.
    + rewrite Hrun. simpl snd. rewrite Hcalls. reflexivity.
  - destruct Hremove as (w' & Hrun & Hcalls).
    + reflexivity.
    + reflexivity.
    + reflexivity.
    + rewrite Hrun. simpl snd. rewrite Hcalls. reflexivity.
  - destruct (Hinstall ["code"; "alice"; "pyproject.toml"]
                       ["code"; "bob"; "src"; "pyproject.toml"]
                       ["code"; "carol"; "pyproject.toml"])
      as (w' & Hrun & Hcalls).
    + reflexivity.
    + reflexivity.
    + reflexivity.
    + reflexivity.
    + reflexivity.
    + reflexivity.
    + intros dir x. reflexivity.
    + intros dir x H. vm_compute in H. discriminate H.
    + intros dir x. reflexivity.
    + rewrite Hrun. simpl snd. rewrite Hcalls. reflexivity.
Defined.

(** ** Starting *)


